(** * Telemetry ingestion, device liveness and the cleanup scheduler

    A shallow embedding of [server/mqtt-client.ts], [server/cleanup-scheduler.ts]
    and of the part of [server/storage.ts] they call, followed by the
    properties of the specification stated over it.

    Conventions of the embedding.
    - A [Date] is its time value: milliseconds since the epoch, in [Z].
    - A JavaScript number is an exact rational, [NaN] or an infinity; the
      rounding of IEEE doubles is not represented.
    - A string is a [string] of bytes.
    - An [async] function is run to completion where it is called: an
      awaited call returns in place, a promise chain ([.then]) runs where it
      is built, a timer ([setTimeout]) advances the clock and runs its
      callback.  Interleaving of handlers at the await points is therefore
      outside the model.
    - Everything outside the process (the database behind [storage], the
      brokers) answers through an oracle carried by the state.  A call on
      [storage] that throws leaves the tables as they were, except in the
      two methods that await a write and then a read, which can also throw
      with the write done. *)

From Stdlib Require Import ZArith QArith String Ascii List Lia Bool.
From stdpp Require Import base gmap strings list.
From Equations Require Import Equations.

Set Warnings "-register-all".

Open Scope string_scope.
Open Scope Z_scope.
Open Scope list_scope.

(** ** The JavaScript run time the sources rely on *)

Module JS.

(** *** Numbers *)

Inductive number : Type :=
| NaN
| Fin (q : Q)
| Inf (negative : bool).

Definition of_Z (n : Z) : number := Fin (inject_Z n).

(** [a >= b] *)
Definition ge (a b : number) : bool :=
  match a, b with
  | NaN, _ | _, NaN => false
  | Fin x, Fin y => Qle_bool y x
  | Inf false, _ => true
  | Inf true, Inf true => true
  | Inf true, _ => false
  | Fin _, Inf n => n
  end.

Definition isNaN (a : number) : bool :=
  match a with NaN => true | _ => false end.

(** ToBoolean on a number: [NaN] and zero are falsy. *)
Definition truthy (a : number) : bool :=
  match a with
  | NaN => false
  | Fin q => negb (Qeq_bool q 0)
  | Inf _ => true
  end.

(** [a || b] on numbers *)
Definition or (a b : number) : number := if truthy a then a else b.

(** *** Characters *)

Definition dquote : ascii := ascii_of_nat 34.
Definition backslash : ascii := ascii_of_nat 92.

Definition code (c : ascii) : Z := Z.of_nat (nat_of_ascii c).

Definition is_digit (c : ascii) : bool := (48 <=? code c) && (code c <=? 57).

Definition digit_val (c : ascii) : Z := code c - 48.

Definition hex_val (c : ascii) : option Z :=
  let n := code c in
  if (48 <=? n) && (n <=? 57) then Some (n - 48)
  else if (65 <=? n) && (n <=? 70) then Some (n - 55)
  else if (97 <=? n) && (n <=? 102) then Some (n - 87)
  else None.

Fixpoint has_prefix (p s : string) : option string :=
  match p, s with
  | EmptyString, _ => Some s
  | String a p', String b s' => if Ascii.eqb a b then has_prefix p' s' else None
  | String _ _, EmptyString => None
  end.

(** A run of decimal digits: the value read so far, how many digits were
    read, and the rest of the text. *)
Fixpoint digits (s : string) (acc : Z) (n : Z) : Z * Z * string :=
  match s with
  | String c r => if is_digit c then digits r (10 * acc + digit_val c) (n + 1)
                  else (acc, n, s)
  | EmptyString => (acc, n, s)
  end.

(** [m * 10 ^ e] *)
Definition scale (m e : Z) : Q :=
  if 0 <=? e then inject_Z (m * 10 ^ e)
  else Qmake m (Z.to_pos (10 ^ (- e))).

(** An exponent part [e], [e+] or [e-] followed by at least one digit;
    without the digit the exponent is not part of the literal. *)
Definition exponent (s : string) : Z * string :=
  match s with
  | String c r =>
      if Ascii.eqb c "e" || Ascii.eqb c "E" then
        let '(neg, r1) :=
          match r with
          | String "-" r' => (true, r')
          | String "+" r' => (false, r')
          | _ => (false, r)
          end in
        let '(v, n, r2) := digits r1 0 0 in
        if n =? 0 then (0, s) else ((if neg : bool then - v else v), r2)
      else (0, s)
  | EmptyString => (0, s)
  end.

(** *** parseFloat *)

(** StrWhiteSpaceChar, on the UTF-8 bytes of the text. *)
Fixpoint trimStart (fuel : nat) (s : string) : string :=
  match fuel with
  | O => s
  | S f =>
      match s with
      | String c r =>
          let n := code c in
          if (n =? 32) || ((9 <=? n) && (n <=? 13)) then trimStart f r
          else
            match has_prefix (String (ascii_of_nat 194) (String (ascii_of_nat 160) EmptyString)) s with
            | Some r2 => trimStart f r2
            | None =>
                match has_prefix (String (ascii_of_nat 239) (String (ascii_of_nat 187)
                                    (String (ascii_of_nat 191) EmptyString))) s with
                | Some r3 => trimStart f r3
                | None =>
                    match s with
                    | String c1 (String c2 (String c3 r3)) =>
                        let a := code c1 in let b := code c2 in let d := code c3 in
                        if ((a =? 226) && (b =? 128)
                              && (((128 <=? d) && (d <=? 138)) || (d =? 168) || (d =? 169) || (d =? 175)))
                           || ((a =? 226) && (b =? 129) && (d =? 159))
                           || ((a =? 225) && (b =? 154) && (d =? 128))
                           || ((a =? 227) && (b =? 128) && (d =? 128))
                        then trimStart f r3 else s
                    | _ => s
                    end
                end
            end
      | EmptyString => s
      end
  end.

(** StrUnsignedDecimalLiteral, longest prefix. *)
Definition unsignedDecimal (s : string) : option Q :=
  let '(ip, ni, r1) := digits s 0 0 in
  let '(m, nf, r2) :=
    match r1 with
    | String "." r => let '(v, n, r') := digits r ip 0 in (v, n, r')
    | _ => (ip, 0, r1)
    end in
  if (ni =? 0) && (nf =? 0) then None
  else let '(e, _) := exponent r2 in Some (scale m (e - nf)).

Definition parseFloat (input : string) : number :=
  let s := trimStart (String.length input) input in
  let '(neg, r) :=
    match s with
    | String "-" r' => (true, r')
    | String "+" r' => (false, r')
    | _ => (false, s)
    end in
  match has_prefix "Infinity" r with
  | Some _ => Inf neg
  | None =>
      match unsignedDecimal r with
      | Some q => Fin (if neg then Qopp q else q)
      | None => NaN
      end
  end.

(** *** JSON.parse *)

Inductive value : Type :=
| JNull
| JBool (b : bool)
| JNumber (n : number)
| JString (s : string)
| JArray (items : list value)
| JObject (props : list (string * value)).

Fixpoint skipWs (s : string) : string :=
  match s with
  | String c r =>
      let n := code c in
      if (n =? 32) || (n =? 9) || (n =? 10) || (n =? 13) then skipWs r else s
  | EmptyString => s
  end.

(** JSON number: [-]? int frac? exp?, with no leading zero in [int]. *)
Definition jsonNumber (s : string) : option (number * string) :=
  let '(neg, r) :=
    match s with
    | String "-" r' => (true, r')
    | _ => (false, s)
    end in
  let int :=
    match r with
    | String "0" r' => Some (0, r')
    | _ => let '(v, n, r') := digits r 0 0 in if n =? 0 then None else Some (v, r')
    end in
  match int with
  | None => None
  | Some (ip, r1) =>
      let frac :=
        match r1 with
        | String "." r' =>
            let '(v, n, r'') := digits r' ip 0 in
            if n =? 0 then None else Some (v, n, r'')
        | _ => Some (ip, 0, r1)
        end in
      match frac with
      | None => None
      | Some (m, nf, r2) =>
          let '(e, r3) :=
            match r2 with
            | String c r' =>
                if Ascii.eqb c "e" || Ascii.eqb c "E" then
                  let '(e, r'') := exponent r2 in
                  (Some e, r'')
                else (Some 0, r2)
            | EmptyString => (Some 0, r2)
            end in
          match e with
          | None => None
          | Some e =>
              match r3 with
              | String c _ =>
                  (* an [e] that no digit follows is a syntax error *)
                  if (Ascii.eqb c "e" || Ascii.eqb c "E") then None
                  else Some (Fin (scale (if neg then - m else m) (e - nf)), r3)
              | EmptyString => Some (Fin (scale (if neg then - m else m) (e - nf)), r3)
              end
          end
      end
  end.

(** UTF-8 bytes of a code point. *)
Definition byte (n : Z) : ascii := ascii_of_nat (Z.to_nat n).

Definition utf8 (cp : Z) (rest : string) : string :=
  if cp <? 128 then String (byte cp) rest
  else if cp <? 2048 then
    String (byte (192 + cp / 64)) (String (byte (128 + cp mod 64)) rest)
  else if cp <? 65536 then
    String (byte (224 + cp / 4096))
      (String (byte (128 + (cp / 64) mod 64)) (String (byte (128 + cp mod 64)) rest))
  else
    String (byte (240 + cp / 262144))
      (String (byte (128 + (cp / 4096) mod 64))
         (String (byte (128 + (cp / 64) mod 64)) (String (byte (128 + cp mod 64)) rest))).

Definition hex4 (s : string) : option (Z * string) :=
  match s with
  | String a (String b (String c (String d r))) =>
      match hex_val a, hex_val b, hex_val c, hex_val d with
      | Some x, Some y, Some z, Some w => Some (((x * 16 + y) * 16 + z) * 16 + w, r)
      | _, _, _, _ => None
      end
  | _ => None
  end.

(** The characters of a JSON string after its opening quote, up to and
    including the closing one. *)
Fixpoint jsonChars (fuel : nat) (s : string) : option (string * string) :=
  match fuel with
  | O => None
  | S f =>
      match s with
      | EmptyString => None
      | String c r =>
          if Ascii.eqb c dquote then Some (EmptyString, r)
          else if Ascii.eqb c backslash then
            match r with
            | String e r' =>
                let simple (b : Z) :=
                  match jsonChars f r' with
                  | Some (t, rest) => Some (String (byte b) t, rest)
                  | None => None
                  end in
                if Ascii.eqb e dquote then simple 34
                else if Ascii.eqb e backslash then simple 92
                else if Ascii.eqb e "/" then simple 47
                else if Ascii.eqb e "b" then simple 8
                else if Ascii.eqb e "f" then simple 12
                else if Ascii.eqb e "n" then simple 10
                else if Ascii.eqb e "r" then simple 13
                else if Ascii.eqb e "t" then simple 9
                else if Ascii.eqb e "u" then
                  match hex4 r' with
                  | Some (hi, r1) =>
                      let pair :=
                        if (55296 <=? hi) && (hi <=? 56319) then
                          match r1 with
                          | String b1 (String b2 r2) =>
                              if Ascii.eqb b1 backslash && Ascii.eqb b2 "u" then
                                match hex4 r2 with
                                | Some (lo, r3) =>
                                    if (56320 <=? lo) && (lo <=? 57343)
                                    then Some (65536 + (hi - 55296) * 1024 + (lo - 56320), r3)
                                    else None
                                | None => None
                                end
                              else None
                          | _ => None
                          end
                        else None in
                      let '(cp, r4) := match pair with Some p => p | None => (hi, r1) end in
                      match jsonChars f r4 with
                      | Some (t, rest) => Some (utf8 cp t, rest)
                      | None => None
                      end
                  | None => None
                  end
                else None
            | EmptyString => None
            end
          else if code c <? 32 then None
          else
            match jsonChars f r with
            | Some (t, rest) => Some (String c t, rest)
            | None => None
            end
      end
  end.

Definition jsonString (s : string) : option (string * string) :=
  jsonChars (String.length s) s.

(** One JSON value and the text that follows it.  The fuel bounds the
    nesting of the recursive calls, each made after at least one
    character of the text has been consumed. *)
Fixpoint jsonValue (fuel : nat) (s : string) {struct fuel} : option (value * string) :=
  match fuel with
  | O => None
  | S f =>
      match skipWs s with
      | EmptyString => None
      | String c r =>
          if Ascii.eqb c "{" then
            match skipWs r with
            | String "}" r' => Some (JObject [], r')
            | r1 => jsonMembers f r1 []
            end
          else if Ascii.eqb c "[" then
            match skipWs r with
            | String "]" r' => Some (JArray [], r')
            | r1 => jsonElements f r1 []
            end
          else if Ascii.eqb c dquote then
            match jsonString r with
            | Some (t, r') => Some (JString t, r')
            | None => None
            end
          else
            match has_prefix "null" (String c r) with
            | Some r' => Some (JNull, r')
            | None =>
                match has_prefix "true" (String c r) with
                | Some r' => Some (JBool true, r')
                | None =>
                    match has_prefix "false" (String c r) with
                    | Some r' => Some (JBool false, r')
                    | None =>
                        match jsonNumber (String c r) with
                        | Some (n, r') => Some (JNumber n, r')
                        | None => None
                        end
                    end
                end
            end
      end
  end
with jsonElements (fuel : nat) (s : string) (acc : list value) {struct fuel}
  : option (value * string) :=
  match fuel with
  | O => None
  | S f =>
      match jsonValue f s with
      | Some (v, r) =>
          match skipWs r with
          | String "," r' => jsonElements f r' (v :: acc)
          | String "]" r' => Some (JArray (rev (v :: acc)), r')
          | _ => None
          end
      | None => None
      end
  end
with jsonMembers (fuel : nat) (s : string) (acc : list (string * value)) {struct fuel}
  : option (value * string) :=
  match fuel with
  | O => None
  | S f =>
      match skipWs s with
      | String c r =>
          if Ascii.eqb c dquote then
            match jsonString r with
            | Some (k, r1) =>
                match skipWs r1 with
                | String ":" r2 =>
                    match jsonValue f r2 with
                    | Some (v, r3) =>
                        match skipWs r3 with
                        | String "," r' => jsonMembers f r' ((k, v) :: acc)
                        | String "}" r' => Some (JObject (rev ((k, v) :: acc)), r')
                        | _ => None
                        end
                    | None => None
                    end
                | _ => None
                end
            | None => None
            end
          else None
      | EmptyString => None
      end
  end.

(** [JSON.parse text]; [None] stands for the [SyntaxError] it throws. *)
Definition JSON_parse (text : string) : option value :=
  match jsonValue (2 * String.length text + 2) text with
  | Some (v, r) => match skipWs r with EmptyString => Some v | _ => None end
  | None => None
  end.

(** *** Property access and coercions on parsed values *)

(** [v && typeof v === 'object'] as a condition *)
Definition isObject (v : value) : bool :=
  match v with
  | JObject _ | JArray _ => true
  | _ => false
  end.

(** The last binding of a name wins in an object built by [JSON.parse]. *)
Fixpoint lookupLast (name : string) (props : list (string * value)) : option value :=
  match props with
  | [] => None
  | (k, v) :: rest =>
      match lookupLast name rest with
      | Some v' => Some v'
      | None => if String.eqb k name then Some v else None
      end
  end.

(** [v.name], for a name that is neither an array index nor inherited;
    [None] is [undefined]. *)
Definition getProp (v : value) (name : string) : option value :=
  match v with
  | JObject props => lookupLast name props
  | _ => None
  end.

(** ToString throws a [TypeError] on an object that has an own property
    [toString]: the property is not callable, and [valueOf] returns the
    object itself.  An array converts all its items. *)
Fixpoint toStringThrows (v : value) : bool :=
  match v with
  | JObject props =>
      match lookupLast "toString" props with
      | Some _ => true
      | None => false
      end
  | JArray items => existsb toStringThrows items
  | _ => false
  end.

(** [parseFloat(ToString v)] when ToString returns.  A number prints to a
    text that reads back as itself; an array prints its items separated
    by commas, and a comma ends the numeric prefix. *)
Fixpoint parseFloatOfString (v : value) : number :=
  match v with
  | JNumber n => n
  | JString s => parseFloat s
  | JArray (x :: _) => parseFloatOfString x
  | _ => NaN
  end.

(** [parseFloat(v)]; [None] stands for the [TypeError]. *)
Definition parseFloatValue (v : value) : option number :=
  if toStringThrows v then None else Some (parseFloatOfString v).

End JS.

(** ** The data model ([shared/schema.ts]) *)

Module Device.
Record t : Type := mk {
  id : Z;
  deviceId : string;
  name : string;
  mqttBroker : string;
  mqttTopic : string;
  protocol : string;
  username : option string;
  password : option string;
  status : string;
  lastSeen : option Z;
  isActive : bool;
  displayOrder : Z
}.

(** The fields of a [Partial<Device>] that the core writes. *)
Record partial : Type := mkPartial {
  status' : option string;
  lastSeen' : option (option Z)
}.

(** [{ ...device, ...updates }] *)
Definition merge (d : t) (u : partial) : t :=
  {| id := id d; deviceId := deviceId d; name := name d;
     mqttBroker := mqttBroker d; mqttTopic := mqttTopic d;
     protocol := protocol d; username := username d; password := password d;
     status := default (status d) (status' u);
     lastSeen := default (lastSeen d) (lastSeen' u);
     isActive := isActive d; displayOrder := displayOrder d |}.
End Device.

Module DeviceData.
Record t : Type := mk {
  id : Z;
  deviceId : string;
  timestamp : Z;
  alcoholLevel : JS.number;
  alertStatus : string
}.

(** [InsertDeviceData] *)
Record insert : Type := mkInsert {
  deviceId' : string;
  alcoholLevel' : JS.number;
  alertStatus' : string
}.
End DeviceData.

Module DeviceOfflineEvent.
Record t : Type := mk {
  id : Z;
  deviceId : string;
  offlineAt : Z
}.
End DeviceOfflineEvent.

Module CleanupSchedule.
Record t : Type := mk {
  id : Z;
  taskName : string;
  lastExecutionTime : option Z;
  nextScheduledTime : option Z;
  intervalDays : Z;
  executionHour : Z;
  executionMinute : Z;
  isEnabled : bool;
  createdAt : Z;
  updatedAt : Z
}.

(** The fields of the [Partial<...>] that the scheduler writes. *)
Record partial : Type := mkPartial {
  lastExecutionTime' : option (option Z);
  nextScheduledTime' : option (option Z);
  isEnabled' : option bool
}.

(** [{ ...schedule, ...updates, updatedAt: new Date() }] *)
Definition merge (s : t) (u : partial) (now : Z) : t :=
  {| id := id s; taskName := taskName s;
     lastExecutionTime := default (lastExecutionTime s) (lastExecutionTime' u);
     nextScheduledTime := default (nextScheduledTime s) (nextScheduledTime' u);
     intervalDays := intervalDays s;
     executionHour := executionHour s; executionMinute := executionMinute s;
     isEnabled := default (isEnabled s) (isEnabled' u);
     createdAt := createdAt s; updatedAt := now |}.
End CleanupSchedule.

(** [BatchedData] of [mqtt-client.ts] *)
Module BatchedData.
Record t : Type := mk {
  deviceId : string;
  alcoholLevel : JS.number;
  alertStatus : string;
  timestamp : Z
}.
End BatchedData.

(** An entry of [latestReadingsCache], also the payload of a sensor
    broadcast.  The timestamp is the clock reading that [toISOString]
    prints. *)
Module Reading.
Record t : Type := mk {
  alcoholLevel : JS.number;
  timestamp : Z;
  alertStatus : string
}.
End Reading.

(** ** The state of the process and of its surroundings *)

(** The calls made on [storage]. *)
Inductive StorageCall : Type :=
| GetDevices
| UpdateDevice (id : Z) (updates : Device.partial)
| CreateDeviceData (insertData : DeviceData.insert)
| LogDeviceOfflineEvent (deviceId : string) (offlineAt : Z)
| ClearAllDeviceData
| GetCleanupSchedule (taskName : string)
| UpdateCleanupSchedule (taskName : string) (updates : CleanupSchedule.partial).

(** The options of [mqtt.connect] that the handlers depend on, and which
    set of handlers the client was given: those of [connectToDevice], or
    those of [retryWithDifferentProtocol] at a protocol version.  The broker
    URL, the client identifier and the credentials play no part in what the
    handlers do and are left out. *)
Inductive Handlers : Type :=
| Primary
| Retry (protocolVersion : Z).

Record Client : Type := mkClient {
  owner : string;
  handlers : Handlers;
  protocolVersion : Z;
  reconnectPeriod : Z;
  ended : bool
}.

(** What a broker does with a new connection. *)
Inductive BrokerReply : Type :=
| ReplyConnect (subscribeError : bool)
| ReplyError (message : string)
| ReplyNothing.

(** What the process does that can be seen from outside a handler, in
    program order. *)
Inductive Event : Type :=
| EStorage (call : StorageCall) (ok : bool)
| EDeviceBroadcast (device : Device.t)
| ESensorBroadcast (deviceId : string) (data : Reading.t)
| ECacheSet (deviceId : string) (data : Reading.t)
| EEnqueue (data : BatchedData.t)
| EFlush (retryOnError : bool)
| EMqttConnect (deviceId : string) (handle : nat) (client : Client)
| EClientEnd (handle : nat)
| ESubscribe (topic : string) (ok : bool)
| ETimeout (ms : Z)
| EUnhandledRejection (reason : string)
| ELog (message : string).

(** The tables behind [storage], held as [MemStorage] holds them. *)
Record Storage : Type := mkStorage {
  devices : list Device.t;
  deviceData : list DeviceData.t;
  offlineEvents : list DeviceOfflineEvent.t;
  cleanupSchedules : gmap string CleanupSchedule.t;
  currentDeviceDataId : Z;
  currentOfflineEventId : Z
}.

(** The fields of [MqttClientService] and the two module-level
    broadcasters (set or [null]). *)
Record Service : Type := mkService {
  clients : gmap string nat;
  subscribedTopics : gset string;
  batchBuffer : list BatchedData.t;
  latestReadingsCache : gmap string Reading.t;
  webSocketBroadcaster : bool;
  sensorDataBroadcaster : bool
}.

(** The surroundings: the clock, the connections the MQTT library holds,
    and the oracles.  [faults n c] says whether the [n]-th call made on
    [storage], being the call [c], throws; [written n c] says, for a call
    that throws in a method that awaits its write and then a second
    statement, whether the write had been executed; [broker h] is the
    answer of the broker to the [h]-th connection. *)
Record Env : Type := mkEnv {
  clock : Z;
  connections : list Client;
  faults : nat -> StorageCall -> bool;
  written : nat -> StorageCall -> bool;
  calls : nat;
  broker : nat -> BrokerReply
}.

Record World : Type := mkWorld {
  storage : Storage;
  service : Service;
  env : Env;
  trace : list Event
}.

Definition with_storage (f : Storage -> Storage) (w : World) : World :=
  {| storage := f (storage w); service := service w; env := env w; trace := trace w |}.

Definition with_service (f : Service -> Service) (w : World) : World :=
  {| storage := storage w; service := f (service w); env := env w; trace := trace w |}.

Definition with_env (f : Env -> Env) (w : World) : World :=
  {| storage := storage w; service := service w; env := f (env w); trace := trace w |}.

Definition emit (e : Event) (w : World) : World :=
  {| storage := storage w; service := service w; env := env w; trace := trace w ++ [e] |}.

Definition set_devices (v : list Device.t) (s : Storage) : Storage :=
  {| devices := v; deviceData := deviceData s; offlineEvents := offlineEvents s;
     cleanupSchedules := cleanupSchedules s;
     currentDeviceDataId := currentDeviceDataId s;
     currentOfflineEventId := currentOfflineEventId s |}.

Definition set_deviceData (v : list DeviceData.t) (next : Z) (s : Storage) : Storage :=
  {| devices := devices s; deviceData := v; offlineEvents := offlineEvents s;
     cleanupSchedules := cleanupSchedules s;
     currentDeviceDataId := next;
     currentOfflineEventId := currentOfflineEventId s |}.

Definition set_offlineEvents (v : list DeviceOfflineEvent.t) (next : Z) (s : Storage) : Storage :=
  {| devices := devices s; deviceData := deviceData s; offlineEvents := v;
     cleanupSchedules := cleanupSchedules s;
     currentDeviceDataId := currentDeviceDataId s;
     currentOfflineEventId := next |}.

Definition set_cleanupSchedules (v : gmap string CleanupSchedule.t) (s : Storage) : Storage :=
  {| devices := devices s; deviceData := deviceData s; offlineEvents := offlineEvents s;
     cleanupSchedules := v;
     currentDeviceDataId := currentDeviceDataId s;
     currentOfflineEventId := currentOfflineEventId s |}.

Definition set_clients (v : gmap string nat) (s : Service) : Service :=
  {| clients := v; subscribedTopics := subscribedTopics s; batchBuffer := batchBuffer s;
     latestReadingsCache := latestReadingsCache s;
     webSocketBroadcaster := webSocketBroadcaster s;
     sensorDataBroadcaster := sensorDataBroadcaster s |}.

Definition set_subscribedTopics (v : gset string) (s : Service) : Service :=
  {| clients := clients s; subscribedTopics := v; batchBuffer := batchBuffer s;
     latestReadingsCache := latestReadingsCache s;
     webSocketBroadcaster := webSocketBroadcaster s;
     sensorDataBroadcaster := sensorDataBroadcaster s |}.

Definition set_batchBuffer (v : list BatchedData.t) (s : Service) : Service :=
  {| clients := clients s; subscribedTopics := subscribedTopics s; batchBuffer := v;
     latestReadingsCache := latestReadingsCache s;
     webSocketBroadcaster := webSocketBroadcaster s;
     sensorDataBroadcaster := sensorDataBroadcaster s |}.

Definition set_latestReadingsCache (v : gmap string Reading.t) (s : Service) : Service :=
  {| clients := clients s; subscribedTopics := subscribedTopics s; batchBuffer := batchBuffer s;
     latestReadingsCache := v;
     webSocketBroadcaster := webSocketBroadcaster s;
     sensorDataBroadcaster := sensorDataBroadcaster s |}.

Definition set_clock (v : Z) (e : Env) : Env :=
  {| clock := v; connections := connections e; faults := faults e; written := written e;
     calls := calls e;
     broker := broker e |}.

Definition set_connections (v : list Client) (e : Env) : Env :=
  {| clock := clock e; connections := v; faults := faults e; written := written e;
     calls := calls e;
     broker := broker e |}.

Definition set_calls (v : nat) (e : Env) : Env :=
  {| clock := clock e; connections := connections e; faults := faults e; written := written e;
     calls := v;
     broker := broker e |}.

(** ** Handlers as state transformers that may throw *)

Inductive Completion (A : Type) : Type :=
| Return (a : A)
| Throw (error : string).
Arguments Return {A} a.
Arguments Throw {A} error.

Definition M (A : Type) : Type := World -> Completion A * World.

Definition ret {A} (a : A) : M A := fun w => (Return a, w).

Definition bind {A B} (m : M A) (k : A -> M B) : M B :=
  fun w =>
    match m w with
    | (Return a, w') => k a w'
    | (Throw e, w') => (Throw e, w')
    end.

Definition throw {A} (e : string) : M A := fun w => (Throw e, w).

(** [try { m } catch (e) { h e }] *)
Definition try_catch {A} (m : M A) (h : string -> M A) : M A :=
  fun w =>
    match m w with
    | (Return a, w') => (Return a, w')
    | (Throw e, w') => h e w'
    end.

Declare Scope js_scope.
Delimit Scope js_scope with js.
Notation "x <- m ;; k" := (bind m (fun x => k))
  (at level 100, m at next level, right associativity) : js_scope.
Notation "m ;; k" := (bind m (fun _ => k))
  (at level 100, right associativity) : js_scope.
Open Scope js_scope.

Definition gets {A} (f : World -> A) : M A := fun w => (Return (f w), w).

Definition modify (f : World -> World) : M unit := fun w => (Return tt, f w).

Definition log (e : Event) : M unit := modify (emit e).

Definition when (b : bool) (m : M unit) : M unit := if b then m else ret tt.

(** [for (const x of l) { body x }] *)
Fixpoint for_of {A} (l : list A) (body : A -> M unit) : M unit :=
  match l with
  | [] => ret tt
  | x :: rest => body x ;; for_of rest body
  end.

(** A promise nobody awaits or catches: the caller goes on, a rejection is
    reported by the run time. *)
Definition detached (m : M unit) : M unit :=
  try_catch m (fun e => log (EUnhandledRejection e)).

(** [new Date()] and [Date.now()] *)
Definition Date_now : M Z := gets (fun w => clock (env w)).

(** [setTimeout(callback, ms)], run when it is due. *)
Definition setTimeout (callback : M unit) (ms : Z) : M unit :=
  log (ETimeout ms) ;;
  modify (with_env (fun e => set_clock (clock e + ms) e)) ;;
  callback.

(** ** The repository ([server/storage.ts])

    The process runs on [DatabaseStorage]; its queries are answered here on
    the tables as [MemStorage] keeps them, and a call throws when the
    fault oracle says so.  A method that is one statement, or reads and
    then writes once, throws with the tables as they were.
    [DatabaseStorage.updateDevice] awaits an UPDATE and then a SELECT, and
    [DatabaseStorage.createDeviceData] an INSERT and then a SELECT: a call
    of these that throws has written when it is the second statement that
    failed, which [written] tells. *)

Definition writesThenReads (c : StorageCall) : bool :=
  match c with
  | UpdateDevice _ _ | CreateDeviceData _ => true
  | _ => false
  end.

Definition query {A} (c : StorageCall) (run : Z -> Storage -> A * Storage) : M A :=
  fun w =>
    let bad := faults (env w) (calls (env w)) c in
    let late := writesThenReads c && written (env w) (calls (env w)) c in
    let w1 := emit (EStorage c (negb bad)) (with_env (fun e => set_calls (S (calls e)) e) w) in
    if bad then
      (Throw "storage",
       if late then with_storage (fun _ => (run (clock (env w1)) (storage w1)).2) w1 else w1)
    else let '(a, s) := run (clock (env w1)) (storage w1) in
         (Return a, with_storage (fun _ => s) w1).

Module storage.

Definition getDevices : M (list Device.t) :=
  query GetDevices (fun _ s => (devices s, s)).

(** [await db.update(devices).set(updates)...], then
    [await db.select().from(devices)...]: it can throw with the row
    rewritten. *)
Definition updateDevice (id : Z) (updates : Device.partial) : M (option Device.t) :=
  query (UpdateDevice id updates) (fun _ s =>
    let rows := map (fun d => if Device.id d =? id then Device.merge d updates else d)
                    (devices s) in
    (find (fun d => Device.id d =? id) rows, set_devices rows s)).

(** [await db.insert(deviceData).values(insertData)], then
    [await db.select().from(deviceData)...]: it can throw with the row
    inserted. *)
Definition createDeviceData (insertData : DeviceData.insert) : M DeviceData.t :=
  query (CreateDeviceData insertData) (fun t s =>
    let data := {| DeviceData.id := currentDeviceDataId s;
                   DeviceData.deviceId := DeviceData.deviceId' insertData;
                   DeviceData.timestamp := t;
                   DeviceData.alcoholLevel := DeviceData.alcoholLevel' insertData;
                   DeviceData.alertStatus := DeviceData.alertStatus' insertData |} in
    (data, set_deviceData (deviceData s ++ [data]) (currentDeviceDataId s + 1) s)).

Definition logDeviceOfflineEvent (deviceId : string) (offlineAt : Z) : M unit :=
  query (LogDeviceOfflineEvent deviceId offlineAt) (fun _ s =>
    let event := {| DeviceOfflineEvent.id := currentOfflineEventId s;
                    DeviceOfflineEvent.deviceId := deviceId;
                    DeviceOfflineEvent.offlineAt := offlineAt |} in
    (tt, set_offlineEvents (offlineEvents s ++ [event]) (currentOfflineEventId s + 1) s)).

Definition clearAllDeviceData : M Z :=
  query ClearAllDeviceData (fun _ s =>
    (Z.of_nat (length (deviceData s)), set_deviceData [] (currentDeviceDataId s) s)).

(** [DatabaseStorage.getCleanupSchedule] catches its own failure and
    answers [undefined]. *)
Definition getCleanupSchedule (taskName : string) : M (option CleanupSchedule.t) :=
  try_catch
    (query (GetCleanupSchedule taskName) (fun _ s => (cleanupSchedules s !! taskName, s)))
    (fun _ => ret None).

Definition updateCleanupSchedule (taskName : string) (updates : CleanupSchedule.partial)
  : M unit :=
  query (UpdateCleanupSchedule taskName updates) (fun t s =>
    (tt, set_cleanupSchedules
           (alter (fun r => CleanupSchedule.merge r updates t) taskName (cleanupSchedules s))
           s)).

End storage.

(** ** The ingestion service ([server/mqtt-client.ts]) *)

Definition calculateAlertStatus (alcoholLevel : JS.number) : string :=
  if JS.ge alcoholLevel (JS.of_Z 2500) then "Completely Drunk"
  else if JS.ge alcoholLevel (JS.of_Z 1700) then "Moderate Drunk"
  else "Normal".

Definition BATCH_SIZE : Z := 100.
Definition BATCH_FLUSH_INTERVAL_MS : Z := 5000.
Definition DEVICE_TIMEOUT_CHECK_INTERVAL_MS : Z := 10000.
Definition DEVICE_OFFLINE_THRESHOLD_MS : Z := 10000.

(** [if (webSocketBroadcaster && updatedDevice) webSocketBroadcaster(updatedDevice)] *)
Definition broadcastDevice (updatedDevice : option Device.t) : M unit :=
  b <- gets (fun w => webSocketBroadcaster (service w)) ;;
  match b, updatedDevice with
  | true, Some d => log (EDeviceBroadcast d)
  | _, _ => ret tt
  end.

(** The body of the loop of [checkDeviceTimeouts] *)
Definition checkDeviceTimeout (now : Z) (device : Device.t) : M unit :=
  if negb (Device.isActive device) then ret tt
  else
    let lastSeenTime := match Device.lastSeen device with Some t => t | None => 0 end in
    let timeSinceLastSeen := now - lastSeenTime in
    if String.eqb (Device.status device) "online"
       && (timeSinceLastSeen >? DEVICE_OFFLINE_THRESHOLD_MS)
    then
      updatedDevice <- storage.updateDevice (Device.id device)
                         {| Device.status' := Some "offline"; Device.lastSeen' := None |} ;;
      t <- Date_now ;;
      storage.logDeviceOfflineEvent (Device.deviceId device) t ;;
      broadcastDevice updatedDevice
    else ret tt.

Definition checkDeviceTimeouts : M unit :=
  try_catch
    (devices <- storage.getDevices ;;
     now <- Date_now ;;
     for_of devices (checkDeviceTimeout now))
    (fun _ => log (ELog "Error checking device timeouts")).

(** The loop of [flushBatch]: one [createDeviceData] per reading, each in
    its own [try]. *)
Fixpoint persistEach (batchToFlush : list BatchedData.t)
    (successCount : Z) (failedItems : list BatchedData.t)
  : M (Z * list BatchedData.t) :=
  match batchToFlush with
  | [] => ret (successCount, failedItems)
  | data :: rest =>
      saved <- try_catch
                 (storage.createDeviceData
                    {| DeviceData.deviceId' := BatchedData.deviceId data;
                       DeviceData.alcoholLevel' := BatchedData.alcoholLevel data;
                       DeviceData.alertStatus' := BatchedData.alertStatus data |} ;;
                  ret true)
                 (fun _ => log (ELog "Error saving device data") ;; ret false) ;;
      if saved : bool then persistEach rest (successCount + 1) failedItems
      else persistEach rest successCount (failedItems ++ [data])
  end.

(** The last statement of [flushBatch]:
    [if (failedItems.length > 0 && retryOnError) this.batchBuffer.unshift(...failedItems)] *)
Definition requeue (retryOnError : bool) (failedItems : list BatchedData.t) : M unit :=
  when ((Z.of_nat (length failedItems) >? 0) && retryOnError)
    (log (ELog "Retrying failed items") ;;
     modify (with_service (fun s => set_batchBuffer (failedItems ++ batchBuffer s) s))).

Definition flushBatch (retryOnError : bool) : M Z :=
  log (EFlush retryOnError) ;;
  buffer <- gets (fun w => batchBuffer (service w)) ;;
  if Z.of_nat (length buffer) =? 0 then ret 0
  else
    let batchToFlush := buffer in
    modify (with_service (set_batchBuffer [])) ;;
    r <- persistEach batchToFlush 0 [] ;;
    let '(successCount, failedItems) := r in
    requeue retryOnError failedItems ;;
    ret successCount.

(** The four recognised field names, in the order they are tried.  [None]
    stands for the [TypeError] of a coercion that throws. *)
Definition extractAlcoholLevel (parsedMessage : JS.value) : option JS.number :=
  let read v := option_map (fun n => JS.or n (JS.of_Z 0)) (JS.parseFloatValue v) in
  if JS.isObject parsedMessage then
    match JS.getProp parsedMessage "alcohol_level" with
    | Some v => read v
    | None =>
        match JS.getProp parsedMessage "Index" with
        | Some v => read v
        | None =>
            match JS.getProp parsedMessage "level" with
            | Some v => read v
            | None =>
                match JS.getProp parsedMessage "value" with
                | Some v => read v
                | None => Some (JS.of_Z 0)
                end
            end
        end
    end
  else Some (JS.of_Z 0).

(** The inner [try] of [handleMessage] *)
Definition structured (messageStr : string) : option JS.number :=
  match JS.JSON_parse messageStr with
  | Some parsedMessage => extractAlcoholLevel parsedMessage
  | None => None
  end.

(** The inner [try ... catch] of [handleMessage]: [data.alcohol_level], or
    [None] where the handler returns. *)
Definition decode (messageStr : string) : option JS.number :=
  match structured messageStr with
  | Some alcoholLevel => Some alcoholLevel
  | None =>
      let alcoholLevel := JS.parseFloat messageStr in
      if JS.isNaN alcoholLevel then None else Some alcoholLevel
  end.

Definition handleMessage (topic : string) (message : string) (device : Device.t) : M unit :=
  try_catch
    (let messageStr := message in
     match decode messageStr with
     | None => ret tt
     | Some alcohol_level =>
         timestamp <- Date_now ;;
         let alcoholLevel := JS.or alcohol_level (JS.of_Z 0) in
         let alertStatus := calculateAlertStatus alcoholLevel in
         let reading := {| Reading.alcoholLevel := alcoholLevel;
                           Reading.timestamp := timestamp;
                           Reading.alertStatus := alertStatus |} in
         modify (with_service (fun s =>
           set_latestReadingsCache
             (<[Device.deviceId device := reading]> (latestReadingsCache s)) s)) ;;
         log (ECacheSet (Device.deviceId device) reading) ;;
         sink <- gets (fun w => sensorDataBroadcaster (service w)) ;;
         when sink (log (ESensorBroadcast (Device.deviceId device) reading)) ;;
         t <- Date_now ;;
         let data := {| BatchedData.deviceId := Device.deviceId device;
                        BatchedData.alcoholLevel := alcoholLevel;
                        BatchedData.alertStatus := alertStatus;
                        BatchedData.timestamp := t |} in
         modify (with_service (fun s => set_batchBuffer (batchBuffer s ++ [data]) s)) ;;
         log (EEnqueue data) ;;
         buffer <- gets (fun w => batchBuffer (service w)) ;;
         when (Z.of_nat (length buffer) >=? BATCH_SIZE)
           (try_catch (flushBatch false ;; ret tt)
              (fun _ => log (ELog "Error flushing full batch"))) ;;
         try_catch
           (t' <- Date_now ;;
            updatedDevice <- storage.updateDevice (Device.id device)
                               {| Device.status' := Some "online";
                                  Device.lastSeen' := Some (Some t') |} ;;
            broadcastDevice updatedDevice)
           (fun _ => ret tt)
     end)
    (fun _ => ret tt).

(** *** Connections *)

(** [haystack.includes(needle)] *)
Fixpoint includes (haystack needle : string) : bool :=
  match JS.has_prefix needle haystack with
  | Some _ => true
  | None =>
      match haystack with
      | String _ rest => includes rest needle
      | EmptyString => false
      end
  end.

Definition isTimeoutError (message : string) : bool :=
  includes message "connack timeout" || includes message "timeout".

Definition isProtocolError (message : string) : bool :=
  includes message "Invalid header flag bits" || includes message "protocol".

(** [mqtt.connect(brokerUrl, options)]: a new connection, known by its
    rank among the connections opened so far. *)
Definition mqtt_connect (deviceId : string) (h : Handlers)
    (version period : Z) : M nat :=
  fun w =>
    let handle := length (connections (env w)) in
    let c := {| owner := deviceId; handlers := h; protocolVersion := version;
                reconnectPeriod := period; ended := false |} in
    (Return handle,
     emit (EMqttConnect deviceId handle c)
       (with_env (fun e => set_connections (connections e ++ [c]) e) w)).

(** [client.end()] *)
Definition client_end (handle : nat) : M unit :=
  modify (with_env (fun e =>
    set_connections
      (alter (fun c => {| owner := owner c; handlers := handlers c;
                          protocolVersion := protocolVersion c;
                          reconnectPeriod := reconnectPeriod c; ended := true |})
             handle (connections e)) e)) ;;
  log (EClientEnd handle).

(** The three statements that mark a device offline, as they appear in the
    error handlers and at the end of the ladder. *)
Definition markOffline (device : Device.t) : M unit :=
  t <- Date_now ;;
  updatedDevice <- storage.updateDevice (Device.id device)
                     {| Device.status' := Some "offline"; Device.lastSeen' := Some (Some t) |} ;;
  t' <- Date_now ;;
  storage.logDeviceOfflineEvent (Device.deviceId device) t' ;;
  broadcastDevice updatedDevice.

(** The ['connect'] handler: subscribe, and on success mark the device
    online.  The promise of [updateDevice] is not caught. *)
Definition onConnect (device : Device.t) (subscribeError : bool) : M unit :=
  log (ESubscribe (Device.mqttTopic device) (negb subscribeError)) ;;
  if subscribeError then ret tt
  else
    modify (with_service (fun s =>
      set_subscribedTopics ({[Device.mqttTopic device]} ∪ subscribedTopics s) s)) ;;
    detached
      (t <- Date_now ;;
       updatedDevice <- storage.updateDevice (Device.id device)
                          {| Device.status' := Some "online"; Device.lastSeen' := Some (Some t) |} ;;
       broadcastDevice updatedDevice).

(** The ['disconnect'] handler of [connectToDevice] *)
Definition onDisconnect (device : Device.t) : M unit :=
  detached
    (t <- Date_now ;;
     updatedDevice <- storage.updateDevice (Device.id device)
                        {| Device.status' := Some "waiting"; Device.lastSeen' := Some (Some t) |} ;;
     broadcastDevice updatedDevice).

Equations? retryWithDifferentProtocol (device : Device.t) (protocolVersion : Z) : M unit
  by wf (Z.to_nat (6 - protocolVersion)) lt :=
  retryWithDifferentProtocol device protocolVersion with Z_gt_dec protocolVersion 5 => {
    | left _ := markOffline device
    | right _ :=
        client <- try_catch
          (client <- mqtt_connect (Device.deviceId device) (Retry protocolVersion)
                       protocolVersion 0 ;;
           modify (with_service (fun s =>
             set_clients (<[Device.deviceId device := client]> (clients s)) s)) ;;
           ret (Some client))
          (fun _ => ret None) ;;
        match client with
        | None => ret tt
        | Some client =>
            reply <- gets (fun w => broker (env w) client) ;;
            match reply with
            | ReplyConnect subscribeError => onConnect device subscribeError
            | ReplyError message =>
                client_end client ;;
                if isProtocolError message then
                  setTimeout (detached (retryWithDifferentProtocol device (protocolVersion + 1)))
                    2000
                else
                  try_catch (markOffline device)
                    (fun _ => log (ELog "Failed to update device status during retry"))
            | ReplyNothing => ret tt
            end
        end }.
Proof. lia. Qed.

(** [connectToDevice], with the answer of the broker dispatched to the
    handlers it registers.  A broker that times out for ever is retried for
    ever; [fuel] bounds how many of these reconnections a run follows. *)
Fixpoint connectToDevice (fuel : nat) (device : Device.t) : M unit :=
  match fuel with
  | O => ret tt
  | S fuel' =>
      let protocol := if String.eqb (Device.protocol device) EmptyString then "WS"
                      else Device.protocol device in
      let websocket := String.eqb protocol "WS" || String.eqb protocol "WSS" in
      client <- try_catch
        (client <- mqtt_connect (Device.deviceId device) Primary
                     (if websocket then 4 else 3) 5000 ;;
         modify (with_service (fun s =>
           set_clients (<[Device.deviceId device := client]> (clients s)) s)) ;;
         ret (Some client))
        (fun _ => ret None) ;;
      match client with
      | None => ret tt
      | Some client =>
          reply <- gets (fun w => broker (env w) client) ;;
          match reply with
          | ReplyConnect subscribeError => onConnect device subscribeError
          | ReplyError message =>
              if isTimeoutError message then
                client_end client ;;
                modify (with_service (fun s =>
                  set_clients (delete (Device.deviceId device) (clients s)) s)) ;;
                setTimeout (connectToDevice fuel' device) 5000
              else if isProtocolError message then
                client_end client ;;
                detached (retryWithDifferentProtocol device 4)
              else
                try_catch (markOffline device)
                  (fun _ => log (ELog "Failed to update device status on MQTT error"))
          | ReplyNothing => ret tt
          end
      end
  end.

Definition addDeviceConnection (fuel : nat) (device : Device.t) : M unit :=
  connectToDevice fuel device.

(** ** The cleanup scheduler ([server/cleanup-scheduler.ts]) *)

Module CleanupScheduler.

Definition CLEANUP_TASK_NAME : string := "device_data_cleanup".
Definition CLEANUP_INTERVAL_DAYS : Z := 2.
Definition CHECK_INTERVAL_MS : Z := 60 * 1000.

Definition calculateNextScheduledTimeFromLast (lastExecutionTime : Z) : Z :=
  lastExecutionTime + CLEANUP_INTERVAL_DAYS * 24 * 60 * 60 * 1000.

Definition checkAndRunCleanup : M unit :=
  try_catch
    (schedule <- storage.getCleanupSchedule CLEANUP_TASK_NAME ;;
     match schedule with
     | None => ret tt
     | Some schedule =>
         if negb (CleanupSchedule.isEnabled schedule) then ret tt
         else
           match CleanupSchedule.nextScheduledTime schedule with
           | None => ret tt
           | Some due =>
               now <- Date_now ;;
               if now >=? due then
                 log (ELog "Running scheduled cleanup") ;;
                 deletedCount <- storage.clearAllDeviceData ;;
                 let nextScheduledTime := calculateNextScheduledTimeFromLast now in
                 storage.updateCleanupSchedule CLEANUP_TASK_NAME
                   {| CleanupSchedule.lastExecutionTime' := Some (Some now);
                      CleanupSchedule.nextScheduledTime' := Some (Some nextScheduledTime);
                      CleanupSchedule.isEnabled' := None |} ;;
                 log (ELog "Scheduled cleanup completed")
               else ret tt
           end
     end)
    (fun _ => log (ELog "Error during scheduled cleanup check")).

Definition runCleanup : M Z :=
  try_catch
    (log (ELog "Running manual cleanup") ;;
     deletedCount <- storage.clearAllDeviceData ;;
     now <- Date_now ;;
     let nextScheduledTime := calculateNextScheduledTimeFromLast now in
     storage.updateCleanupSchedule CLEANUP_TASK_NAME
       {| CleanupSchedule.lastExecutionTime' := Some (Some now);
          CleanupSchedule.nextScheduledTime' := Some (Some nextScheduledTime);
          CleanupSchedule.isEnabled' := None |} ;;
     log (ELog "Manual cleanup completed") ;;
     ret deletedCount)
    (fun _ => log (ELog "Manual cleanup failed") ;; ret 0).

Definition setEnabled (enabled : bool) : M unit :=
  try_catch
    (storage.updateCleanupSchedule CLEANUP_TASK_NAME
       {| CleanupSchedule.lastExecutionTime' := None;
          CleanupSchedule.nextScheduledTime' := None;
          CleanupSchedule.isEnabled' := Some enabled |})
    (fun e => log (ELog "Error updating cleanup schedule status") ;; throw e).

(** The periodic timer of [start]: [ticks] firings of the check, 60
    seconds apart. *)
Fixpoint run (ticks : nat) : M unit :=
  match ticks with
  | O => ret tt
  | S n => setTimeout checkAndRunCleanup CHECK_INTERVAL_MS ;; run n
  end.

End CleanupScheduler.

(** ** Vocabulary of the statements *)

(** Whether the call [c], made on [storage] as the [k]-th call counted from
    the state [w] (the next call has rank 0), throws. *)
Definition fails (w : World) (k : nat) (c : StorageCall) : bool :=
  faults (env w) (calls (env w) + k)%nat c.

(** Whether that call, when it throws in a method that awaits its write
    and then a second statement, had executed its write. *)
Definition wrote (w : World) (k : nat) (c : StorageCall) : bool :=
  written (env w) (calls (env w) + k)%nat c.

(** No call on [storage] throws. *)
Definition reliable (w : World) : Prop :=
  forall n c, faults (env w) n c = false.

(** The persisted schedule of the cleanup task. *)
Definition schedule_of (w : World) : option CleanupSchedule.t :=
  cleanupSchedules (storage w) !! CleanupScheduler.CLEANUP_TASK_NAME.

(** What a handler adds to the trace. *)
Definition added (w w' : World) (events : list Event) : Prop :=
  trace w' = trace w ++ events.

(** The payload that the scheduler writes after a wipe at the instant [t]. *)
Definition rescheduled (t : Z) : CleanupSchedule.partial :=
  {| CleanupSchedule.lastExecutionTime' := Some (Some t);
     CleanupSchedule.nextScheduledTime' :=
       Some (Some (CleanupScheduler.calculateNextScheduledTimeFromLast t));
     CleanupSchedule.isEnabled' := None |}.

(** The events of a scheduled check that is due and whose wipe throws. *)
Definition failedTick : list Event :=
  [ EStorage (GetCleanupSchedule CleanupScheduler.CLEANUP_TASK_NAME) true;
    ELog "Running scheduled cleanup";
    EStorage ClearAllDeviceData false;
    ELog "Error during scheduled cleanup check" ].

(** *** Vocabulary of the statements on the batch buffer *)

(** The record that [flushBatch] hands to [createDeviceData]. *)
Definition insertOf (data : BatchedData.t) : DeviceData.insert :=
  {| DeviceData.deviceId' := BatchedData.deviceId data;
     DeviceData.alcoholLevel' := BatchedData.alcoholLevel data;
     DeviceData.alertStatus' := BatchedData.alertStatus data |}.

(** Each reading of a batch with whether its [createDeviceData] returns,
    when the first of them is the call of rank [n]. *)
Fixpoint attempts (faulty : nat -> StorageCall -> bool) (n : nat)
    (batch : list BatchedData.t) : list (BatchedData.t * bool) :=
  match batch with
  | [] => []
  | data :: rest =>
      (data, negb (faulty n (CreateDeviceData (insertOf data))))
        :: attempts faulty (S n) rest
  end.

(** The readings that the flush counts as persisted, those whose call
    returned, and the ones it collects as failed, those whose call threw. *)
Definition persistedOf (tried : list (BatchedData.t * bool)) : list BatchedData.t :=
  map fst (filter (fun a => snd a = true) tried).

Definition failedOf (tried : list (BatchedData.t * bool)) : list BatchedData.t :=
  map fst (filter (fun a => snd a = false) tried).

(** The readings of a batch whose row is inserted, when the first call is
    of rank [n]: those whose call returns, and those whose call throws
    after its INSERT. *)
Fixpoint insertedOf (faulty late : nat -> StorageCall -> bool) (n : nat)
    (batch : list BatchedData.t) : list BatchedData.t :=
  match batch with
  | [] => []
  | data :: rest =>
      if negb (faulty n (CreateDeviceData (insertOf data)))
         || late n (CreateDeviceData (insertOf data))
      then data :: insertedOf faulty late (S n) rest
      else insertedOf faulty late (S n) rest
  end.

(** The rows that [createDeviceData] appends for the readings inserted. *)
Fixpoint rowsOf (t : Z) (next : Z) (saved : list BatchedData.t) : list DeviceData.t :=
  match saved with
  | [] => []
  | data :: rest =>
      {| DeviceData.id := next;
         DeviceData.deviceId := BatchedData.deviceId data;
         DeviceData.timestamp := t;
         DeviceData.alcoholLevel := BatchedData.alcoholLevel data;
         DeviceData.alertStatus := BatchedData.alertStatus data |}
        :: rowsOf t (next + 1) rest
  end.

(** The events of the loop of [flushBatch]: one call per reading, in the
    order of the batch, and a log line after each failure. *)
Definition persistTrace (tried : list (BatchedData.t * bool)) : list Event :=
  flat_map (fun a : BatchedData.t * bool =>
              EStorage (CreateDeviceData (insertOf (fst a))) (snd a)
                :: (if snd a then [] else [ELog "Error saving device data"]))
           tried.

(** The state that the loop of [flushBatch] leaves. *)
Definition afterPersist (w : World) (tried : list (BatchedData.t * bool)) : World :=
  let inserted :=
    insertedOf (faults (env w)) (written (env w)) (calls (env w)) (map fst tried) in
  {| storage :=
       set_deviceData
         (deviceData (storage w)
            ++ rowsOf (clock (env w)) (currentDeviceDataId (storage w)) inserted)
         (currentDeviceDataId (storage w) + Z.of_nat (length inserted))
         (storage w);
     service := service w;
     env := set_calls (calls (env w) + length tried)%nat (env w);
     trace := trace w ++ persistTrace tried |}.

(** The events that [flushBatch] adds for a non-empty buffer. *)
Definition flushTrace (retryOnError : bool) (tried : list (BatchedData.t * bool)) : list Event :=
  EFlush retryOnError
    :: persistTrace tried
    ++ (if (Z.of_nat (length (failedOf tried)) >? 0) && retryOnError
        then [ELog "Retrying failed items"] else []).

(** *** Vocabulary of the statements on message handling *)

(** The reading that [handleMessage] builds from a decoded level at the
    instant [t]. *)
Definition readingOf (level : JS.number) (t : Z) : Reading.t :=
  {| Reading.alcoholLevel := JS.or level (JS.of_Z 0);
     Reading.timestamp := t;
     Reading.alertStatus := calculateAlertStatus (JS.or level (JS.of_Z 0)) |}.

Definition dataOf (device : Device.t) (level : JS.number) (t : Z) : BatchedData.t :=
  {| BatchedData.deviceId := Device.deviceId device;
     BatchedData.alcoholLevel := JS.or level (JS.of_Z 0);
     BatchedData.alertStatus := calculateAlertStatus (JS.or level (JS.of_Z 0));
     BatchedData.timestamp := t |}.

(** What [handleMessage] does with a decoded level before it looks at the
    size of the buffer. *)
Definition ingestTrace (sink : bool) (device : Device.t) (level : JS.number) (t : Z)
  : list Event :=
  ECacheSet (Device.deviceId device) (readingOf level t)
    :: (if sink then [ESensorBroadcast (Device.deviceId device) (readingOf level t)] else [])
    ++ [EEnqueue (dataOf device level t)].

Definition ingested (device : Device.t) (level : JS.number) (w : World) : World :=
  {| storage := storage w;
     service :=
       set_batchBuffer
         (batchBuffer (service w) ++ [dataOf device level (clock (env w))])
         (set_latestReadingsCache
            (<[Device.deviceId device := readingOf level (clock (env w))]>
               (latestReadingsCache (service w)))
            (service w));
     env := env w;
     trace := trace w
                ++ ingestTrace (sensorDataBroadcaster (service w)) device level (clock (env w)) |}.

(** The statement [if (this.batchBuffer.length >= this.BATCH_SIZE) ...] *)
Definition flushIfFull : M unit :=
  buffer <- gets (fun w => batchBuffer (service w)) ;;
  when (Z.of_nat (length buffer) >=? BATCH_SIZE)
    (try_catch (flushBatch false ;; ret tt)
       (fun _ => log (ELog "Error flushing full batch"))).

(** The last statement of [handleMessage]: the device is marked online. *)
Definition refreshStatus (device : Device.t) : M unit :=
  try_catch
    (t' <- Date_now ;;
     updatedDevice <- storage.updateDevice (Device.id device)
                        {| Device.status' := Some "online";
                           Device.lastSeen' := Some (Some t') |} ;;
     broadcastDevice updatedDevice)
    (fun _ => ret tt).

(** An event of ingestion carries the alert status computed from its own
    level. *)
Definition classified (e : Event) : Prop :=
  match e with
  | ECacheSet _ r | ESensorBroadcast _ r =>
      Reading.alertStatus r = calculateAlertStatus (Reading.alcoholLevel r)
  | EEnqueue d =>
      BatchedData.alertStatus d = calculateAlertStatus (BatchedData.alcoholLevel d)
  | _ => True
  end.

(** An event of persistence or of a flush. *)
Definition isPersistence (e : Event) : bool :=
  match e with
  | EFlush _ | EStorage (CreateDeviceData _) _ => true
  | _ => false
  end.

(** *** Vocabulary of the statements on liveness and on connections *)

(** The condition under which the sweep demotes a device. *)
Definition timedOut (now : Z) (d : Device.t) : bool :=
  Device.isActive d
  && String.eqb (Device.status d) "online"
  && (now - default 0 (Device.lastSeen d) >? DEVICE_OFFLINE_THRESHOLD_MS).

(** The row of a device after [updateDevice(id, { status: 'offline' })]. *)
Definition demoted (d : Device.t) : Device.t :=
  Device.merge d {| Device.status' := Some "offline"; Device.lastSeen' := None |}.

Definition swept (now : Z) (d : Device.t) : Device.t :=
  if timedOut now d then demoted d else d.

(** Whether the row [r] is demoted by the checks of the devices of [l]: one
    of them is timed out and has its id. *)
Definition hit (now : Z) (l : list Device.t) (r : Device.t) : bool :=
  existsb (fun d => timedOut now d && (Device.id r =? Device.id d)) l.

(** The offline events logged at [t] for a list of devices, numbered from
    [next]. *)
Fixpoint eventsFor (t : Z) (next : Z) (ds : list Device.t) : list DeviceOfflineEvent.t :=
  match ds with
  | [] => []
  | d :: rest =>
      {| DeviceOfflineEvent.id := next;
         DeviceOfflineEvent.deviceId := Device.deviceId d;
         DeviceOfflineEvent.offlineAt := t |} :: eventsFor t (next + 1) rest
  end.

(** The offline events of a device among [events]. *)
Definition eventsOf (deviceId : string) (events : list DeviceOfflineEvent.t)
  : list DeviceOfflineEvent.t :=
  filter (fun e => DeviceOfflineEvent.deviceId e = deviceId) events.

(** The update that the error paths write. *)
Definition offlineAt (t : Z) : Device.partial :=
  {| Device.status' := Some "offline"; Device.lastSeen' := Some (Some t) |}.

(** The state after the three statements that mark a device offline, when
    [storage] does not throw. *)
Definition markedOffline (device : Device.t) (w : World) : World :=
  let t := clock (env w) in
  let rows := map (fun d => if Device.id d =? Device.id device
                            then Device.merge d (offlineAt t) else d)
                  (devices (storage w)) in
  {| storage :=
       set_offlineEvents
         (offlineEvents (storage w)
            ++ [ {| DeviceOfflineEvent.id := currentOfflineEventId (storage w);
                    DeviceOfflineEvent.deviceId := Device.deviceId device;
                    DeviceOfflineEvent.offlineAt := t |} ])
         (currentOfflineEventId (storage w) + 1)
         (set_devices rows (storage w));
     service := service w;
     env := set_calls (S (S (calls (env w)))) (env w);
     trace :=
       trace w
         ++ [ EStorage (UpdateDevice (Device.id device) (offlineAt t)) true;
              EStorage (LogDeviceOfflineEvent (Device.deviceId device) t) true ]
         ++ match webSocketBroadcaster (service w),
                  find (fun d => Device.id d =? Device.id device) rows with
            | true, Some d => [EDeviceBroadcast d]
            | _, _ => []
            end |}.

(** A client as [mqtt.connect] returns it, and once it has been ended. *)
Definition opened (device : Device.t) (h : Handlers) (version period : Z) : Client :=
  {| owner := Device.deviceId device; handlers := h; protocolVersion := version;
     reconnectPeriod := period; ended := false |}.

Definition closed (device : Device.t) (h : Handlers) (version period : Z) : Client :=
  {| owner := Device.deviceId device; handlers := h; protocolVersion := version;
     reconnectPeriod := period; ended := true |}.

(** The state after a connection was opened for the device and ended by
    its error handler. *)
Definition rejected (device : Device.t) (h : Handlers) (version period : Z) (w : World)
  : World :=
  let handle := length (connections (env w)) in
  {| storage := storage w;
     service := set_clients (<[Device.deviceId device := handle]> (clients (service w)))
                  (service w);
     env := set_connections (connections (env w) ++ [closed device h version period]) (env w);
     trace := trace w ++ [ EMqttConnect (Device.deviceId device) handle
                             (opened device h version period);
                           EClientEnd handle ] |}.

(** The state when a timer of [ms] milliseconds fires. *)
Definition later (ms : Z) (w : World) : World :=
  with_env (fun e => set_clock (clock e + ms) e) (emit (ETimeout ms) w).

(** The protocol version that [connectToDevice] asks for. *)
Definition firstVersion (device : Device.t) : Z :=
  let protocol := if String.eqb (Device.protocol device) EmptyString then "WS"
                  else Device.protocol device in
  if String.eqb protocol "WS" || String.eqb protocol "WSS" then 4 else 3.

(** The state at the end of the ladder for a broker that rejects every
    protocol version. *)
Definition exhausted (device : Device.t) (w : World) : World :=
  markedOffline device
    (later 2000
       (rejected device (Retry 5) 5 0
          (later 2000
             (rejected device (Retry 4) 4 0
                (rejected device Primary (firstVersion device) 5000 w))))).

(** The broker answers every connection with an error of the
    protocol-incompatibility class. *)
Definition alwaysRejectsProtocol (w : World) : Prop :=
  forall h, exists message,
    broker (env w) h = ReplyError message
    /\ isTimeoutError message = false
    /\ isProtocolError message = true.

Definition isConnect (e : Event) : bool :=
  match e with EMqttConnect _ _ _ => true | _ => false end.

(** ** Sample states, used by the examples *)

Module Sample.

Definition device (id : Z) (deviceId status : string) (lastSeen : option Z)
    (isActive : bool) : Device.t :=
  {| Device.id := id; Device.deviceId := deviceId; Device.name := deviceId;
     Device.mqttBroker := "broker.example:1883"; Device.mqttTopic := "sensors";
     Device.protocol := "MQTT"; Device.username := None; Device.password := None;
     Device.status := status; Device.lastSeen := lastSeen;
     Device.isActive := isActive; Device.displayOrder := id |}.

(** At the clock of [world], 100 s, [D1] and [D5] have been silent for
    99 s and 20 s, [D4] for 5 s. *)
Definition D1 : Device.t := device 1 "D1" "online" (Some 1000) true.
Definition D2 : Device.t := device 2 "D2" "waiting" (Some 1000) true.
Definition D3 : Device.t := device 3 "D3" "online" (Some 1000) false.
Definition D4 : Device.t := device 4 "D4" "online" (Some 95000) true.
Definition D5 : Device.t := device 5 "D5" "online" (Some 80000) true.
Definition D6 : Device.t := device 6 "D6" "offline" (Some 1000) true.

Definition row (id : Z) (level : Z) : DeviceData.t :=
  {| DeviceData.id := id; DeviceData.deviceId := "D1"; DeviceData.timestamp := 1000;
     DeviceData.alcoholLevel := JS.of_Z level;
     DeviceData.alertStatus := calculateAlertStatus (JS.of_Z level) |}.

(** A schedule that fell due at 50 s. *)
Definition schedule : CleanupSchedule.t :=
  {| CleanupSchedule.id := 1;
     CleanupSchedule.taskName := CleanupScheduler.CLEANUP_TASK_NAME;
     CleanupSchedule.lastExecutionTime := None;
     CleanupSchedule.nextScheduledTime := Some 50000;
     CleanupSchedule.intervalDays := 2;
     CleanupSchedule.executionHour := 0; CleanupSchedule.executionMinute := 0;
     CleanupSchedule.isEnabled := true;
     CleanupSchedule.createdAt := 0; CleanupSchedule.updatedAt := 0 |}.

Definition reading (deviceId : string) (level : Z) (t : Z) : BatchedData.t :=
  {| BatchedData.deviceId := deviceId; BatchedData.alcoholLevel := JS.of_Z level;
     BatchedData.alertStatus := calculateAlertStatus (JS.of_Z level);
     BatchedData.timestamp := t |}.

Definition tables : Storage :=
  {| devices := [D1; D2; D3; D4; D5; D6];
     deviceData := [row 1 1800; row 2 300];
     offlineEvents := [];
     cleanupSchedules := {[ CleanupScheduler.CLEANUP_TASK_NAME := schedule ]};
     currentDeviceDataId := 3;
     currentOfflineEventId := 1 |}.

Definition idle : Service :=
  {| clients := ∅; subscribedTopics := ∅; batchBuffer := [];
     latestReadingsCache := ∅;
     webSocketBroadcaster := true; sensorDataBroadcaster := true |}.

(** A world where [storage] throws on the calls that [faulty] selects,
    before any write, and every broker answers [reply]. *)
Definition make (faulty : nat -> StorageCall -> bool) (reply : nat -> BrokerReply)
    (buffer : list BatchedData.t) : World :=
  {| storage := tables;
     service := set_batchBuffer buffer idle;
     env := {| clock := 100000; connections := []; faults := faulty;
               written := fun _ _ => false; calls := 0; broker := reply |};
     trace := [] |}.

(** The same world, where the calls that [faulty] selects throw after
    their write when their method writes and then reads. *)
Definition makeLate (faulty : nat -> StorageCall -> bool) (reply : nat -> BrokerReply)
    (buffer : list BatchedData.t) : World :=
  {| storage := tables;
     service := set_batchBuffer buffer idle;
     env := {| clock := 100000; connections := []; faults := faulty;
               written := fun _ _ => true; calls := 0; broker := reply |};
     trace := [] |}.

Definition never : nat -> StorageCall -> bool := fun _ _ => false.

Definition wipeThrows : nat -> StorageCall -> bool :=
  fun _ c => match c with ClearAllDeviceData => true | _ => false end.

Definition updateThrows : nat -> StorageCall -> bool :=
  fun _ c => match c with UpdateCleanupSchedule _ _ => true | _ => false end.

Definition silent : nat -> BrokerReply := fun _ => ReplyNothing.

Definition rejecting : nat -> BrokerReply :=
  fun _ => ReplyError "Invalid header flag bits".

Definition world : World := make never silent [].

(** The text [s] with every apostrophe turned into a double quote, to
    write JSON payloads. *)
Fixpoint json (s : string) : string :=
  match s with
  | EmptyString => EmptyString
  | String c r => String (if Ascii.eqb c "'" then JS.dquote else c) (json r)
  end.

End Sample.

(** ** The rest of the ingestion service ([server/mqtt-client.ts]) *)

(** [getLatestReading] *)
Definition getLatestReading (deviceId : string) : M (option Reading.t) :=
  gets (fun w => latestReadingsCache (service w) !! deviceId).

(** [connectToDeviceBrokers].  Each connection is followed to the end of
    what its broker answers before the next device is taken. *)
Definition connectToDeviceBrokers (fuel : nat) : M unit :=
  try_catch
    (devices <- storage.getDevices ;;
     for_of (List.filter (fun d => Device.isActive d) devices) (connectToDevice fuel))
    (fun _ => log (ELog "Failed to connect to device brokers")).

(** The fields of [MqttClientService] that hold the legacy client and the
    two timers (set or [null]). *)
Module Handles.
Record t : Type := mk {
  client : option nat;
  batchFlushInterval : bool;
  deviceTimeoutMonitorInterval : bool
}.
End Handles.

(** The callback of the timer of [startBatchProcessor] *)
Definition batchProcessorTick : M unit :=
  try_catch (flushBatch false ;; ret tt) (fun _ => log (ELog "Error flushing batch")).

(** The callback of the timer of [startDeviceTimeoutMonitor] *)
Definition deviceTimeoutMonitorTick : M unit :=
  try_catch checkDeviceTimeouts (fun _ => log (ELog "Error in device timeout monitor")).

Definition startBatchProcessor (h : Handles.t) : Handles.t :=
  {| Handles.client := Handles.client h;
     Handles.batchFlushInterval := true;
     Handles.deviceTimeoutMonitorInterval := Handles.deviceTimeoutMonitorInterval h |}.

Definition startDeviceTimeoutMonitor (h : Handles.t) : Handles.t :=
  {| Handles.client := Handles.client h;
     Handles.batchFlushInterval := Handles.batchFlushInterval h;
     Handles.deviceTimeoutMonitorInterval := true |}.

Definition initialize (fuel : nat) (h : Handles.t) : M Handles.t :=
  try_catch
    (connectToDeviceBrokers fuel ;;
     ret (startDeviceTimeoutMonitor (startBatchProcessor h)))
    (fun _ => log (ELog "Failed to initialize MQTT client") ;; ret h).

(** [disconnect].  [values] is [this.clients.values()], in the order in
    which the keys were inserted, which the map of the model does not
    keep. *)
Definition disconnect (h : Handles.t) (values : list nat) : M Handles.t :=
  log (ELog "Starting MQTT client shutdown...") ;;
  let h1 := if Handles.batchFlushInterval h
            then {| Handles.client := Handles.client h;
                    Handles.batchFlushInterval := false;
                    Handles.deviceTimeoutMonitorInterval :=
                      Handles.deviceTimeoutMonitorInterval h |}
            else h in
  let h2 := if Handles.deviceTimeoutMonitorInterval h1
            then {| Handles.client := Handles.client h1;
                    Handles.batchFlushInterval := Handles.batchFlushInterval h1;
                    Handles.deviceTimeoutMonitorInterval := false |}
            else h1 in
  log (ELog "Closing MQTT connections to stop new data...") ;;
  h3 <- match Handles.client h2 with
        | Some client =>
            client_end client ;;
            modify (with_service (set_subscribedTopics ∅)) ;;
            ret {| Handles.client := None;
                   Handles.batchFlushInterval := Handles.batchFlushInterval h2;
                   Handles.deviceTimeoutMonitorInterval :=
                     Handles.deviceTimeoutMonitorInterval h2 |}
        | None => ret h2
        end ;;
  for_of values client_end ;;
  modify (with_service (set_clients ∅)) ;;
  setTimeout (ret tt) 100 ;;
  log (ELog "Flushing remaining items...") ;;
  flushedCount <- flushBatch true ;;
  log (ELog "Successfully flushed items to database") ;;
  buffer <- gets (fun w => batchBuffer (service w)) ;;
  when (Z.of_nat (length buffer) >? 0)
    (log (ELog "Warning: items could not be saved to database")) ;;
  ret h3.

(** ** The rest of the cleanup scheduler ([server/cleanup-scheduler.ts]) *)

(** The time zone of the host, as [Date.prototype.setHours], [getDate] and
    [setDate] consult it: the offset of local time at an instant given in
    UTC, and at an instant given in local time. *)
Record TimeZone : Type := mkTimeZone {
  offsetAtUTC : Z -> Z;
  offsetAtLocal : Z -> Z
}.

Definition msPerDay : Z := 86400000.

(** [IST_OFFSET_HOURS * 60 * 60 * 1000], with [IST_OFFSET_HOURS = 5.5] *)
Definition IST_OFFSET_MS : Z := 11 * 60 * 60 * 1000 / 2.

Definition LocalTime (zone : TimeZone) (t : Z) : Z := t + offsetAtUTC zone t.

Definition UTC (zone : TimeZone) (t : Z) : Z := t - offsetAtLocal zone t.

(** [date.setHours(0, 0, 0, 0)]: the start of the local day of [t] *)
Definition setHoursToMidnight (zone : TimeZone) (t : Z) : Z :=
  UTC zone (LocalTime zone t / msPerDay * msPerDay).

(** [date.setDate(date.getDate() + n)]: the local day moves by [n], the
    local time of day stays. *)
Definition setDatePlus (zone : TimeZone) (n : Z) (t : Z) : Z :=
  UTC zone (LocalTime zone t + n * msPerDay).

Definition calculateNextScheduledTime (zone : TimeZone) (now : Z) : Z :=
  let istNow := now + IST_OFFSET_MS in
  let nextCleanupIST := setHoursToMidnight zone istNow in
  let nextCleanupIST := setDatePlus zone CleanupScheduler.CLEANUP_INTERVAL_DAYS nextCleanupIST in
  nextCleanupIST - IST_OFFSET_MS.

Definition resetSchedule (zone : TimeZone) : M unit :=
  try_catch
    (currentSchedule <- storage.getCleanupSchedule CleanupScheduler.CLEANUP_TASK_NAME ;;
     nextScheduledTime <-
       match currentSchedule ≫= CleanupSchedule.lastExecutionTime with
       | Some lastExecutionTime =>
           log (ELog "Resetting schedule based on last execution time") ;;
           ret (CleanupScheduler.calculateNextScheduledTimeFromLast lastExecutionTime)
       | None =>
           now <- Date_now ;;
           log (ELog "Resetting schedule based on current time (no prior execution)") ;;
           ret (calculateNextScheduledTime zone now)
       end ;;
     storage.updateCleanupSchedule CleanupScheduler.CLEANUP_TASK_NAME
       {| CleanupSchedule.lastExecutionTime' := None;
          CleanupSchedule.nextScheduledTime' := Some (Some nextScheduledTime);
          CleanupSchedule.isEnabled' := Some true |} ;;
     log (ELog "Cleanup schedule reset"))
    (fun e => log (ELog "Error resetting cleanup schedule") ;; throw e).

(** ** The two services at work *)

(** A route that answers 500 when the operation throws. *)
Definition route (m : M unit) : M unit := try_catch m (fun _ => ret tt).

(** What the process is asked to do, one task at a time: the events of
    the MQTT clients, the timers, and the calls made by the routes and by
    the start and the shutdown of the server. *)
Inductive Activity : Type :=
| Elapse (ms : Z)
| Message (topic message : string) (device : Device.t)
| BatchTimer
| MonitorTimer
| Initialize (fuel : nat) (h : Handles.t)
| AddDeviceConnection (fuel : nat) (device : Device.t)
| Disconnected (device : Device.t)
| Disconnect (h : Handles.t) (values : list nat)
| CleanupTimer
| RunCleanup
| SetEnabled (enabled : bool)
| ResetSchedule (zone : TimeZone).

Definition perform (a : Activity) : M unit :=
  match a with
  | Elapse ms => modify (with_env (fun e => set_clock (clock e + ms) e))
  | Message topic message device => handleMessage topic message device
  | BatchTimer => batchProcessorTick
  | MonitorTimer => deviceTimeoutMonitorTick
  | Initialize fuel h => initialize fuel h ;; ret tt
  | AddDeviceConnection fuel device => addDeviceConnection fuel device
  | Disconnected device => onDisconnect device
  | Disconnect h values => disconnect h values ;; ret tt
  | CleanupTimer => CleanupScheduler.checkAndRunCleanup
  | RunCleanup => route (CleanupScheduler.runCleanup ;; ret tt)
  | SetEnabled enabled => route (CleanupScheduler.setEnabled enabled)
  | ResetSchedule zone => route (resetSchedule zone)
  end.

Definition activities (l : list Activity) : M unit := for_of l perform.

(** ** Vocabulary of the further statements *)

(** The computation leaves every state in the relation [R] with the state
    it started from. *)
Definition keeps {A} (R : World -> World -> Prop) (m : M A) : Prop :=
  forall w, R w (m w).2.

(** The computation returns, whatever the state. *)
Definition returns {A} (m : M A) : Prop :=
  forall w, exists a, (m w).1 = Return a.

(** What the services never write in a device row: everything but
    [status] and [lastSeen]. *)
Definition registration (d : Device.t) : Device.t :=
  {| Device.id := Device.id d; Device.deviceId := Device.deviceId d;
     Device.name := Device.name d; Device.mqttBroker := Device.mqttBroker d;
     Device.mqttTopic := Device.mqttTopic d; Device.protocol := Device.protocol d;
     Device.username := Device.username d; Device.password := Device.password d;
     Device.status := EmptyString; Device.lastSeen := None;
     Device.isActive := Device.isActive d; Device.displayOrder := Device.displayOrder d |}.

Definition sameRegistrations (w w' : World) : Prop :=
  map registration (devices (storage w')) = map registration (devices (storage w)).

(** The rows of readings and of offline events carry distinct identifiers,
    all below the next one to be given. *)
Definition numbered (s : Storage) : Prop :=
  Forall (fun r => DeviceData.id r < currentDeviceDataId s) (deviceData s)
  /\ NoDup (map DeviceData.id (deviceData s))
  /\ Forall (fun e => DeviceOfflineEvent.id e < currentOfflineEventId s) (offlineEvents s)
  /\ NoDup (map DeviceOfflineEvent.id (offlineEvents s)).

(** A level is a number and its status is the one computed from it. *)
Definition sound (alcoholLevel : JS.number) (alertStatus : string) : Prop :=
  JS.isNaN alcoholLevel = false /\ alertStatus = calculateAlertStatus alcoholLevel.

(** Every reading held by the process, in the table, in the buffer and in
    the cache, is sound. *)
Definition consistent (w : World) : Prop :=
  Forall (fun r => sound (DeviceData.alcoholLevel r) (DeviceData.alertStatus r))
         (deviceData (storage w))
  /\ Forall (fun d => sound (BatchedData.alcoholLevel d) (BatchedData.alertStatus d))
            (batchBuffer (service w))
  /\ map_Forall (fun _ r => sound (Reading.alcoholLevel r) (Reading.alertStatus r))
                (latestReadingsCache (service w)).

(** The owners of the connections opened between two states. *)
Definition ownersAdded (w w' : World) (owners : list string) : Prop :=
  map owner (connections (env w')) = map owner (connections (env w)) ++ owners.

(** A relation on the tables, read on the states of the process. *)
Definition onTables (Rs : Storage -> Storage -> Prop) (w w' : World) : Prop :=
  Rs (storage w) (storage w').

(** Every row of [s'] is a row of [s] or carries an identifier that [s] had
    not given yet, and the next identifiers of [s'] are not below those of
    [s]. *)
Definition advances (s s' : Storage) : Prop :=
  currentDeviceDataId s <= currentDeviceDataId s'
  /\ currentOfflineEventId s <= currentOfflineEventId s'
  /\ (forall r, In r (deviceData s') ->
        In r (deviceData s) \/ currentDeviceDataId s <= DeviceData.id r)
  /\ (forall e, In e (offlineEvents s') ->
        In e (offlineEvents s) \/ currentOfflineEventId s <= DeviceOfflineEvent.id e).

(** The activities of the cleanup scheduler. *)
Definition ofScheduler (a : Activity) : bool :=
  match a with
  | CleanupTimer | RunCleanup | SetEnabled _ | ResetSchedule _ => true
  | _ => false
  end.

(** The activity is not a message of the device [deviceId] that can be
    decoded. *)
Definition notFrom (deviceId : string) (a : Activity) : Prop :=
  match a with
  | Message _ message device =>
      Device.deviceId device <> deviceId \/ decode message = None
  | _ => True
  end.

(** The broker answers every connection with an error of the timeout
    class. *)
Definition alwaysTimesOut (w : World) : Prop :=
  forall h, exists message,
    broker (env w) h = ReplyError message /\ isTimeoutError message = true.

(** The state after the error handler of [connectToDevice] has dealt with
    a timeout: the connection was opened and ended, the entry of the
    device is gone, and 5 seconds have passed. *)
Definition timedOutOnce (device : Device.t) (w : World) : World :=
  later 5000
    (with_service
       (fun s => set_clients (delete (Device.deviceId device) (clients s)) s)
       (rejected device Primary (firstVersion device) 5000 w)).

(** A computation opens at most [bound] connections, all of them for the
    device [deviceId]. *)
Definition opensAtMost {A} (bound : nat) (deviceId : string) (m : M A) : Prop :=
  forall w, exists k, (k <= bound)%nat /\ ownersAdded w (m w).2 (repeat deviceId k).

(** The state after a connection was opened for the device and left
    open. *)
Definition connectedTo (device : Device.t) (h : Handlers) (version period : Z) (w : World)
  : World :=
  let handle := length (connections (env w)) in
  {| storage := storage w;
     service := set_clients (<[Device.deviceId device := handle]> (clients (service w)))
                  (service w);
     env := set_connections (connections (env w) ++ [opened device h version period]) (env w);
     trace := trace w ++ [ EMqttConnect (Device.deviceId device) handle
                             (opened device h version period) ] |}.

(** The update that the ['connect'] handlers and [handleMessage] write. *)
Definition onlineAt (t : Z) : Device.partial :=
  {| Device.status' := Some "online"; Device.lastSeen' := Some (Some t) |}.

(** The update that the ['disconnect'] handler writes. *)
Definition waitingAt (t : Z) : Device.partial :=
  {| Device.status' := Some "waiting"; Device.lastSeen' := Some (Some t) |}.

(** The state after [updateDevice(device.id, updates)] has answered and
    its result has been broadcast. *)
Definition updated (device : Device.t) (updates : Device.partial) (w : World) : World :=
  let rows := map (fun d => if Device.id d =? Device.id device
                            then Device.merge d updates else d)
                  (devices (storage w)) in
  {| storage := set_devices rows (storage w);
     service := service w;
     env := set_calls (S (calls (env w))) (env w);
     trace :=
       trace w
         ++ [ EStorage (UpdateDevice (Device.id device) updates) true ]
         ++ match webSocketBroadcaster (service w),
                  find (fun d => Device.id d =? Device.id device) rows with
            | true, Some d => [EDeviceBroadcast d]
            | _, _ => []
            end |}.

(** The tables once the UPDATE of [updateDevice(device.id, updates)] has
    been executed. *)
Definition rewritten (device : Device.t) (updates : Device.partial) (s : Storage) : Storage :=
  set_devices
    (map (fun d => if Device.id d =? Device.id device then Device.merge d updates else d)
         (devices s))
    s.

(** The state after [updateDevice(device.id, updates)] has thrown: with
    the tables as they were when the UPDATE failed, with the row rewritten
    when it is the SELECT after it that failed. *)
Definition refused (device : Device.t) (updates : Device.partial) (w : World) : World :=
  {| storage := if wrote w 0 (UpdateDevice (Device.id device) updates)
                then rewritten device updates (storage w) else storage w;
     service := service w;
     env := set_calls (S (calls (env w))) (env w);
     trace := trace w ++ [ EStorage (UpdateDevice (Device.id device) updates) false ] |}.

(** The state after the topic of the device was subscribed to. *)
Definition subscribed (device : Device.t) (w : World) : World :=
  with_service
    (fun s => set_subscribedTopics ({[Device.mqttTopic device]} ∪ subscribedTopics s) s)
    (emit (ESubscribe (Device.mqttTopic device) true) w).

(** Between the two states connections were opened only for devices that
    satisfy [P]. *)
Definition opensOnlyFor (P : string -> Prop) (w w' : World) : Prop :=
  exists owners, ownersAdded w w' owners /\ Forall P owners.

(** The identifiers of the active devices of the table. *)
Definition activeDevice (w : World) (deviceId : string) : Prop :=
  exists d, In d (devices (storage w)) /\ Device.isActive d = true
            /\ Device.deviceId d = deviceId.

(** Between the two states no connection was opened. *)
Definition opensNothing (w w' : World) : Prop := opensOnlyFor (fun _ => False) w w'.

(** The calls of [clearAllDeviceData] made so far. *)
Definition isWipe (e : Event) : bool :=
  match e with EStorage ClearAllDeviceData _ => true | _ => false end.

Definition wipes (w : World) : nat := length (List.filter isWipe (trace w)).

(** Whether the persisted schedule asks for a wipe at the instant [t]:
    there is a record, it is enabled and its next scheduled time is not
    after [t]. *)
Definition dueAt (t : Z) (w : World) : bool :=
  match schedule_of w with
  | Some s =>
      CleanupSchedule.isEnabled s
      && match CleanupSchedule.nextScheduledTime s with
         | Some due => t >=? due
         | None => false
         end
  | None => false
  end.

(** A host whose local time is always [offset] milliseconds ahead of
    UTC. *)
Definition fixedOffset (offset : Z) : TimeZone :=
  {| offsetAtUTC := fun _ => offset; offsetAtLocal := fun _ => offset |}.

(** The payload of [setEnabled] and that of [resetSchedule]. *)
Definition switched (enabled : bool) : CleanupSchedule.partial :=
  {| CleanupSchedule.lastExecutionTime' := None;
     CleanupSchedule.nextScheduledTime' := None;
     CleanupSchedule.isEnabled' := Some enabled |}.

Definition resetTo (nextScheduledTime : Z) : CleanupSchedule.partial :=
  {| CleanupSchedule.lastExecutionTime' := None;
     CleanupSchedule.nextScheduledTime' := Some (Some nextScheduledTime);
     CleanupSchedule.isEnabled' := Some true |}.

(** The update that the sweep writes. *)
Definition wentOffline : Device.partial :=
  {| Device.status' := Some "offline"; Device.lastSeen' := None |}.

(** The handles of [MqttClientService] after a shutdown. *)
Definition cleared : Handles.t :=
  {| Handles.client := None; Handles.batchFlushInterval := false;
     Handles.deviceTimeoutMonitorInterval := false |}.

(** The connection with this handle, if there is one, has been ended. *)
Definition endedAt (w : World) (handle : nat) : Prop :=
  forall c, connections (env w) !! handle = Some c -> ended c = true.

(** ** Properties of the cleanup scheduler *)

Section Scheduler.
Import CleanupScheduler.

Lemma fails_0 w c : fails w 0 c = faults (env w) (calls (env w)) c.
Proof. unfold fails. now rewrite Nat.add_0_r. Qed.

Lemma fails_1 w c : fails w 1 c = faults (env w) (S (calls (env w))) c.
Proof. unfold fails. now rewrite Nat.add_1_r. Qed.

Lemma wrote_0 w c : wrote w 0 c = written (env w) (calls (env w)) c.
Proof. unfold wrote. now rewrite Nat.add_0_r. Qed.

Lemma wrote_1 w c : wrote w 1 c = written (env w) (S (calls (env w))) c.
Proof. unfold wrote. now rewrite Nat.add_1_r. Qed.

Lemma fails_2 w c : fails w 2 c = faults (env w) (S (S (calls (env w)))) c.
Proof. unfold fails. f_equal. lia. Qed.

Ltac run_scheduler :=
  unfold checkAndRunCleanup, runCleanup, try_catch, bind, storage.getCleanupSchedule,
    storage.clearAllDeviceData, storage.updateCleanupSchedule, try_catch, query,
    Date_now, gets, log, modify, ret; cbn.

Lemma interval_is_172800_seconds (T : Z) :
  calculateNextScheduledTimeFromLast T = T + 172800 * 1000.
Proof. unfold calculateNextScheduledTimeFromLast, CLEANUP_INTERVAL_DAYS. lia. Qed.

(** A tick that is due and meets no failure wipes and reschedules. *)
Lemma tick_success w s due :
  schedule_of w = Some s ->
  CleanupSchedule.isEnabled s = true ->
  CleanupSchedule.nextScheduledTime s = Some due ->
  due <= clock (env w) ->
  fails w 0 (GetCleanupSchedule CLEANUP_TASK_NAME) = false ->
  fails w 1 ClearAllDeviceData = false ->
  fails w 2 (UpdateCleanupSchedule CLEANUP_TASK_NAME (rescheduled (clock (env w)))) = false ->
  schedule_of (checkAndRunCleanup w).2 =
    Some (CleanupSchedule.merge s (rescheduled (clock (env w))) (clock (env w)))
  /\ deviceData (storage (checkAndRunCleanup w).2) = [].
Proof.
  rewrite fails_0, fails_1, fails_2. unfold schedule_of, rescheduled.
  intros Hs He Hn Hd F0 F1 F2.
  run_scheduler. rewrite F0. cbn. rewrite Hs, He. cbn. rewrite Hn. cbn.
  destruct (Z.geb_spec (clock (env w)) due) as [_|]; [|lia].
  cbn. rewrite F1. cbn. rewrite F2. cbn.
  rewrite lookup_alter_eq, Hs. split; reflexivity.
Qed.

(** Whatever happens in a tick, the persisted schedule is either left as
    it was or rewritten from the instant of the tick. *)
Lemma tick_schedule_cases w :
  cleanupSchedules (storage (checkAndRunCleanup w).2) = cleanupSchedules (storage w)
  \/ cleanupSchedules (storage (checkAndRunCleanup w).2) =
       alter (fun r => CleanupSchedule.merge r (rescheduled (clock (env w))) (clock (env w)))
         CLEANUP_TASK_NAME (cleanupSchedules (storage w)).
Proof.
  run_scheduler.
  destruct (faults (env w) (calls (env w)) (GetCleanupSchedule CLEANUP_TASK_NAME)); cbn;
    [now left|].
  destruct (cleanupSchedules (storage w) !! CLEANUP_TASK_NAME) as [s|]; cbn; [|now left].
  destruct (CleanupSchedule.isEnabled s); cbn; [|now left].
  destruct (CleanupSchedule.nextScheduledTime s) as [due|]; cbn; [|now left].
  destruct (clock (env w) >=? due); cbn; [|now left].
  destruct (faults (env w) (S (calls (env w))) ClearAllDeviceData); cbn; [now left|].
  destruct (faults (env w) (S (S (calls (env w)))) _); cbn; [now left|].
  now right.
Qed.

Lemma manual_success w s :
  schedule_of w = Some s ->
  fails w 0 ClearAllDeviceData = false ->
  fails w 1 (UpdateCleanupSchedule CLEANUP_TASK_NAME (rescheduled (clock (env w)))) = false ->
  (runCleanup w).1 = Return (Z.of_nat (length (deviceData (storage w))))
  /\ schedule_of (runCleanup w).2 =
       Some (CleanupSchedule.merge s (rescheduled (clock (env w))) (clock (env w)))
  /\ deviceData (storage (runCleanup w).2) = [].
Proof.
  rewrite fails_0, fails_1. unfold schedule_of, rescheduled.
  intros Hs F0 F1.
  run_scheduler. rewrite F0. cbn. rewrite F1. cbn.
  rewrite lookup_alter_eq, Hs. repeat split; reflexivity.
Qed.

Lemma manual_schedule_cases w :
  cleanupSchedules (storage (runCleanup w).2) = cleanupSchedules (storage w)
  \/ cleanupSchedules (storage (runCleanup w).2) =
       alter (fun r => CleanupSchedule.merge r (rescheduled (clock (env w))) (clock (env w)))
         CLEANUP_TASK_NAME (cleanupSchedules (storage w)).
Proof.
  run_scheduler.
  destruct (faults (env w) (calls (env w)) ClearAllDeviceData); cbn; [now left|].
  destruct (faults (env w) (S (calls (env w))) _); cbn; [now left|].
  now right.
Qed.

(** A record rewritten from the instant [T] carries [T] and [T] plus two
    days. *)
Lemma recorded_pair (m m' : gmap string CleanupSchedule.t) T s s' :
  m !! CLEANUP_TASK_NAME = Some s ->
  m' !! CLEANUP_TASK_NAME = Some s' ->
  s' <> s ->
  m' = m \/ m' = alter (fun r => CleanupSchedule.merge r (rescheduled T) T) CLEANUP_TASK_NAME m ->
  CleanupSchedule.lastExecutionTime s' = Some T
  /\ CleanupSchedule.nextScheduledTime s' = Some (T + 172800 * 1000).
Proof.
  intros Hm Hm' Hne [->| ->].
  - congruence.
  - rewrite lookup_alter_eq, Hm in Hm'. injection Hm' as <-.
    cbn. rewrite interval_is_172800_seconds. split; reflexivity.
Qed.


(** A tick whose wipe throws changes nothing in [storage]. *)
Lemma tick_wipe_fails w :
  fails w 1 ClearAllDeviceData = true ->
  storage (checkAndRunCleanup w).2 = storage w.
Proof.
  rewrite fails_1. intros F1. run_scheduler.
  destruct (faults (env w) (calls (env w)) (GetCleanupSchedule CLEANUP_TASK_NAME)); cbn;
    [reflexivity|].
  destruct (cleanupSchedules (storage w) !! CLEANUP_TASK_NAME) as [s|]; cbn; [|reflexivity].
  destruct (CleanupSchedule.isEnabled s); cbn; [|reflexivity].
  destruct (CleanupSchedule.nextScheduledTime s) as [due|]; cbn; [|reflexivity].
  destruct (clock (env w) >=? due); cbn; [|reflexivity].
  rewrite F1. reflexivity.
Qed.

Lemma tick_failed w s due :
  schedule_of w = Some s ->
  CleanupSchedule.isEnabled s = true ->
  CleanupSchedule.nextScheduledTime s = Some due ->
  due <= clock (env w) ->
  fails w 0 (GetCleanupSchedule CLEANUP_TASK_NAME) = false ->
  fails w 1 ClearAllDeviceData = true ->
  let w' := (checkAndRunCleanup w).2 in
  storage w' = storage w /\ clock (env w') = clock (env w)
  /\ faults (env w') = faults (env w) /\ added w w' failedTick.
Proof.
  rewrite fails_0, fails_1. unfold schedule_of, added, failedTick.
  intros Hs He Hn Hd F0 F1.
  run_scheduler. rewrite F0. cbn. rewrite Hs, He. cbn. rewrite Hn. cbn.
  destruct (Z.geb_spec (clock (env w)) due) as [_|]; [|lia].
  cbn. rewrite F1. cbn. rewrite <- !app_assoc. repeat split; reflexivity.
Qed.

(** A tick that is due and can read the schedule attempts the wipe. *)
Lemma tick_attempts w s due :
  schedule_of w = Some s ->
  CleanupSchedule.isEnabled s = true ->
  CleanupSchedule.nextScheduledTime s = Some due ->
  due <= clock (env w) ->
  fails w 0 (GetCleanupSchedule CLEANUP_TASK_NAME) = false ->
  exists rest,
    added w (checkAndRunCleanup w).2
      ([ EStorage (GetCleanupSchedule CLEANUP_TASK_NAME) true;
         ELog "Running scheduled cleanup";
         EStorage ClearAllDeviceData (negb (fails w 1 ClearAllDeviceData)) ] ++ rest).
Proof.
  rewrite fails_0, fails_1. unfold schedule_of, added.
  intros Hs He Hn Hd F0.
  run_scheduler. rewrite F0. cbn. rewrite Hs, He. cbn. rewrite Hn. cbn.
  destruct (Z.geb_spec (clock (env w)) due) as [_|]; [|lia].
  cbn.
  destruct (faults (env w) (S (calls (env w))) ClearAllDeviceData); cbn.
  - eexists. rewrite <- !app_assoc. cbn. reflexivity.
  - destruct (faults (env w) (S (S (calls (env w)))) _); cbn;
      eexists; rewrite <- !app_assoc; cbn; reflexivity.
Qed.

(** The check never throws: its [catch] logs and returns. *)
Lemma tick_returns w : (checkAndRunCleanup w).1 = Return tt.
Proof.
  run_scheduler.
  repeat match goal with
         | |- context [match ?x with _ => _ end] => destruct x; cbn
         | a : unit |- _ => destruct a
         end; reflexivity.
Qed.

(** Ticks that keep failing keep retrying at the same boundary. *)
Lemma run_failing k : forall w s due,
  schedule_of w = Some s ->
  CleanupSchedule.isEnabled s = true ->
  CleanupSchedule.nextScheduledTime s = Some due ->
  due <= clock (env w) ->
  (forall n, faults (env w) n (GetCleanupSchedule CLEANUP_TASK_NAME) = false) ->
  (forall n, faults (env w) n ClearAllDeviceData = true) ->
  storage (run k w).2 = storage w
  /\ clock (env (run k w).2) = clock (env w) + Z.of_nat k * CHECK_INTERVAL_MS
  /\ added w (run k w).2 (concat (replicate k (ETimeout CHECK_INTERVAL_MS :: failedTick))).
Proof.
  induction k as [|k IH]; intros w s due Hs He Hn Hd FG FC.
  - cbn. unfold added. rewrite app_nil_r. repeat split; try reflexivity.
    unfold CHECK_INTERVAL_MS; lia.
  - pose (w1 := with_env (fun e => set_clock (clock e + CHECK_INTERVAL_MS) e)
                  (emit (ETimeout CHECK_INTERVAL_MS) w)).
    assert (Heq : (run (S k) w).2 = (run k (checkAndRunCleanup w1).2).2).
    { cbn [run]. unfold bind at 1, setTimeout, bind at 1 2, log, modify. fold w1.
      pose proof (tick_returns w1) as Hr.
      destruct (checkAndRunCleanup w1) as [c w2]. cbn in Hr. subst c. reflexivity. }
    rewrite Heq. clear Heq.
    assert (Hdue1 : due <= clock (env w1)) by (subst w1; cbn; unfold CHECK_INTERVAL_MS; lia).
    destruct (tick_failed w1 s due) as (Hst & Hck & Hft & Htr); try assumption.
    { unfold fails. apply FG. } { unfold fails. apply FC. }
    cbn zeta in Hst, Hck, Hft, Htr.
    set (w2 := (checkAndRunCleanup w1).2) in *.
    destruct (IH w2 s due) as (Hst' & Hck' & Htr').
    + unfold schedule_of. rewrite Hst. exact Hs.
    + assumption.
    + assumption.
    + rewrite Hck. exact Hdue1.
    + intros n. rewrite Hft. apply FG.
    + intros n. rewrite Hft. apply FC.
    + split; [|split].
      * rewrite Hst'. exact Hst.
      * rewrite Hck', Hck. subst w1. cbn. unfold CHECK_INTERVAL_MS. lia.
      * unfold added in *. rewrite Htr', Htr. subst w1. cbn.
        rewrite <- !app_assoc. reflexivity.
Qed.


Lemma manual_returns w : exists n, (runCleanup w).1 = Return n.
Proof.
  run_scheduler.
  destruct (faults (env w) (calls (env w)) ClearAllDeviceData); cbn; [now exists 0|].
  destruct (faults (env w) (S (calls (env w))) _); cbn; eexists; reflexivity.
Qed.

Lemma manual_wipe_fails w :
  fails w 0 ClearAllDeviceData = true ->
  (runCleanup w).1 = Return 0 /\ storage (runCleanup w).2 = storage w.
Proof.
  rewrite fails_0. intros F0. run_scheduler. rewrite F0. cbn. split; reflexivity.
Qed.

Lemma manual_update_fails w :
  fails w 0 ClearAllDeviceData = false ->
  fails w 1 (UpdateCleanupSchedule CLEANUP_TASK_NAME (rescheduled (clock (env w)))) = true ->
  (runCleanup w).1 = Return 0
  /\ cleanupSchedules (storage (runCleanup w).2) = cleanupSchedules (storage w)
  /\ deviceData (storage (runCleanup w).2) = [].
Proof.
  rewrite fails_0, fails_1. unfold rescheduled. intros F0 F1.
  run_scheduler. rewrite F0. cbn. rewrite F1. cbn. repeat split; reflexivity.
Qed.

End Scheduler.

(** C1. Whenever a cleanup run, scheduled or manual, records the instant T
    of its execution, the next scheduled time it records with it is T plus
    the interval of two days, that is T plus 172800 seconds (the interval
    of the record, when the record says two days); the sum is a plain
    addition on the instant of the run and does not depend on the boundary
    that had fallen due, however long ago. *)
Theorem C1_next_run_is_execution_plus_interval (w : World) (s : CleanupSchedule.t) :
  schedule_of w = Some s ->
  CleanupScheduler.calculateNextScheduledTimeFromLast (clock (env w))
    = clock (env w) + CleanupScheduler.CLEANUP_INTERVAL_DAYS * (24 * 60 * 60 * 1000)
  /\ CleanupScheduler.CLEANUP_INTERVAL_DAYS = 2
  /\ (forall due,
        CleanupSchedule.isEnabled s = true ->
        CleanupSchedule.nextScheduledTime s = Some due ->
        due <= clock (env w) ->
        fails w 0 (GetCleanupSchedule CleanupScheduler.CLEANUP_TASK_NAME) = false ->
        fails w 1 ClearAllDeviceData = false ->
        fails w 2 (UpdateCleanupSchedule CleanupScheduler.CLEANUP_TASK_NAME
                     (rescheduled (clock (env w)))) = false ->
        exists s', schedule_of (CleanupScheduler.checkAndRunCleanup w).2 = Some s'
          /\ CleanupSchedule.lastExecutionTime s' = Some (clock (env w))
          /\ CleanupSchedule.nextScheduledTime s' = Some (clock (env w) + 172800 * 1000)
          /\ (CleanupSchedule.intervalDays s = 2 ->
              CleanupSchedule.nextScheduledTime s'
              = Some (clock (env w) + CleanupSchedule.intervalDays s' * (24 * 60 * 60 * 1000))))
  /\ (fails w 0 ClearAllDeviceData = false ->
      fails w 1 (UpdateCleanupSchedule CleanupScheduler.CLEANUP_TASK_NAME
                   (rescheduled (clock (env w)))) = false ->
      exists s', schedule_of (CleanupScheduler.runCleanup w).2 = Some s'
        /\ CleanupSchedule.lastExecutionTime s' = Some (clock (env w))
        /\ CleanupSchedule.nextScheduledTime s' = Some (clock (env w) + 172800 * 1000)
        /\ (CleanupSchedule.intervalDays s = 2 ->
            CleanupSchedule.nextScheduledTime s'
            = Some (clock (env w) + CleanupSchedule.intervalDays s' * (24 * 60 * 60 * 1000))))
  /\ (forall s', schedule_of (CleanupScheduler.checkAndRunCleanup w).2 = Some s' ->
        s' <> s ->
        CleanupSchedule.lastExecutionTime s' = Some (clock (env w))
        /\ CleanupSchedule.nextScheduledTime s' = Some (clock (env w) + 172800 * 1000))
  /\ (forall s', schedule_of (CleanupScheduler.runCleanup w).2 = Some s' ->
        s' <> s ->
        CleanupSchedule.lastExecutionTime s' = Some (clock (env w))
        /\ CleanupSchedule.nextScheduledTime s' = Some (clock (env w) + 172800 * 1000)).
Proof.
  intros Hs. split; [|split; [|split; [|split; [|split]]]].
  - unfold CleanupScheduler.calculateNextScheduledTimeFromLast. lia.
  - reflexivity.
  - intros due He Hn Hd F0 F1 F2.
    destruct (tick_success w s due Hs He Hn Hd F0 F1 F2) as [Hs' _].
    eexists. split; [exact Hs'|]. cbn.
    rewrite interval_is_172800_seconds. repeat split; try reflexivity.
    intros ->. reflexivity.
  - intros F0 F1.
    destruct (manual_success w s Hs F0 F1) as (_ & Hs' & _).
    eexists. split; [exact Hs'|]. cbn.
    rewrite interval_is_172800_seconds. repeat split; try reflexivity.
    intros ->. reflexivity.
  - intros s' Hs' Hne.
    exact (recorded_pair _ _ _ s s' Hs Hs' Hne (tick_schedule_cases w)).
  - intros s' Hs' Hne.
    exact (recorded_pair _ _ _ s s' Hs Hs' Hne (manual_schedule_cases w)).
Qed.

Lemma C1_witness :
  schedule_of Sample.world = Some Sample.schedule
  /\ (exists s', schedule_of (CleanupScheduler.checkAndRunCleanup Sample.world).2 = Some s'
        /\ CleanupSchedule.lastExecutionTime s' = Some 100000
        /\ CleanupSchedule.nextScheduledTime s' = Some (100000 + 172800 * 1000))
  /\ (exists s', schedule_of (CleanupScheduler.runCleanup Sample.world).2 = Some s'
        /\ CleanupSchedule.lastExecutionTime s' = Some 100000
        /\ CleanupSchedule.nextScheduledTime s' = Some (100000 + 172800 * 1000)).
Proof.
  destruct (C1_next_run_is_execution_plus_interval Sample.world Sample.schedule eq_refl)
    as (_ & _ & Htick & Hmanual & _).
  split; [reflexivity|]. split.
  - destruct (Htick 50000) as (s' & H1 & H2 & H3 & _); try reflexivity; [cbn; lia|].
    exists s'. repeat split; assumption.
  - destruct Hmanual as (s' & H1 & H2 & H3 & _); try reflexivity.
    exists s'. repeat split; assumption.
Defined.

(** C9. A scheduled check whose wipe throws leaves the persisted schedule,
    and all of the storage, as it was; a later check that finds the same
    schedule due attempts the wipe again, and checks that keep failing
    every 60 seconds keep the schedule and retry once each. *)
Theorem C9_failed_wipe_keeps_schedule (w : World) (s : CleanupSchedule.t) (due : Z) :
  schedule_of w = Some s ->
  CleanupSchedule.isEnabled s = true ->
  CleanupSchedule.nextScheduledTime s = Some due ->
  due <= clock (env w) ->
  (fails w 1 ClearAllDeviceData = true ->
     storage (CleanupScheduler.checkAndRunCleanup w).2 = storage w
     /\ schedule_of (CleanupScheduler.checkAndRunCleanup w).2 = Some s)
  /\ (fails w 0 (GetCleanupSchedule CleanupScheduler.CLEANUP_TASK_NAME) = false ->
      exists rest,
        added w (CleanupScheduler.checkAndRunCleanup w).2
          ([ EStorage (GetCleanupSchedule CleanupScheduler.CLEANUP_TASK_NAME) true;
             ELog "Running scheduled cleanup";
             EStorage ClearAllDeviceData (negb (fails w 1 ClearAllDeviceData)) ] ++ rest))
  /\ ((forall n, faults (env w) n (GetCleanupSchedule CleanupScheduler.CLEANUP_TASK_NAME) = false) ->
      (forall n, faults (env w) n ClearAllDeviceData = true) ->
      forall k,
        storage (CleanupScheduler.run k w).2 = storage w
        /\ schedule_of (CleanupScheduler.run k w).2 = Some s
        /\ added w (CleanupScheduler.run k w).2
             (concat (replicate k (ETimeout CleanupScheduler.CHECK_INTERVAL_MS :: failedTick)))).
Proof.
  intros Hs He Hn Hd. split; [|split].
  - intros F1. pose proof (tick_wipe_fails w F1) as Hst. split; [exact Hst|].
    unfold schedule_of. rewrite Hst. exact Hs.
  - intros F0. exact (tick_attempts w s due Hs He Hn Hd F0).
  - intros FG FC k.
    destruct (run_failing k w s due Hs He Hn Hd FG FC) as (Hst & _ & Htr).
    split; [exact Hst|]. split; [|exact Htr].
    unfold schedule_of. rewrite Hst. exact Hs.
Qed.

Lemma C9_witness :
  let w := Sample.make Sample.wipeThrows Sample.silent [] in
  schedule_of (CleanupScheduler.checkAndRunCleanup w).2 = Some Sample.schedule
  /\ schedule_of (CleanupScheduler.run 3 w).2 = Some Sample.schedule
  /\ added w (CleanupScheduler.run 3 w).2
       (concat (replicate 3 (ETimeout CleanupScheduler.CHECK_INTERVAL_MS :: failedTick))).
Proof.
  intros w.
  assert (Hdue : 50000 <= clock (env w)) by (cbn; lia).
  destruct (C9_failed_wipe_keeps_schedule w Sample.schedule 50000
              eq_refl eq_refl eq_refl Hdue) as (Hone & _ & Hmany).
  split.
  - apply Hone. reflexivity.
  - destruct (Hmany (fun _ => eq_refl) (fun _ => eq_refl) 3%nat) as (_ & H1 & H2).
    split; assumption.
Defined.

(** C10. The manual trigger never throws.  When the wipe throws it returns
    0 and leaves the storage, hence the schedule, as it was; when the
    update of the schedule throws after the wipe it returns 0 as well; and
    a wipe of an empty table that succeeds returns the same 0. *)
Theorem C10_manual_cleanup_swallows_errors (w : World) :
  (exists n, (CleanupScheduler.runCleanup w).1 = Return n)
  /\ (fails w 0 ClearAllDeviceData = true ->
      (CleanupScheduler.runCleanup w).1 = Return 0
      /\ storage (CleanupScheduler.runCleanup w).2 = storage w
      /\ schedule_of (CleanupScheduler.runCleanup w).2 = schedule_of w)
  /\ (fails w 0 ClearAllDeviceData = false ->
      fails w 1 (UpdateCleanupSchedule CleanupScheduler.CLEANUP_TASK_NAME
                   (rescheduled (clock (env w)))) = true ->
      (CleanupScheduler.runCleanup w).1 = Return 0)
  /\ (fails w 0 ClearAllDeviceData = false ->
      fails w 1 (UpdateCleanupSchedule CleanupScheduler.CLEANUP_TASK_NAME
                   (rescheduled (clock (env w)))) = false ->
      deviceData (storage w) = [] ->
      (CleanupScheduler.runCleanup w).1 = Return 0).
Proof.
  split; [exact (manual_returns w)|]. split; [|split].
  - intros F0. destruct (manual_wipe_fails w F0) as [Hr Hst].
    split; [exact Hr|]. split; [exact Hst|]. unfold schedule_of. now rewrite Hst.
  - intros F0 F1. exact (proj1 (manual_update_fails w F0 F1)).
  - intros F0 F1 Hempty. revert F0 F1. rewrite fails_0, fails_1. intros F0 F1.
    unfold CleanupScheduler.runCleanup, try_catch, bind, storage.clearAllDeviceData,
      storage.updateCleanupSchedule, query, Date_now, gets, log, modify, ret, rescheduled in *.
    cbn in *. rewrite F0. cbn. rewrite F1. cbn. rewrite Hempty. reflexivity.
Qed.

Lemma C10_witness :
  (CleanupScheduler.runCleanup (Sample.make Sample.wipeThrows Sample.silent [])).1 = Return 0
  /\ schedule_of (CleanupScheduler.runCleanup (Sample.make Sample.wipeThrows Sample.silent [])).2
       = Some Sample.schedule
  /\ (CleanupScheduler.runCleanup (Sample.make Sample.updateThrows Sample.silent [])).1 = Return 0
  /\ (CleanupScheduler.runCleanup
        (with_storage (set_deviceData [] 3) Sample.world)).1 = Return 0.
Proof.
  destruct (C10_manual_cleanup_swallows_errors
              (Sample.make Sample.wipeThrows Sample.silent [])) as (_ & Hwipe & _).
  destruct (Hwipe eq_refl) as (H1 & _ & H2).
  destruct (C10_manual_cleanup_swallows_errors
              (Sample.make Sample.updateThrows Sample.silent [])) as (_ & _ & Hupd & _).
  destruct (C10_manual_cleanup_swallows_errors
              (with_storage (set_deviceData [] 3) Sample.world)) as (_ & _ & _ & Hempty).
  split; [exact H1|]. split; [exact H2|]. split.
  - apply Hupd; reflexivity.
  - apply Hempty; reflexivity.
Defined.

(** ** Properties of the batch buffer *)

Section Batcher.

Lemma persistedOf_cons d ok tried :
  persistedOf ((d, ok) :: tried) = if ok then d :: persistedOf tried else persistedOf tried.
Proof. unfold persistedOf. cbn. destruct ok; cbn; reflexivity. Qed.

Lemma failedOf_cons d ok tried :
  failedOf ((d, ok) :: tried) = if ok then failedOf tried else d :: failedOf tried.
Proof. unfold failedOf. cbn. destruct ok; cbn; reflexivity. Qed.

Lemma attempts_fst faulty batch : forall n, map fst (attempts faulty n batch) = batch.
Proof. induction batch as [|d l IH]; intros n; cbn; [reflexivity | now rewrite IH]. Qed.

(** The loop of [flushBatch] tries every reading, whatever happens to the
    ones before it. *)
Lemma persistEach_spec batch : forall w successCount failedItems,
  let tried := attempts (faults (env w)) (calls (env w)) batch in
  persistEach batch successCount failedItems w =
    (Return (successCount + Z.of_nat (length (persistedOf tried)),
             failedItems ++ failedOf tried),
     afterPersist w tried).
Proof.
  induction batch as [|data rest IH]; intros w successCount failedItems tried.
  - subst tried. unfold ret, afterPersist.
    destruct w as [[] ? [] ?]; cbn. change (Z.of_nat 0) with 0.
    unfold set_deviceData, set_calls, ret; cbn.
    rewrite !Z.add_0_r, !app_nil_r, Nat.add_0_r. reflexivity.
  - subst tried. unfold afterPersist at 1. rewrite attempts_fst.
    cbn [persistEach attempts insertedOf].
    rewrite persistedOf_cons, failedOf_cons.
    unfold bind at 1. unfold try_catch at 1. unfold bind at 1.
    unfold storage.createDeviceData at 1, query. fold (insertOf data).
    cbn [writesThenReads andb].
    destruct (faults (env w) (calls (env w)) (CreateDeviceData (insertOf data))) eqn:F;
      [destruct (written (env w) (calls (env w)) (CreateDeviceData (insertOf data))) eqn:L|];
      cbv beta iota zeta; cbn [negb orb]; cbv beta iota.
    + unfold bind at 1, log, modify, ret. cbv beta iota. rewrite IH.
      cbn [env emit with_env with_storage faults calls set_calls storage].
      set (tried := attempts _ _ rest).
      f_equal; [f_equal; now rewrite <- app_assoc|].
      unfold afterPersist.
      replace (map fst tried) with rest by (symmetry; apply attempts_fst).
      destruct w as [[] ? [] ?]. cbn. rewrite <- !app_assoc. cbn.
      unfold set_calls, set_deviceData; cbn. rewrite Nat.add_succ_r.
      rewrite Nat2Z.inj_succ, <- Z.add_1_l, Z.add_assoc. reflexivity.
    + unfold bind at 1, log, modify, ret. cbv beta iota. rewrite IH.
      cbn [env emit with_env faults calls set_calls].
      set (tried := attempts _ _ rest).
      f_equal; [f_equal; now rewrite <- app_assoc|].
      unfold afterPersist.
      replace (map fst tried) with rest by (symmetry; apply attempts_fst).
      destruct w as [[] ? [] ?]. cbn. rewrite <- !app_assoc. cbn.
      unfold set_calls; cbn. rewrite Nat.add_succ_r. reflexivity.
    + unfold ret. cbv beta iota. rewrite IH.
      cbn [env emit with_env with_storage faults calls set_calls storage].
      set (tried := attempts _ _ rest).
      f_equal. { do 2 f_equal. cbn [length]. lia. }
      unfold afterPersist.
      replace (map fst tried) with rest by (symmetry; apply attempts_fst).
      destruct w as [[] ? [] ?]. cbn. rewrite <- !app_assoc. cbn.
      unfold set_calls, set_deviceData; cbn. rewrite Nat.add_succ_r.
      rewrite Nat2Z.inj_succ, <- Z.add_1_l, Z.add_assoc. reflexivity.
Qed.

Lemma flushBatch_empty retryOnError w :
  batchBuffer (service w) = [] ->
  flushBatch retryOnError w = (Return 0, emit (EFlush retryOnError) w).
Proof.
  intros Hb. unfold flushBatch, bind, log, modify, gets. cbn. rewrite Hb. reflexivity.
Qed.

Lemma flushBatch_spec retryOnError w :
  batchBuffer (service w) <> [] ->
  let tried := attempts (faults (env w)) (calls (env w)) (batchBuffer (service w)) in
  flushBatch retryOnError w =
    (Return (Z.of_nat (length (persistedOf tried))),
     (requeue retryOnError (failedOf tried)
        (afterPersist (with_service (set_batchBuffer []) (emit (EFlush retryOnError) w))
           tried)).2).
Proof.
  intros Hb tried. unfold flushBatch.
  unfold bind at 1, log, modify. unfold bind at 1, gets. cbn [service emit].
  destruct (batchBuffer (service w)) as [|d l] eqn:Hbuf; [congruence|].
  replace (Z.of_nat (length (d :: l)) =? 0) with false
    by (symmetry; apply Z.eqb_neq; cbn [length]; lia).
  unfold bind at 1. unfold bind at 1.
  rewrite persistEach_spec. cbn [env with_service emit faults calls].
  fold tried. rewrite Z.add_0_l, app_nil_l.
  unfold bind, ret.
  destruct (requeue retryOnError (failedOf tried) _) as [[[]|e] w'] eqn:Hq.
  - reflexivity.
  - exfalso. revert Hq. unfold requeue, when, bind, log, modify, ret.
    destruct (_ && _); discriminate.
Qed.

Lemma requeue_buffer retryOnError failedItems w :
  batchBuffer (service (requeue retryOnError failedItems w).2) =
    if retryOnError then failedItems ++ batchBuffer (service w)
    else batchBuffer (service w).
Proof.
  unfold requeue, when, bind, log, modify, ret.
  destruct failedItems as [|d l]; destruct retryOnError; reflexivity.
Qed.

Lemma requeue_trace retryOnError failedItems w :
  trace (requeue retryOnError failedItems w).2 =
    trace w ++ (if (Z.of_nat (length failedItems) >? 0) && retryOnError
                then [ELog "Retrying failed items"] else []).
Proof.
  unfold requeue, when, bind, log, modify, ret.
  destruct (_ && _); cbn; [reflexivity | now rewrite app_nil_r].
Qed.

Lemma requeue_storage retryOnError failedItems w :
  storage (requeue retryOnError failedItems w).2 = storage w.
Proof.
  unfold requeue, when, bind, log, modify, ret.
  destruct (_ && _); reflexivity.
Qed.

(** A reading that the flush counts is a reading whose row is inserted. *)
Lemma persisted_inserted faulty late batch : forall n,
  persistedOf (attempts faulty n batch) `sublist_of` insertedOf faulty late n batch.
Proof.
  induction batch as [|d l IH]; intros n; [constructor|].
  cbn [attempts insertedOf]. rewrite persistedOf_cons.
  destruct (faulty n (CreateDeviceData (insertOf d))); cbn [negb orb].
  - destruct (late n (CreateDeviceData (insertOf d))); [constructor|]; apply IH.
  - constructor. apply IH.
Qed.

(** When no call throws after its write, the rows inserted are those of
    the readings counted. *)
Lemma insertedOf_atomic faulty late batch : forall n,
  (forall k c, faulty k c = true -> late k c = false) ->
  insertedOf faulty late n batch = persistedOf (attempts faulty n batch).
Proof.
  intros n H. revert n.
  induction batch as [|d l IH]; intros n; [reflexivity|].
  cbn [attempts insertedOf]. rewrite persistedOf_cons, IH.
  destruct (faulty n (CreateDeviceData (insertOf d))) eqn:F; cbn [negb orb]; [|reflexivity].
  now rewrite (H _ _ F).
Qed.

(** A reading whose call throws after its write is inserted and collected
    as failed. *)
Lemma inserted_or_failed faulty late batch : forall n data,
  In data batch ->
  In data (insertedOf faulty late n batch) \/ In data (failedOf (attempts faulty n batch)).
Proof.
  induction batch as [|d l IH]; intros n data Hin; [destruct Hin|].
  cbn [attempts insertedOf]. rewrite failedOf_cons.
  destruct Hin as [->|Hin].
  - destruct (faulty n (CreateDeviceData (insertOf data))); cbn [negb orb].
    + right. now left.
    + left. now left.
  - destruct (IH (S n) data Hin) as [H|H].
    + left. destruct (_ || _); [right|]; exact H.
    + right. destruct (negb _); [|right]; exact H.
Qed.

Lemma insertedOf_In faulty late batch : forall n data,
  In data (insertedOf faulty late n batch) -> In data batch.
Proof.
  induction batch as [|d l IH]; intros n data; [intros []|].
  cbn [insertedOf]. destruct (_ || _).
  - intros [->|H]; [now left | right; eapply IH; exact H].
  - intros H. right. eapply IH; exact H.
Qed.

(** What a flush leaves, for any buffer. *)
Lemma flushBatch_effects retryOnError w :
  let tried := attempts (faults (env w)) (calls (env w)) (batchBuffer (service w)) in
  let w' := (flushBatch retryOnError w).2 in
  (flushBatch retryOnError w).1 = Return (Z.of_nat (length (persistedOf tried)))
  /\ batchBuffer (service w') = (if retryOnError then failedOf tried else [])
  /\ added w w' (flushTrace retryOnError tried)
  /\ deviceData (storage w') =
       deviceData (storage w)
         ++ rowsOf (clock (env w)) (currentDeviceDataId (storage w))
              (insertedOf (faults (env w)) (written (env w)) (calls (env w))
                 (batchBuffer (service w))).
Proof.
  intros tried w'. subst w'.
  destruct (batchBuffer (service w)) as [|d l] eqn:Hbuf.
  - rewrite flushBatch_empty by assumption. subst tried. cbn.
    unfold added, flushTrace. cbn. rewrite app_nil_r.
    repeat split; try reflexivity. now destruct retryOnError.
  - assert (Hne : batchBuffer (service w) <> []) by (rewrite Hbuf; discriminate).
    rewrite (flushBatch_spec retryOnError w Hne). rewrite Hbuf. fold tried.
    cbn [fst snd].
    split; [reflexivity|]. split; [|split].
    + rewrite requeue_buffer. cbn. destruct retryOnError; [apply app_nil_r | reflexivity].
    + unfold added. rewrite requeue_trace. cbn. unfold flushTrace.
      rewrite <- !app_assoc. reflexivity.
    + rewrite requeue_storage. unfold afterPersist. cbn [storage deviceData set_deviceData].
      subst tried. rewrite attempts_fst. reflexivity.
Qed.

End Batcher.

Example flush_retries_the_failed_one :
  let buffer := [Sample.reading "D1" 1800 1; Sample.reading "D2" 300 2;
                 Sample.reading "D4" 2600 3] in
  let second n (c : StorageCall) := Nat.eqb n 1 in
  let w := Sample.make second Sample.silent buffer in
  (flushBatch true w).1 = Return 2
  /\ batchBuffer (service (flushBatch true w).2) = [Sample.reading "D2" 300 2]
  /\ batchBuffer (service (flushBatch false w).2) = []
  /\ length (deviceData (storage (flushBatch true w).2)) = 4%nat.
Proof. vm_compute. repeat split; reflexivity. Qed.

(** The claim as first stated fails where a call of [createDeviceData]
    throws after its INSERT: the flush returns 0 although the row of the
    reading is in the table, and it puts the reading back as failed, so
    that the next flush inserts it a second time. *)
Lemma C6_counterexample :
  let reading := Sample.reading "D1" 1800 1 in
  let first n (c : StorageCall) := Nat.eqb n 0 in
  let w := Sample.makeLate first Sample.silent [reading] in
  let w1 := (flushBatch true w).2 in
  let w2 := (flushBatch true w1).2 in
  let row id := {| DeviceData.id := id; DeviceData.deviceId := "D1";
                   DeviceData.timestamp := 100000;
                   DeviceData.alcoholLevel := JS.of_Z 1800;
                   DeviceData.alertStatus := "Moderate Drunk" |} in
  (flushBatch true w).1 = Return 0
  /\ deviceData (storage w1) = deviceData (storage w) ++ [row 3]
  /\ (flushBatch true w).1 <>
       Return (Z.of_nat (length (deviceData (storage w1)))
               - Z.of_nat (length (deviceData (storage w))))
  /\ batchBuffer (service w1) = [reading]
  /\ (flushBatch true w1).1 = Return 1
  /\ deviceData (storage w2) = deviceData (storage w) ++ [row 3; row 4].
Proof. vm_compute. repeat split; try reflexivity. discriminate. Qed.

(** C6, amended. A flush takes the whole buffer and leaves an empty one in
    its place, calls [createDeviceData] once for every reading taken, in
    the order of the buffer, each call returning or throwing on its own,
    and returns how many calls returned.  The readings whose call threw are
    put back in order in front of the buffer when [retryOnError] is set and
    are dropped otherwise.  The rows appended are those of the readings
    whose INSERT was executed: the readings counted, and those whose call
    threw after its INSERT, which are rows of the table and failed readings
    at once.  When no call throws after its write the rows are exactly
    those of the readings counted. *)
Theorem C6_flush_persists_each_reading_on_its_own (retryOnError : bool) (w : World) :
  let buffer := batchBuffer (service w) in
  let tried := attempts (faults (env w)) (calls (env w)) buffer in
  let inserted := insertedOf (faults (env w)) (written (env w)) (calls (env w)) buffer in
  let w' := (flushBatch retryOnError w).2 in
  map fst tried = buffer
  /\ (flushBatch retryOnError w).1 = Return (Z.of_nat (length (persistedOf tried)))
  /\ added w w' (flushTrace retryOnError tried)
  /\ filter (fun e => isPersistence e = true) (flushTrace retryOnError tried) =
       EFlush retryOnError
         :: map (fun a : BatchedData.t * bool =>
                  EStorage (CreateDeviceData (insertOf (fst a))) (snd a)) tried
  /\ deviceData (storage w') =
       deviceData (storage w)
         ++ rowsOf (clock (env w)) (currentDeviceDataId (storage w)) inserted
  /\ persistedOf tried `sublist_of` inserted
  /\ (forall data, In data buffer -> In data inserted \/ In data (failedOf tried))
  /\ ((forall n c, faults (env w) n c = true -> written (env w) n c = false) ->
      inserted = persistedOf tried)
  /\ batchBuffer (service w') = (if retryOnError then failedOf tried else [])
  /\ (forall failedItems w0,
        batchBuffer (service (requeue true failedItems w0).2) =
          failedItems ++ batchBuffer (service w0))
  /\ (forall failedItems w0,
        batchBuffer (service (requeue false failedItems w0).2) = batchBuffer (service w0)).
Proof.
  intros buffer tried inserted w'.
  destruct (flushBatch_effects retryOnError w) as (Hr & Hb & Ht & Hd).
  split; [apply attempts_fst|]. split; [exact Hr|]. split; [exact Ht|].
  split; [|split; [exact Hd|]].
  - unfold flushTrace. cbn [filter]. 
    generalize tried. clear. intros tried.
    rewrite filter_cons_True by reflexivity. f_equal.
    rewrite filter_app.
    assert (Hlast : forall b : bool,
               filter (fun e => isPersistence e = true)
                 (if b then [ELog "Retrying failed items"] else []) = []).
    { intros []; [|reflexivity]. now rewrite filter_cons_False by discriminate. }
    rewrite Hlast, app_nil_r. clear Hlast. unfold persistTrace.
    induction tried as [|[d ok] l IH]; [reflexivity|].
    cbn [flat_map map fst snd]. destruct ok; cbn [app].
    + rewrite filter_cons_True by reflexivity. now rewrite IH.
    + rewrite filter_cons_True by reflexivity.
      rewrite filter_cons_False by discriminate. now rewrite IH.
  - split; [apply persisted_inserted|].
    split; [intros data; apply inserted_or_failed|].
    split; [apply insertedOf_atomic|].
    split; [exact Hb|]. split.
    + intros failedItems w0. apply (requeue_buffer true).
    + intros failedItems w0. apply (requeue_buffer false).
Qed.

(** ** Properties of message handling *)

Section Messages.

(** A [catch] that only returns: the handler returns whatever happens. *)
Lemma swallow (m : M unit) w :
  try_catch m (fun _ => ret tt) w = (Return tt, (m w).2).
Proof. unfold try_catch, ret. destruct (m w) as [[[]|e] w']; reflexivity. Qed.

Lemma handleMessage_dropped topic message device w :
  decode message = None ->
  handleMessage topic message device w = (Return tt, w).
Proof. intros Hd. unfold handleMessage. rewrite swallow, Hd. reflexivity. Qed.

Lemma handleMessage_decoded topic message device level w :
  decode message = Some level ->
  handleMessage topic message device w =
    (Return tt, ((flushIfFull ;; refreshStatus device) (ingested device level w)).2).
Proof.
  intros Hd. unfold handleMessage. rewrite swallow, Hd. f_equal.
  unfold bind at 1, Date_now, gets. 
  unfold bind at 1, modify. unfold bind at 1, log, modify.
  unfold bind at 1, gets. unfold bind at 1, when, log, modify, ret.
  cbn [service with_service emit set_latestReadingsCache sensorDataBroadcaster].
  destruct (sensorDataBroadcaster (service w)) eqn:Hsink.
  - unfold bind at 1. unfold bind at 1, modify. unfold bind at 1.
    cbn [env with_service emit clock].
    unfold flushIfFull, refreshStatus, ingested, ingestTrace. rewrite Hsink.
    unfold with_service, emit, readingOf, dataOf; cbn.
    rewrite <- !app_assoc. reflexivity.
  - unfold bind at 1. unfold bind at 1, modify. unfold bind at 1.
    cbn [env with_service emit clock].
    unfold flushIfFull, refreshStatus, ingested, ingestTrace. rewrite Hsink.
    unfold with_service, emit, readingOf, dataOf; cbn.
    rewrite <- !app_assoc. reflexivity.
Qed.


Lemma flushIfFull_below w :
  Z.of_nat (length (batchBuffer (service w))) < BATCH_SIZE ->
  flushIfFull w = (Return tt, w).
Proof.
  intros Hlt. unfold flushIfFull, bind, gets, when.
  destruct (Z.geb_spec (Z.of_nat (length (batchBuffer (service w)))) BATCH_SIZE); [lia|].
  reflexivity.
Qed.

Lemma flushIfFull_full w :
  BATCH_SIZE <= Z.of_nat (length (batchBuffer (service w))) ->
  flushIfFull w = (Return tt, (flushBatch false w).2).
Proof.
  intros Hge. unfold flushIfFull, bind at 1, gets, when.
  destruct (Z.geb_spec (Z.of_nat (length (batchBuffer (service w)))) BATCH_SIZE); [|lia].
  unfold try_catch, bind, ret.
  pose proof (flushBatch_effects false w) as (Hr & _).
  destruct (flushBatch false w) as [c w']. cbn in Hr. subst c. reflexivity.
Qed.

(** Marking the device online touches neither the buffer nor the cache,
    and adds one call on [storage] and at most one device broadcast. *)
Lemma refreshStatus_effects device w :
  service (refreshStatus device w).2 = service w
  /\ exists rest, added w (refreshStatus device w).2 rest
       /\ Forall (fun e => isPersistence e = false) rest
       /\ Forall classified rest.
Proof.
  unfold refreshStatus. rewrite swallow.
  unfold bind, Date_now, gets, storage.updateDevice, query, broadcastDevice,
    log, modify, ret, added. cbn.
  destruct (faults (env w) (calls (env w)) _); cbn.
  - destruct (written (env w) (calls (env w)) _); cbn;
      (split; [reflexivity|]); eexists; (split; [reflexivity|]);
      split; repeat constructor.
  - destruct (webSocketBroadcaster (service w));
      [destruct (find _ _)|]; cbn;
      (split; [reflexivity|]); eexists;
      (split; [rewrite <- ?app_assoc; reflexivity|]);
      split; repeat constructor.
Qed.

Lemma ingestTrace_clean sink device level t :
  Forall (fun e => isPersistence e = false) (ingestTrace sink device level t)
  /\ Forall classified (ingestTrace sink device level t).
Proof. unfold ingestTrace. destruct sink; split; repeat constructor. Qed.

Lemma flushTrace_classified retryOnError tried : Forall classified (flushTrace retryOnError tried).
Proof.
  unfold flushTrace. constructor; [exact I|]. apply Forall_app. split.
  - unfold persistTrace. induction tried as [|[d ok] l IH]; [constructor|].
    cbn. constructor; [exact I|]. destruct ok; cbn; [exact IH|].
    constructor; [exact I|exact IH].
  - destruct (_ && _); repeat constructor.
Qed.

(** The shape of what a decoded message adds to the trace. *)
Lemma handleMessage_shape topic message device level w :
  decode message = Some level ->
  let w' := (handleMessage topic message device w).2 in
  let buffer := batchBuffer (service w) ++ [dataOf device level (clock (env w))] in
  let flushed :=
    if Z.of_nat (length buffer) >=? BATCH_SIZE
    then flushTrace false (attempts (faults (env w)) (calls (env w)) buffer)
    else [] in
  exists rest,
    added w w'
      (ingestTrace (sensorDataBroadcaster (service w)) device level (clock (env w))
         ++ flushed ++ rest)
    /\ Forall (fun e => isPersistence e = false) rest
    /\ Forall classified rest
    /\ batchBuffer (service w') =
         (if Z.of_nat (length buffer) >=? BATCH_SIZE then [] else buffer)
    /\ latestReadingsCache (service w') =
         <[Device.deviceId device := readingOf level (clock (env w))]>
           (latestReadingsCache (service w)).
Proof.
  intros Hd w' buffer flushed.
  set (w1 := ingested device level w).
  assert (Hbuf : batchBuffer (service w1) = buffer) by reflexivity.
  assert (Hw' : w' = (refreshStatus device
                        (if Z.of_nat (length buffer) >=? BATCH_SIZE
                         then (flushBatch false w1).2 else w1)).2).
  { subst w'. rewrite (handleMessage_decoded _ _ _ level) by assumption. cbn [snd].
    unfold bind. fold w1.
    destruct (Z.geb_spec (Z.of_nat (length buffer)) BATCH_SIZE) as [Hge|Hlt].
    - rewrite flushIfFull_full by (rewrite Hbuf; exact Hge). reflexivity.
    - rewrite flushIfFull_below by (rewrite Hbuf; exact Hlt). reflexivity. }
  clearbody w'. subst w' flushed.
  destruct (Z.of_nat (length buffer) >=? BATCH_SIZE).
  - destruct (flushBatch_effects false w1) as (_ & Hb & Ht & _).
    set (w2 := (flushBatch false w1).2) in *.
    assert (Hcache : latestReadingsCache (service w2) = latestReadingsCache (service w1)).
    { subst w2. destruct (batchBuffer (service w1)) as [|d l] eqn:Hne.
      - rewrite flushBatch_empty by assumption. reflexivity.
      - rewrite flushBatch_spec by (rewrite Hne; discriminate). cbn [snd].
        unfold requeue, when, bind, log, modify, ret.
        destruct (_ && _); reflexivity. }
    destruct (refreshStatus_effects device w2) as (Hs & rest & Hr & Hp & Hc).
    exists rest. split; [|split; [exact Hp|split; [exact Hc|split]]].
    + unfold added in *. rewrite Hr, Ht.
      rewrite Hbuf. subst w1. cbn [ingested trace env].
      rewrite <- !app_assoc. reflexivity.
    + rewrite Hs, Hb. reflexivity.
    + rewrite Hs, Hcache. reflexivity.
  - destruct (refreshStatus_effects device w1) as (Hs & rest & Hr & Hp & Hc).
    exists rest. split; [|split; [exact Hp|split; [exact Hc|split]]].
    + unfold added in *. rewrite Hr. subst w1. cbn [ingested trace env app].
      rewrite <- !app_assoc. reflexivity.
    + rewrite Hs. exact Hbuf.
    + rewrite Hs. reflexivity.
Qed.

End Messages.

Example payload_with_level :
  decode (Sample.json "{'alcohol_level': 1800}") = Some (JS.of_Z 1800).
Proof. vm_compute. reflexivity. Qed.

Example payload_priority :
  decode (Sample.json "{'value': 5, 'level': '2600 ppm', 'Index': null}") = Some (JS.of_Z 0)
  /\ decode (Sample.json "{'value': 5, 'level': '2600 ppm'}") = Some (JS.of_Z 2600).
Proof. vm_compute. split; reflexivity. Qed.

Example payload_bare_numbers :
  decode "1800" = Some (JS.of_Z 0)
  /\ decode "+1800" = Some (JS.of_Z 1800)
  /\ decode "18 units" = Some (JS.of_Z 18)
  /\ decode "units" = None.
Proof. vm_compute. repeat split; reflexivity. Qed.

(** C3. On an integer level the alert status is Normal below 1700,
    Moderate Drunk from 1700 to 2499 and Completely Drunk from 2500 on; and
    every reading that message handling caches, broadcasts or enqueues
    carries the status that this function gives for its own level. *)
Theorem C3_alert_status_thresholds :
  (forall n : Z,
      (n < 1700 -> calculateAlertStatus (JS.of_Z n) = "Normal")
      /\ (1700 <= n <= 2499 -> calculateAlertStatus (JS.of_Z n) = "Moderate Drunk")
      /\ (2500 <= n -> calculateAlertStatus (JS.of_Z n) = "Completely Drunk"))
  /\ (forall topic message device w,
        exists events,
          added w (handleMessage topic message device w).2 events
          /\ Forall classified events)
  /\ (forall topic message device level w,
        decode message = Some level ->
        exists reading rest,
          added w (handleMessage topic message device w).2
            (ECacheSet (Device.deviceId device) reading
               :: (if sensorDataBroadcaster (service w)
                   then [ESensorBroadcast (Device.deviceId device) reading] else [])
               ++ EEnqueue {| BatchedData.deviceId := Device.deviceId device;
                              BatchedData.alcoholLevel := Reading.alcoholLevel reading;
                              BatchedData.alertStatus := Reading.alertStatus reading;
                              BatchedData.timestamp := clock (env w) |}
               :: rest)
          /\ Reading.alcoholLevel reading = JS.or level (JS.of_Z 0)
          /\ Reading.alertStatus reading = calculateAlertStatus (Reading.alcoholLevel reading)
          /\ latestReadingsCache (service (handleMessage topic message device w).2)
               !! Device.deviceId device = Some reading).
Proof.
  split; [|split].
  - intros n.
    unfold calculateAlertStatus, JS.of_Z, JS.ge, Qle_bool, inject_Z. cbn [Qnum Qden].
    rewrite !Z.mul_1_r.
    destruct (Z.leb_spec 2500 n), (Z.leb_spec 1700 n);
      repeat split; intros; try lia; reflexivity.
  - intros topic message device w.
    destruct (decode message) as [level|] eqn:Hd.
    + destruct (handleMessage_shape topic message device level w Hd)
        as (rest & Ht & _ & Hc & _).
      eexists. split; [exact Ht|].
      apply Forall_app. split; [apply ingestTrace_clean|].
      apply Forall_app. split; [|exact Hc].
      destruct (_ >=? _); [apply flushTrace_classified | constructor].
    + rewrite handleMessage_dropped by assumption. exists [].
      split; [unfold added; cbn; now rewrite app_nil_r | constructor].
  - intros topic message device level w Hd.
    destruct (handleMessage_shape topic message device level w Hd)
      as (rest & Ht & _ & _ & _ & Hcache).
    exists (readingOf level (clock (env w))). eexists.
    split; [|split; [reflexivity|split; [reflexivity|]]].
    + unfold added in *. rewrite Ht. unfold ingestTrace. cbn [app].
      rewrite <- !app_assoc. reflexivity.
    + rewrite Hcache. apply lookup_insert_eq.
Qed.

Lemma C3_witness :
  calculateAlertStatus (JS.of_Z 1699) = "Normal"
  /\ calculateAlertStatus (JS.of_Z 1700) = "Moderate Drunk"
  /\ calculateAlertStatus (JS.of_Z 2499) = "Moderate Drunk"
  /\ calculateAlertStatus (JS.of_Z 2500) = "Completely Drunk"
  /\ exists reading,
       latestReadingsCache
         (service (handleMessage "sensors" (Sample.json "{'alcohol_level': 1800}")
                     Sample.D1 Sample.world).2) !! "D1" = Some reading
       /\ Reading.alertStatus reading = calculateAlertStatus (Reading.alcoholLevel reading).
Proof.
  destruct C3_alert_status_thresholds as (Hint & _ & Hmsg).
  split; [apply (Hint 1699); lia|].
  split; [apply (Hint 1700); lia|].
  split; [apply (Hint 2499); lia|].
  split; [apply (Hint 2500); lia|].
  destruct (Hmsg "sensors" (Sample.json "{'alcohol_level': 1800}") Sample.D1
              (JS.of_Z 1800) Sample.world payload_with_level)
    as (reading & rest & _ & _ & Hstatus & Hcache).
  exists reading. split; [exact Hcache | exact Hstatus].
Defined.

(** C5 as the specification states it fails: a payload that parses as JSON,
    has none of the recognised fields and is not a number is ingested as a
    reading of level 0. *)
Lemma C5_counterexample :
  let message := Sample.json "{'foo':1}" in
  let w' := (handleMessage "sensors" message Sample.D1 Sample.world).2 in
  (exists parsed,
      JS.JSON_parse message = Some parsed
      /\ JS.getProp parsed "alcohol_level" = None /\ JS.getProp parsed "Index" = None
      /\ JS.getProp parsed "level" = None /\ JS.getProp parsed "value" = None)
  /\ JS.isNaN (JS.parseFloat message) = true
  /\ latestReadingsCache (service w') !! "D1"
       = Some {| Reading.alcoholLevel := JS.of_Z 0; Reading.timestamp := 100000;
                 Reading.alertStatus := "Normal" |}
  /\ latestReadingsCache (service Sample.world) !! "D1" = None
  /\ length (batchBuffer (service w')) = 1%nat
  /\ batchBuffer (service Sample.world) = []
  /\ (exists reading, In (ESensorBroadcast "D1" reading) (trace w'))
  /\ (exists d, In d (devices (storage w')) /\ Device.deviceId d = "D1"
                /\ Device.lastSeen d = Some 100000)
  /\ handleMessage "sensors" message Sample.D1 Sample.world <> (Return tt, Sample.world).
Proof.
  intros message w'.
  split; [eexists; vm_compute; repeat split; reflexivity|].
  split; [vm_compute; reflexivity|].
  split; [vm_compute; reflexivity|].
  split; [vm_compute; reflexivity|].
  split; [vm_compute; reflexivity|].
  split; [reflexivity|].
  split; [eexists; vm_compute; right; left; reflexivity|].
  split; [eexists; vm_compute; split; [left; reflexivity|split; reflexivity]|].
  intros Heq. apply (f_equal (fun r => length (trace r.2))) in Heq.
  vm_compute in Heq. discriminate.
Qed.

(** C5, amended. A message is dropped, leaving the whole state as it was,
    exactly when its structured decoding throws (the text is not JSON, or
    the coercion of the field read throws) and the text does not start
    with a number either; a JSON object without any recognised field is
    not such a message, its level is 0. *)
Theorem C5_undecodable_message_is_dropped (topic message : string) (device : Device.t)
    (w : World) :
  ((structured message = None /\ JS.isNaN (JS.parseFloat message) = true)
   <-> handleMessage topic message device w = (Return tt, w))
  /\ (JS.JSON_parse message = None -> structured message = None)
  /\ (forall props,
        JS.JSON_parse message = Some (JS.JObject props) ->
        JS.lookupLast "alcohol_level" props = None -> JS.lookupLast "Index" props = None ->
        JS.lookupLast "level" props = None -> JS.lookupLast "value" props = None ->
        decode message = Some (JS.of_Z 0)).
Proof.
  split; [split|split].
  - intros [Hs Hn]. apply handleMessage_dropped. unfold decode. now rewrite Hs, Hn.
  - intros Heq. destruct (decode message) as [level|] eqn:Hd.
    + exfalso.
      destruct (handleMessage_shape topic message device level w Hd) as (rest & Ht & _).
      rewrite Heq in Ht. unfold added in Ht. cbn [snd] in Ht.
      apply (f_equal (@length Event)) in Ht. rewrite !length_app in Ht.
      unfold ingestTrace in Ht. cbn [length] in Ht. lia.
    + unfold decode in Hd. destruct (structured message); [discriminate|].
      split; [reflexivity|]. destruct (JS.isNaN _); [reflexivity|discriminate].
  - intros Hp. unfold structured. now rewrite Hp.
  - intros props Hp H1 H2 H3 H4. unfold decode, structured, extractAlcoholLevel.
    rewrite Hp. cbn [JS.isObject JS.getProp]. now rewrite H1, H2, H3, H4.
Qed.

Lemma C5_witness :
  handleMessage "sensors" "no number here" Sample.D1 Sample.world = (Return tt, Sample.world)
  /\ decode (Sample.json "{'foo':1}") = Some (JS.of_Z 0).
Proof.
  split.
  - apply (proj1 (C5_undecodable_message_is_dropped "sensors" "no number here"
                    Sample.D1 Sample.world)).
    split; vm_compute; reflexivity.
  - destruct (C5_undecodable_message_is_dropped "sensors" (Sample.json "{'foo':1}")
                Sample.D1 Sample.world) as (_ & _ & Hzero).
    apply (Hzero [("foo", JS.JNumber (JS.Fin (inject_Z 1)))]);
      vm_compute; reflexivity.
Defined.

(** C7. When the reading that a message enqueues brings the buffer to 100
    readings or more, the handler calls [flushBatch] right after the
    enqueue, in the same run: every buffered reading gets its call on the
    repository and the buffer is left empty.  When the buffer stays below
    100, the handler makes no flush and no call to persist a reading, and
    the buffer is the old one with the new reading at its end. *)
Theorem C7_full_buffer_is_flushed_at_once (topic message : string) (device : Device.t)
    (level : JS.number) (w : World) :
  decode message = Some level ->
  let w' := (handleMessage topic message device w).2 in
  let buffer := batchBuffer (service w) ++ [dataOf device level (clock (env w))] in
  let enqueue := ingestTrace (sensorDataBroadcaster (service w)) device level (clock (env w)) in
  BATCH_SIZE = 100
  /\ (BATCH_SIZE <= Z.of_nat (length buffer) ->
      exists rest,
        added w w' (enqueue
                      ++ flushTrace false (attempts (faults (env w)) (calls (env w)) buffer)
                      ++ rest)
        /\ Forall (fun e => isPersistence e = false) rest
        /\ batchBuffer (service w') = [])
  /\ (Z.of_nat (length buffer) < BATCH_SIZE ->
      exists rest,
        added w w' (enqueue ++ rest)
        /\ Forall (fun e => isPersistence e = false) (enqueue ++ rest)
        /\ batchBuffer (service w') = buffer).
Proof.
  intros Hd w' buffer enqueue.
  destruct (handleMessage_shape topic message device level w Hd)
    as (rest & Ht & Hp & _ & Hb & _).
  fold w' buffer enqueue in Ht, Hb.
  split; [reflexivity|]. split.
  - intros Hge.
    destruct (Z.geb_spec (Z.of_nat (length buffer)) BATCH_SIZE); [|lia].
    exists rest. repeat split; assumption.
  - intros Hlt.
    destruct (Z.geb_spec (Z.of_nat (length buffer)) BATCH_SIZE); [lia|].
    exists rest. split; [exact Ht|]. split; [|exact Hb].
    apply Forall_app. split; [apply ingestTrace_clean | exact Hp].
Qed.

Lemma C7_witness :
  let message := Sample.json "{'alcohol_level': 1800}" in
  let almostFull := Sample.make Sample.never Sample.silent
                      (repeat (Sample.reading "D1" 300 1) 99) in
  batchBuffer (service (handleMessage "sensors" message Sample.D1 almostFull).2) = []
  /\ batchBuffer (service (handleMessage "sensors" message Sample.D1 Sample.world).2)
       = [dataOf Sample.D1 (JS.of_Z 1800) 100000].
Proof.
  intros message almostFull. split.
  - destruct (C7_full_buffer_is_flushed_at_once "sensors" message Sample.D1 (JS.of_Z 1800)
                almostFull payload_with_level) as (_ & Hfull & _).
    destruct Hfull as (rest & _ & _ & Hb); [vm_compute; discriminate | exact Hb].
  - destruct (C7_full_buffer_is_flushed_at_once "sensors" message Sample.D1 (JS.of_Z 1800)
                Sample.world payload_with_level) as (_ & _ & Hbelow).
    destruct Hbelow as (rest & _ & _ & Hb); [vm_compute; reflexivity | exact Hb].
Defined.



(** ** Properties of the connections *)

Section Connections.

(** The device that the connection is for. *)
Variable device : Device.t.

Lemma alter_last {A} (f : A -> A) (l : list A) (x : A) :
  alter f (length l) (l ++ [x]) = l ++ [f x].
Proof. induction l as [|a l IH]; cbn; [reflexivity | now rewrite IH]. Qed.

(** The three statements that mark a device offline, on a storage that
    answers. *)
Lemma markOffline_reliable w :
  reliable w ->
  markOffline device w = (Return tt, markedOffline device w).
Proof.
  intros Hr. unfold markOffline, bind, Date_now, gets, storage.updateDevice,
    storage.logDeviceOfflineEvent, query, broadcastDevice, log, modify, ret.
  cbn. rewrite (Hr _ _). cbn. rewrite (Hr _ _). cbn.
  unfold markedOffline, offlineAt. cbn.
  destruct (webSocketBroadcaster (service w));
    [destruct (find _ _)|]; cbn;
    destruct w as [[] ? [] ?];
    unfold emit, with_storage, with_env, set_offlineEvents, set_devices, set_calls; cbn;
    rewrite <- ?app_assoc; cbn; rewrite ?app_nil_r; reflexivity.
Qed.

Lemma retry_exhausted v w :
  5 < v ->
  retryWithDifferentProtocol device v w = markOffline device w.
Proof.
  intros Hv. simp retryWithDifferentProtocol.
  destruct (Z_gt_dec v 5); [reflexivity | lia].
Qed.

(** One rung of the ladder: the connection is opened, the broker rejects
    it, the client is ended and the next version is tried 2 seconds
    later. *)
Lemma retry_rejected v w message :
  v <= 5 ->
  broker (env w) (length (connections (env w))) = ReplyError message ->
  isProtocolError message = true ->
  retryWithDifferentProtocol device v w =
    detached (retryWithDifferentProtocol device (v + 1))
      (later 2000 (rejected device (Retry v) v 0 w)).
Proof.
  intros Hv Hb Hp.
  remember (retryWithDifferentProtocol device (v + 1)) as next eqn:Hnext.
  simp retryWithDifferentProtocol.
  destruct (Z_gt_dec v 5); [lia|]. cbn. rewrite <- Hnext.
  rewrite Hb, Hp. unfold bind, client_end, setTimeout, bind, log, modify. cbn.
  change (fun H : World => next H) with next. f_equal.
  unfold later, rejected, with_env, with_service, emit, opened, closed. cbn.
  rewrite alter_last, <- !app_assoc. reflexivity.
Qed.

(** The first attempt, made by [connectToDevice], rejected in the same
    way: the ladder starts at version 4. *)
Lemma connect_rejected fuel w message :
  broker (env w) (length (connections (env w))) = ReplyError message ->
  isTimeoutError message = false ->
  isProtocolError message = true ->
  connectToDevice (S fuel) device w =
    detached (retryWithDifferentProtocol device 4)
      (rejected device Primary (firstVersion device) 5000 w).
Proof.
  intros Hb Ht Hp. cbn [connectToDevice].
  unfold bind at 1. unfold try_catch at 1. unfold bind at 1, mqtt_connect.
  unfold bind at 1, modify, ret. unfold bind at 1, gets.
  cbn [env with_service with_env emit set_connections broker].
  rewrite Hb, Ht, Hp. unfold bind, client_end, log, modify. f_equal.
  unfold rejected, with_env, with_service, emit, opened, closed, firstVersion. cbn.
  rewrite alter_last, <- !app_assoc. reflexivity.
Qed.

Lemma detached_return (m : M unit) w w' :
  m w = (Return tt, w') -> detached m w = (Return tt, w').
Proof. intros H. unfold detached, try_catch. now rewrite H. Qed.

(** The whole ladder against a broker that rejects every version. *)
Lemma ladder_exhausted fuel w :
  alwaysRejectsProtocol w ->
  reliable w ->
  connectToDevice (S fuel) device w = (Return tt, exhausted device w).
Proof.
  intros Hb Hr.
  destruct (Hb (length (connections (env w)))) as (m1 & B1 & T1 & P1).
  rewrite (connect_rejected fuel w m1 B1 T1 P1).
  set (w1 := rejected device Primary (firstVersion device) 5000 w).
  destruct (Hb (length (connections (env w1)))) as (m2 & B2 & _ & P2).
  apply detached_return.
  rewrite (retry_rejected 4 w1 m2) by (assumption || lia).
  set (w2 := later 2000 (rejected device (Retry 4) 4 0 w1)).
  destruct (Hb (length (connections (env w2)))) as (m3 & B3 & _ & P3).
  apply detached_return.
  rewrite (retry_rejected (4 + 1) w2 m3) by (assumption || lia).
  apply detached_return.
  rewrite retry_exhausted by lia.
  apply markOffline_reliable.
  intros n c. apply Hr.
Qed.

End Connections.

(** C4. Against a broker that answers every connection with a
    protocol-incompatibility error, a connection to a device opens exactly
    three connections in all (the first one, then protocol versions 4 and
    5), ends each of them, and then returns after it has set the device
    offline, logged one offline event and broadcast the updated device; no
    connection is left open and no timer is left pending. *)
Theorem C4_protocol_ladder_stops_after_three_attempts (fuel : nat) (device row : Device.t)
    (w : World) :
  alwaysRejectsProtocol w ->
  reliable w ->
  webSocketBroadcaster (service w) = true ->
  find (fun d => Device.id d =? Device.id device) (devices (storage w)) = Some row ->
  let w' := (connectToDevice (S fuel) device w).2 in
  let h := length (connections (env w)) in
  let t := clock (env w) + 2000 + 2000 in
  let updated := Device.merge row (offlineAt t) in
  (connectToDevice (S fuel) device w).1 = Return tt
  /\ added w w'
       [ EMqttConnect (Device.deviceId device) h
           (opened device Primary (firstVersion device) 5000);
         EClientEnd h;
         EMqttConnect (Device.deviceId device) (S h) (opened device (Retry 4) 4 0);
         EClientEnd (S h);
         ETimeout 2000;
         EMqttConnect (Device.deviceId device) (S (S h)) (opened device (Retry 5) 5 0);
         EClientEnd (S (S h));
         ETimeout 2000;
         EStorage (UpdateDevice (Device.id device) (offlineAt t)) true;
         EStorage (LogDeviceOfflineEvent (Device.deviceId device) t) true;
         EDeviceBroadcast updated ]
  /\ connections (env w') =
       connections (env w)
         ++ [ closed device Primary (firstVersion device) 5000;
              closed device (Retry 4) 4 0;
              closed device (Retry 5) 5 0 ]
  /\ find (fun d => Device.id d =? Device.id device) (devices (storage w')) = Some updated
  /\ Device.status updated = "offline"
  /\ offlineEvents (storage w') =
       offlineEvents (storage w)
         ++ [ {| DeviceOfflineEvent.id := currentOfflineEventId (storage w);
                 DeviceOfflineEvent.deviceId := Device.deviceId device;
                 DeviceOfflineEvent.offlineAt := t |} ].
Proof.
  intros Hb Hr Hsink Hrow w' h t updated. subst w'.
  rewrite (ladder_exhausted device fuel w Hb Hr). cbn [fst snd].
  assert (Hfind : find (fun d => Device.id d =? Device.id device)
                    (map (fun d => if Device.id d =? Device.id device
                                   then Device.merge d (offlineAt t) else d)
                         (devices (storage w))) = Some updated).
  { subst updated. revert Hrow. generalize (devices (storage w)).
    induction l as [|a l IH]; cbn; [discriminate|].
    destruct (Device.id a =? Device.id device) eqn:Ha; cbn.
    - rewrite Ha. now intros [= ->].
    - rewrite Ha. exact IH. }
  unfold exhausted.
  set (w1 := rejected device Primary (firstVersion device) 5000 w).
  set (w2 := rejected device (Retry 4) 4 0 w1).
  set (w3 := rejected device (Retry 5) 5 0 (later 2000 w2)).
  set (w4 := later 2000 w3).
  assert (Hc1 : connections (env w1)
                = connections (env w) ++ [closed device Primary (firstVersion device) 5000])
    by reflexivity.
  assert (Hc2 : connections (env w2) = connections (env w1) ++ [closed device (Retry 4) 4 0])
    by reflexivity.
  assert (Hc4 : connections (env w4) = connections (env w2) ++ [closed device (Retry 5) 5 0])
    by reflexivity.
  assert (Ht1 : trace w1 = trace w ++ [ EMqttConnect (Device.deviceId device) h
                                          (opened device Primary (firstVersion device) 5000);
                                        EClientEnd h ])
    by reflexivity.
  assert (Ht2 : trace w2 = trace w1 ++ [ EMqttConnect (Device.deviceId device)
                                           (length (connections (env w1)))
                                           (opened device (Retry 4) 4 0);
                                         EClientEnd (length (connections (env w1))) ])
    by reflexivity.
  assert (Ht4 : trace w4 = trace w2 ++ [ ETimeout 2000;
                                         EMqttConnect (Device.deviceId device)
                                           (length (connections (env w2)))
                                           (opened device (Retry 5) 5 0);
                                         EClientEnd (length (connections (env w2)));
                                         ETimeout 2000 ]).
  { subst w4 w3. unfold later at 1, emit, with_env. cbn [trace].
    unfold rejected at 1. cbn [trace]. unfold later at 1, emit, with_env. cbn [trace env].
    unfold set_clock. cbn [connections]. rewrite <- !app_assoc. reflexivity. }
  assert (Hst : storage w4 = storage w) by reflexivity.
  assert (Hsv : webSocketBroadcaster (service w4) = webSocketBroadcaster (service w))
    by reflexivity.
  assert (Hck : clock (env w4) = t) by reflexivity.
  assert (Hl1 : length (connections (env w1)) = S h)
    by (rewrite Hc1, length_app; cbn [length]; subst h; lia).
  assert (Hl2 : length (connections (env w2)) = S (S h))
    by (rewrite Hc2, length_app, Hl1; cbn [length]; lia).
  clearbody w1 w2 w3 w4.
  unfold markedOffline. cbn [storage service env trace fst snd].
  rewrite Hst, Hsv, Hck, Hsink, Hfind.
  split; [reflexivity|]. split; [|split; [|split; [|split]]].
  - unfold added. rewrite Ht4, Ht2, Ht1, Hl1, Hl2. rewrite <- !app_assoc. reflexivity.
  - cbn [env set_calls connections]. rewrite Hc4, Hc2, Hc1, <- !app_assoc. reflexivity.
  - cbn [devices set_offlineEvents set_devices]. exact Hfind.
  - reflexivity.
  - reflexivity.
Qed.

Lemma C4_witness :
  let w := Sample.make Sample.never Sample.rejecting [] in
  let w' := (connectToDevice 1 Sample.D1 w).2 in
  length (connections (env w')) = 3%nat
  /\ (exists d, find (fun d => Device.id d =? 1) (devices (storage w')) = Some d
               /\ Device.status d = "offline")
  /\ length (offlineEvents (storage w')) = 1%nat.
Proof.
  intros w w'.
  assert (Hb : alwaysRejectsProtocol w).
  { intros h. exists "Invalid header flag bits". repeat split; reflexivity. }
  assert (Hr : reliable w) by (intros n c; reflexivity).
  destruct (C4_protocol_ladder_stops_after_three_attempts 0 Sample.D1 Sample.D1 w
              Hb Hr eq_refl eq_refl) as (_ & _ & Hc & Hf & Hs & He).
  subst w'.
  split; [rewrite Hc; reflexivity|].
  split; [eexists; split; [exact Hf | exact Hs]|].
  rewrite He. reflexivity.
Defined.

(** ** Properties of the liveness sweep *)

Section Liveness.

(** The instant that the sweep read at its start. *)
Variable now : Z.

Lemma demoted_idempotent d : demoted (demoted d) = demoted d.
Proof. reflexivity. Qed.

(** The check of one device. *)
Lemma checkDeviceTimeout_reliable d w :
  reliable w ->
  exists w',
    checkDeviceTimeout now d w = (Return tt, w')
    /\ devices (storage w') =
         map (fun r => if timedOut now d && (Device.id r =? Device.id d)
                       then demoted r else r)
             (devices (storage w))
    /\ offlineEvents (storage w') =
         offlineEvents (storage w)
           ++ eventsFor (clock (env w)) (currentOfflineEventId (storage w))
                (filter (fun x => timedOut now x = true) [d])
    /\ currentOfflineEventId (storage w') =
         currentOfflineEventId (storage w)
           + Z.of_nat (length (filter (fun x => timedOut now x = true) [d]))
    /\ faults (env w') = faults (env w)
    /\ clock (env w') = clock (env w).
Proof.
  intros Hr.
  assert (Hone : filter (fun x => timedOut now x = true) [d]
                 = if timedOut now d then [d] else []).
  { destruct (timedOut now d) eqn:Hq.
    - now rewrite filter_cons_True by assumption.
    - now rewrite filter_cons_False by (rewrite Hq; discriminate). }
  rewrite Hone. clear Hone.
  unfold checkDeviceTimeout, timedOut.
  change (match Device.lastSeen d with Some t => t | None => 0 end)
    with (default 0 (Device.lastSeen d)).
  destruct (Device.isActive d); cbn [negb andb];
    [destruct (String.eqb (Device.status d) "online"); cbn [andb];
     [destruct (now - default 0 (Device.lastSeen d) >? DEVICE_OFFLINE_THRESHOLD_MS)|]|].
  2,3,4: eexists; (split; [reflexivity|]); cbn; rewrite map_id, app_nil_r, Z.add_0_r;
         repeat split; reflexivity.
  unfold bind, Date_now, gets, storage.updateDevice, storage.logDeviceOfflineEvent,
    query, broadcastDevice, log, modify, ret. cbn.
  rewrite (Hr _ _). cbn. rewrite (Hr _ _). cbn.
  destruct (webSocketBroadcaster (service w)); [destruct (find _ _)|];
    eexists; (split; [reflexivity|]); cbn; repeat split; reflexivity.
Qed.

Lemma eventsFor_app t a b : forall next,
  eventsFor t next (a ++ b)
  = eventsFor t next a ++ eventsFor t (next + Z.of_nat (length a)) b.
Proof.
  induction a as [|x a IH]; intros next; cbn [app eventsFor length].
  - now rewrite Z.add_0_r.
  - rewrite IH. do 3 f_equal. lia.
Qed.

(** The loop of the sweep over any list of devices. *)
Lemma sweep_loop l : forall w,
  reliable w ->
  exists w',
    for_of l (checkDeviceTimeout now) w = (Return tt, w')
    /\ devices (storage w') =
         map (fun r => if hit now l r then demoted r else r) (devices (storage w))
    /\ offlineEvents (storage w') =
         offlineEvents (storage w)
           ++ eventsFor (clock (env w)) (currentOfflineEventId (storage w))
                (filter (fun x => timedOut now x = true) l).
Proof.
  induction l as [|d l IH]; intros w Hr.
  - exists w. split; [reflexivity|]. cbn. rewrite app_nil_r.
    split; [|reflexivity]. symmetry. apply map_id.
  - destruct (checkDeviceTimeout_reliable d w Hr)
      as (w1 & Hrun & Hd & He & Hn & Hf & Hc).
    destruct (IH w1) as (w2 & Hrun2 & Hd2 & He2).
    { intros n c. rewrite Hf. apply Hr. }
    exists w2. split; [|split].
    + cbn [for_of]. unfold bind. rewrite Hrun. exact Hrun2.
    + rewrite Hd2, Hd, map_map. apply map_ext. intros r.
      unfold hit. cbn [existsb].
      destruct (timedOut now d && (Device.id r =? Device.id d)); cbn [orb].
      * rewrite demoted_idempotent. now destruct (existsb _ l).
      * reflexivity.
    + rewrite He2, He, Hn, Hc, <- app_assoc. f_equal.
      change (d :: l) with ([d] ++ l). rewrite filter_app. symmetry.
      apply eventsFor_app.
Qed.

(** With distinct ids, the rows hit by a sweep over the table itself are
    the timed-out ones. *)
Lemma hit_self l r :
  NoDup (map Device.id l) -> In r l -> hit now l r = timedOut now r.
Proof.
  unfold hit. induction l as [|a l IH]; intros Hnd Hin; [destruct Hin|].
  cbn [map] in Hnd. apply NoDup_cons in Hnd as [Hna Hnd].
  cbn [existsb]. destruct Hin as [->|Hin].
  - rewrite Z.eqb_refl, andb_true_r.
    destruct (timedOut now r); [reflexivity|]. cbn [orb].
    apply not_true_is_false. intros He. apply existsb_exists in He as (d & Hd & Hc).
    apply andb_true_iff in Hc as [_ Hc]. apply Z.eqb_eq in Hc.
    apply Hna. rewrite Hc. apply list_elem_of_In, in_map, Hd.
  - rewrite (IH Hnd Hin).
    destruct (Z.eqb_spec (Device.id r) (Device.id a)) as [He|_].
    + exfalso. apply Hna. rewrite <- He. apply list_elem_of_In, in_map, Hin.
    + now rewrite andb_false_r.
Qed.

Lemma eventsOf_eventsFor x t ds : forall next,
  length (eventsOf x (eventsFor t next ds))
  = length (filter (fun d => Device.deviceId d = x) ds).
Proof.
  unfold eventsOf. induction ds as [|d ds IH]; intros next; [reflexivity|].
  cbn [eventsFor]. destruct (decide (Device.deviceId d = x)) as [He|Hne].
  - rewrite !filter_cons_True by assumption. cbn [length]. now rewrite IH.
  - rewrite !filter_cons_False by assumption. apply IH.
Qed.

(** With distinct device identifiers, a device of the table occurs once
    among the timed-out devices if it is timed out, and not at all if it
    is not. *)
Lemma count_timedOut l d :
  NoDup (map Device.deviceId l) -> In d l ->
  length (filter (fun x => Device.deviceId x = Device.deviceId d)
            (filter (fun x => timedOut now x = true) l))
  = if timedOut now d then 1%nat else 0%nat.
Proof.
  induction l as [|a l IH]; intros Hnd Hin; [destruct Hin|].
  cbn [map] in Hnd. apply NoDup_cons in Hnd as [Hna Hnd].
  assert (Hnone : forall l', (forall x, In x l' -> In x l) ->
            a = d -> filter (fun x => Device.deviceId x = Device.deviceId d) l' = []).
  { intros l' Hsub ->. induction l' as [|b l' IHl']; [reflexivity|].
    rewrite filter_cons_False.
    - apply IHl'. intros x Hx. apply Hsub. now right.
    - intros He. apply Hna. rewrite <- He.
      apply list_elem_of_In, in_map, Hsub. now left. }
  assert (Hsub : forall x, In x (filter (fun x => timedOut now x = true) l) -> In x l).
  { intros x Hx. apply list_elem_of_In in Hx. apply list_elem_of_filter in Hx as [_ Hx].
    now apply list_elem_of_In. }
  destruct Hin as [->|Hin].
  - destruct (timedOut now d) eqn:Hq.
    + rewrite filter_cons_True by exact Hq. rewrite filter_cons_True by reflexivity.
      cbn [length]. now rewrite (Hnone _ Hsub eq_refl).
    + rewrite filter_cons_False by (rewrite Hq; discriminate).
      now rewrite (Hnone _ Hsub eq_refl).
  - assert (Hne : Device.deviceId a <> Device.deviceId d).
    { intros He. apply Hna. rewrite He. apply list_elem_of_In, in_map, Hin. }
    destruct (timedOut now a) eqn:Hq.
    + rewrite filter_cons_True by exact Hq. rewrite filter_cons_False by assumption.
      now apply IH.
    + rewrite filter_cons_False by (rewrite Hq; discriminate). now apply IH.
Qed.

End Liveness.

Example sweep_of_the_sample :
  let w' := (checkDeviceTimeouts Sample.world).2 in
  map Device.status (devices (storage w'))
    = ["offline"; "waiting"; "online"; "online"; "offline"; "offline"]
  /\ map DeviceOfflineEvent.deviceId (offlineEvents (storage w')) = ["D1"; "D5"].
Proof. vm_compute. split; reflexivity. Qed.

(** C2. In one sweep on a storage that answers, every active device that
    is online and was last seen more than 10 seconds before the instant of
    the sweep has its status set to offline, nothing else of its row
    changing, and gets exactly one new offline event; a device that is
    offline or waiting, or that is not active, keeps its row unchanged and
    gets no event. *)
Theorem C2_liveness_sweep (w : World) :
  reliable w ->
  NoDup (map Device.id (devices (storage w))) ->
  NoDup (map Device.deviceId (devices (storage w))) ->
  let w' := (checkDeviceTimeouts w).2 in
  let now := clock (env w) in
  DEVICE_OFFLINE_THRESHOLD_MS = 10000
  /\ exists new,
      devices (storage w') = map (swept now) (devices (storage w))
      /\ offlineEvents (storage w') = offlineEvents (storage w) ++ new
      /\ forall d, In d (devices (storage w)) ->
           (forall t,
               Device.isActive d = true -> Device.status d = "online" ->
               Device.lastSeen d = Some t -> now - t > 10000 ->
               swept now d = demoted d
               /\ Device.status (swept now d) = "offline"
               /\ length (eventsOf (Device.deviceId d) new) = 1%nat)
           /\ (Device.status d = "offline" \/ Device.status d = "waiting"
                 \/ Device.isActive d = false ->
               swept now d = d
               /\ eventsOf (Device.deviceId d) new = []).
Proof.
  intros Hr Hid Hdev w' now. split; [reflexivity|].
  set (w0 := emit (EStorage GetDevices true)
               (with_env (fun e => set_calls (S (calls e)) e) w)).
  assert (Hr0 : reliable w0) by (intros n c; apply Hr).
  destruct (sweep_loop now (devices (storage w)) w0 Hr0) as (w1 & Hrun & Hd & He).
  assert (Hw' : w' = w1).
  { subst w'. unfold checkDeviceTimeouts, try_catch, bind at 1, storage.getDevices, query.
    rewrite (Hr _ _). cbn [negb]. fold w0. cbn [with_storage].
    unfold bind at 1, Date_now, gets.
    replace (with_storage (fun _ => storage w0) w0) with w0
      by (destruct w as [[] ? [] ?]; reflexivity).
    change (clock (env w0)) with now.
    change (devices (storage w0)) with (devices (storage w)). now rewrite Hrun. }
  rewrite Hw'. clear Hw'.
  exists (eventsFor now (currentOfflineEventId (storage w))
            (filter (fun x => timedOut now x = true) (devices (storage w)))).
  split; [|split].
  - rewrite Hd. apply map_ext_in. intros r Hin. unfold swept.
    now rewrite (hit_self now _ r Hid Hin).
  - exact He.
  - intros d Hin. split.
    + intros t Ha Hs Hl Hgt.
      assert (Hq : timedOut now d = true).
      { unfold timedOut. rewrite Ha, Hs, Hl. cbn.
        apply Z.gtb_lt. unfold DEVICE_OFFLINE_THRESHOLD_MS. lia. }
      unfold swept. rewrite Hq. split; [reflexivity|]. split; [reflexivity|].
      rewrite eventsOf_eventsFor, (count_timedOut now _ d Hdev Hin), Hq. reflexivity.
    + intros Hcase.
      assert (Hq : timedOut now d = false).
      { unfold timedOut. destruct Hcase as [Hs|[Hs|Ha]].
        - rewrite Hs. cbn. now rewrite andb_false_r.
        - rewrite Hs. cbn. now rewrite andb_false_r.
        - now rewrite Ha. }
      unfold swept. rewrite Hq. split; [reflexivity|].
      apply length_zero_iff_nil.
      rewrite eventsOf_eventsFor, (count_timedOut now _ d Hdev Hin), Hq. reflexivity.
Qed.

Lemma C2_witness :
  let w' := (checkDeviceTimeouts Sample.world).2 in
  exists new,
    devices (storage w') = map (swept 100000) (devices (storage Sample.world))
    /\ offlineEvents (storage w') = offlineEvents (storage Sample.world) ++ new
    /\ swept 100000 Sample.D1 = demoted Sample.D1
    /\ length (eventsOf "D1" new) = 1%nat
    /\ swept 100000 Sample.D2 = Sample.D2
    /\ eventsOf "D2" new = []
    /\ swept 100000 Sample.D3 = Sample.D3
    /\ eventsOf "D3" new = [].
Proof.
  intros w'.
  assert (Hr : reliable Sample.world) by (intros n c; reflexivity).
  assert (Hid : NoDup (map Device.id (devices (storage Sample.world)))).
  { apply (bool_decide_unpack _). vm_compute. exact I. }
  assert (Hdev : NoDup (map Device.deviceId (devices (storage Sample.world)))).
  { apply (bool_decide_unpack _). vm_compute. exact I. }
  destruct (C2_liveness_sweep Sample.world Hr Hid Hdev) as (_ & new & Hd & He & Hall).
  exists new. split; [exact Hd|]. split; [exact He|].
  destruct (Hall Sample.D1) as [H1 _]; [cbn; tauto|].
  destruct (H1 1000) as (H1a & _ & H1c); try reflexivity.
  destruct (Hall Sample.D2) as [_ H2]; [cbn; tauto|].
  destruct H2 as [H2a H2b]; [right; left; reflexivity|].
  destruct (Hall Sample.D3) as [_ H3]; [cbn; tauto|].
  destruct H3 as [H3a H3b]; [right; right; reflexivity|].
  repeat split; assumption.
Defined.

(** ** What the handlers keep, whatever storage and the brokers do *)

Lemma retry_unfold device v :
  retryWithDifferentProtocol device v =
    if Z_gt_dec v 5 then markOffline device
    else
      client <- try_catch
        (client <- mqtt_connect (Device.deviceId device) (Retry v) v 0 ;;
         modify (with_service (fun s =>
           set_clients (<[Device.deviceId device := client]> (clients s)) s)) ;;
         ret (Some client))
        (fun _ => ret None) ;;
      match client with
      | None => ret tt
      | Some client =>
          reply <- gets (fun w => broker (env w) client) ;;
          match reply with
          | ReplyConnect subscribeError => onConnect device subscribeError
          | ReplyError message =>
              client_end client ;;
              if isProtocolError message then
                setTimeout (detached (retryWithDifferentProtocol device (v + 1))) 2000
              else
                try_catch (markOffline device)
                  (fun _ => log (ELog "Failed to update device status during retry"))
          | ReplyNothing => ret tt
          end
      end.
Proof.
  remember (retryWithDifferentProtocol device (v + 1)) as next eqn:Hnext.
  simp retryWithDifferentProtocol.
  destruct (Z_gt_dec v 5); [reflexivity|]. cbn. rewrite <- Hnext. reflexivity.
Qed.

Lemma world_eta w :
  {| storage := storage w; service := service w; env := env w; trace := trace w |} = w.
Proof. now destruct w. Qed.

Section Keeping.

(** A relation between the state before and the state after, closed under
    sequencing. *)
Variable R : World -> World -> Prop.
Hypothesis R_refl : forall w, R w w.
Hypothesis R_trans : forall a b c, R a b -> R b c -> R a c.

Lemma keeps_ret {A} (a : A) : keeps R (ret a).
Proof. intros w. apply R_refl. Qed.

Lemma keeps_throw {A} e : keeps R (@throw A e).
Proof. intros w. apply R_refl. Qed.

Lemma keeps_gets {A} (f : World -> A) : keeps R (gets f).
Proof. intros w. apply R_refl. Qed.

Lemma keeps_modify f : (forall w, R w (f w)) -> keeps R (modify f).
Proof. intros H w. apply H. Qed.

Lemma keeps_bind {A B} (m : M A) (k : A -> M B) :
  keeps R m -> (forall a, keeps R (k a)) -> keeps R (bind m k).
Proof.
  intros Hm Hk w. unfold bind. specialize (Hm w).
  destruct (m w) as [[a|e] w1]; cbn in *; [|exact Hm].
  eapply R_trans; [exact Hm | apply Hk].
Qed.

Lemma keeps_try_catch {A} (m : M A) (h : string -> M A) :
  keeps R m -> (forall e, keeps R (h e)) -> keeps R (try_catch m h).
Proof.
  intros Hm Hh w. unfold try_catch. specialize (Hm w).
  destruct (m w) as [[a|e] w1]; cbn in *; [exact Hm|].
  eapply R_trans; [exact Hm | apply Hh].
Qed.

Lemma keeps_when b m : keeps R m -> keeps R (when b m).
Proof. intros H. destruct b; [exact H | apply keeps_ret]. Qed.

Lemma keeps_for_of {A} (l : list A) body :
  (forall x, In x l -> keeps R (body x)) -> keeps R (for_of l body).
Proof.
  induction l as [|x l IH]; intros H; cbn [for_of]; [apply keeps_ret|].
  apply keeps_bind; [apply H; now left|].
  intros _. apply IH. intros y Hy. apply H. now right.
Qed.

(** The relation does not look at the trace, at the clock or at the count
    of the calls. *)
Hypothesis R_emit : forall e w, R w (emit e w).
Hypothesis R_env : forall f w,
  (forall e, connections (f e) = connections e) -> R w (with_env f w).

Lemma keeps_log e : keeps R (log e).
Proof. apply keeps_modify. intros w. apply R_emit. Qed.

Lemma keeps_detached m : keeps R m -> keeps R (detached m).
Proof. intros H. apply keeps_try_catch; [exact H|]. intros e. apply keeps_log. Qed.

Lemma keeps_Date_now : keeps R Date_now.
Proof. apply keeps_gets. Qed.

Lemma keeps_setTimeout m ms : keeps R m -> keeps R (setTimeout m ms).
Proof.
  intros H. unfold setTimeout. apply keeps_bind; [apply keeps_log|]. intros _.
  apply keeps_bind; [|intros _; exact H].
  apply keeps_modify. intros w. now apply R_env.
Qed.

Lemma keeps_query {A} c (run : Z -> Storage -> A * Storage) :
  (forall t w, R w (with_storage (fun _ => (run t (storage w)).2) w)) ->
  keeps R (query c run).
Proof.
  intros H w. unfold query.
  set (w1 := emit _ (with_env _ w)).
  assert (H1 : R w w1).
  { eapply R_trans; [|apply R_emit]. now apply R_env. }
  specialize (H (clock (env w1)) w1).
  destruct (faults _ _ _); cbn.
  - destruct (_ && _); [|exact H1].
    eapply R_trans; [exact H1 | exact H].
  - destruct (run _ _) as [a s]. cbn in *.
    eapply R_trans; [exact H1 | exact H].
Qed.

Lemma keeps_getDevices : keeps R storage.getDevices.
Proof.
  apply keeps_query. intros t w. cbn. unfold with_storage.
  rewrite world_eta. apply R_refl.
Qed.

Lemma keeps_getCleanupSchedule taskName : keeps R (storage.getCleanupSchedule taskName).
Proof.
  apply keeps_try_catch; [|intros e; apply keeps_ret].
  apply keeps_query. intros t w. cbn. unfold with_storage.
  rewrite world_eta. apply R_refl.
Qed.

Lemma keeps_broadcastDevice d : keeps R (broadcastDevice d).
Proof.
  unfold broadcastDevice. apply keeps_bind; [apply keeps_gets|].
  intros [|]; [destruct d|]; first [apply keeps_log | apply keeps_ret].
Qed.

(** *** The handlers that write device rows and offline events *)

Hypothesis K_updateDevice : forall id u, keeps R (storage.updateDevice id u).
Hypothesis K_logDeviceOfflineEvent : forall deviceId t,
  keeps R (storage.logDeviceOfflineEvent deviceId t).

Lemma keeps_markOffline device : keeps R (markOffline device).
Proof.
  unfold markOffline.
  apply keeps_bind; [apply keeps_Date_now|]. intros t.
  apply keeps_bind; [apply K_updateDevice|]. intros d.
  apply keeps_bind; [apply keeps_Date_now|]. intros t'.
  apply keeps_bind; [apply K_logDeviceOfflineEvent|]. intros _.
  apply keeps_broadcastDevice.
Qed.

Lemma keeps_checkDeviceTimeout now device : keeps R (checkDeviceTimeout now device).
Proof.
  unfold checkDeviceTimeout.
  destruct (negb _); [apply keeps_ret|].
  destruct (_ && _); [|apply keeps_ret].
  apply keeps_bind; [apply K_updateDevice|]. intros d.
  apply keeps_bind; [apply keeps_Date_now|]. intros t'.
  apply keeps_bind; [apply K_logDeviceOfflineEvent|]. intros _.
  apply keeps_broadcastDevice.
Qed.

Lemma keeps_checkDeviceTimeouts : keeps R checkDeviceTimeouts.
Proof.
  unfold checkDeviceTimeouts.
  apply keeps_try_catch; [|intros e; apply keeps_log].
  apply keeps_bind; [apply keeps_getDevices|]. intros l.
  apply keeps_bind; [apply keeps_Date_now|]. intros t.
  apply keeps_for_of. intros d _. apply keeps_checkDeviceTimeout.
Qed.

Lemma keeps_deviceTimeoutMonitorTick : keeps R deviceTimeoutMonitorTick.
Proof.
  apply keeps_try_catch; [apply keeps_checkDeviceTimeouts|]. intros e. apply keeps_log.
Qed.

Lemma keeps_refreshStatus device : keeps R (refreshStatus device).
Proof.
  unfold refreshStatus. apply keeps_try_catch; [|intros e; apply keeps_ret].
  apply keeps_bind; [apply keeps_Date_now|]. intros t.
  apply keeps_bind; [apply K_updateDevice|]. intros d.
  apply keeps_broadcastDevice.
Qed.

Lemma keeps_onDisconnect device : keeps R (onDisconnect device).
Proof.
  unfold onDisconnect. apply keeps_detached.
  apply keeps_bind; [apply keeps_Date_now|]. intros t.
  apply keeps_bind; [apply K_updateDevice|]. intros d.
  apply keeps_broadcastDevice.
Qed.

(** *** The handlers of the connections *)

(** The devices for which a connection may be opened. *)
Variable allowed : string -> Prop.

Hypothesis K_connect : forall deviceId h version period,
  allowed deviceId -> keeps R (mqtt_connect deviceId h version period).
Hypothesis K_end : forall handle, keeps R (client_end handle).
Hypothesis K_clients : forall f w,
  R w (with_service (fun s => set_clients (f (clients s)) s) w).
Hypothesis K_subscribedTopics : forall f w,
  R w (with_service (fun s => set_subscribedTopics (f (subscribedTopics s)) s) w).

Lemma keeps_onConnect device subscribeError : keeps R (onConnect device subscribeError).
Proof.
  unfold onConnect. apply keeps_bind; [apply keeps_log|]. intros _.
  destruct subscribeError; [apply keeps_ret|].
  apply keeps_bind.
  { apply keeps_modify. intros w.
    apply (K_subscribedTopics (fun t => {[Device.mqttTopic device]} ∪ t)). }
  intros _. apply keeps_detached.
  apply keeps_bind; [apply keeps_Date_now|]. intros t.
  apply keeps_bind; [apply K_updateDevice|]. intros d.
  apply keeps_broadcastDevice.
Qed.

Lemma keeps_open device h version period :
  allowed (Device.deviceId device) ->
  keeps R
    (try_catch
       (client <- mqtt_connect (Device.deviceId device) h version period ;;
        modify (with_service (fun s =>
          set_clients (<[Device.deviceId device := client]> (clients s)) s)) ;;
        ret (Some client))
       (fun _ => ret None)).
Proof.
  intros Ha. apply keeps_try_catch; [|intros e; apply keeps_ret].
  apply keeps_bind; [now apply K_connect|]. intros client.
  apply keeps_bind; [|intros _; apply keeps_ret].
  apply keeps_modify. intros w.
  apply (K_clients (fun c => <[Device.deviceId device := client]> c)).
Qed.

Lemma keeps_retryWithDifferentProtocol device :
  allowed (Device.deviceId device) ->
  forall n v, Z.to_nat (6 - v) = n -> keeps R (retryWithDifferentProtocol device v).
Proof.
  intros Ha n. induction n as [n IH] using lt_wf_ind. intros v Hn.
  rewrite retry_unfold. destruct (Z_gt_dec v 5); [apply keeps_markOffline|].
  apply keeps_bind; [now apply keeps_open|].
  intros [client|]; [|apply keeps_ret].
  apply keeps_bind; [apply keeps_gets|].
  intros [subscribeError|message|]; [apply keeps_onConnect| |apply keeps_ret].
  apply keeps_bind; [apply K_end|]. intros _.
  destruct (isProtocolError message).
  - apply keeps_setTimeout, keeps_detached.
    apply (IH (Z.to_nat (6 - (v + 1)))); [lia | reflexivity].
  - apply keeps_try_catch; [apply keeps_markOffline|]. intros e. apply keeps_log.
Qed.

Lemma keeps_connectToDevice device :
  allowed (Device.deviceId device) ->
  forall fuel, keeps R (connectToDevice fuel device).
Proof.
  intros Ha fuel. induction fuel as [|fuel IH]; cbn [connectToDevice]; [apply keeps_ret|].
  apply keeps_bind; [now apply keeps_open|].
  intros [client|]; [|apply keeps_ret].
  apply keeps_bind; [apply keeps_gets|].
  intros [subscribeError|message|]; [apply keeps_onConnect| |apply keeps_ret].
  destruct (isTimeoutError message); [|destruct (isProtocolError message)].
  - apply keeps_bind; [apply K_end|]. intros _.
    apply keeps_bind; [|intros _; now apply keeps_setTimeout].
    apply keeps_modify. intros w.
    apply (K_clients (fun c => delete (Device.deviceId device) c)).
  - apply keeps_bind; [apply K_end|]. intros _.
    apply keeps_detached.
    now apply (keeps_retryWithDifferentProtocol device Ha (Z.to_nat (6 - 4)) 4).
  - apply keeps_try_catch; [apply keeps_markOffline|]. intros e. apply keeps_log.
Qed.

Lemma keeps_connectToDeviceBrokers fuel :
  (forall d, allowed (Device.deviceId d)) ->
  keeps R (connectToDeviceBrokers fuel).
Proof.
  intros Ha. unfold connectToDeviceBrokers.
  apply keeps_try_catch; [|intros e; apply keeps_log].
  apply keeps_bind; [apply keeps_getDevices|]. intros l.
  apply keeps_for_of. intros d _. now apply keeps_connectToDevice.
Qed.

Lemma keeps_initialize fuel h :
  (forall d, allowed (Device.deviceId d)) ->
  keeps R (initialize fuel h).
Proof.
  intros Ha. unfold initialize. apply keeps_try_catch.
  - apply keeps_bind; [now apply keeps_connectToDeviceBrokers|].
    intros _. apply keeps_ret.
  - intros e. apply keeps_bind; [apply keeps_log|]. intros _. apply keeps_ret.
Qed.

(** *** The handlers that write readings *)

Hypothesis K_createDeviceData : forall insertData,
  keeps R (storage.createDeviceData insertData).
Hypothesis K_batchBuffer : forall f w,
  R w (with_service (fun s => set_batchBuffer (f (batchBuffer s)) s) w).
Hypothesis K_latestReadingsCache : forall deviceId reading w,
  R w (with_service (fun s =>
         set_latestReadingsCache (<[deviceId := reading]> (latestReadingsCache s)) s) w).

Lemma keeps_persistEach batch : forall successCount failedItems,
  keeps R (persistEach batch successCount failedItems).
Proof.
  induction batch as [|data rest IH]; intros successCount failedItems;
    cbn [persistEach]; [apply keeps_ret|].
  apply keeps_bind.
  - apply keeps_try_catch.
    + apply keeps_bind; [apply K_createDeviceData|]. intros _. apply keeps_ret.
    + intros e. apply keeps_bind; [apply keeps_log|]. intros _. apply keeps_ret.
  - intros [|]; apply IH.
Qed.

Lemma keeps_flushBatch retryOnError : keeps R (flushBatch retryOnError).
Proof.
  unfold flushBatch. apply keeps_bind; [apply keeps_log|]. intros _.
  apply keeps_bind; [apply keeps_gets|]. intros buffer.
  destruct (_ =? 0); [apply keeps_ret|].
  apply keeps_bind.
  { apply keeps_modify. intros w. apply (K_batchBuffer (fun _ => [])). }
  intros _. apply keeps_bind; [apply keeps_persistEach|].
  intros [successCount failedItems].
  apply keeps_bind; [|intros _; apply keeps_ret].
  unfold requeue. apply keeps_when.
  apply keeps_bind; [apply keeps_log|]. intros _.
  apply keeps_modify. intros w. apply (K_batchBuffer (fun b => failedItems ++ b)).
Qed.

Lemma keeps_handleMessage topic message device :
  keeps R (handleMessage topic message device).
Proof.
  unfold handleMessage. apply keeps_try_catch; [|intros e; apply keeps_ret].
  destruct (decode message) as [level|]; [|apply keeps_ret].
  apply keeps_bind; [apply keeps_Date_now|]. intros timestamp.
  apply keeps_bind; [apply keeps_modify; intros w; apply K_latestReadingsCache|].
  intros _. apply keeps_bind; [apply keeps_log|]. intros _.
  apply keeps_bind; [apply keeps_gets|]. intros sink.
  apply keeps_bind; [apply keeps_when, keeps_log|]. intros _.
  apply keeps_bind; [apply keeps_Date_now|]. intros t.
  apply keeps_bind.
  { apply keeps_modify. intros w. apply (K_batchBuffer (fun b => b ++ [_])). }
  intros _. apply keeps_bind; [apply keeps_log|]. intros _.
  apply keeps_bind; [apply keeps_gets|]. intros buffer.
  apply keeps_bind.
  { apply keeps_when. apply keeps_try_catch; [|intros e; apply keeps_log].
    apply keeps_bind; [apply keeps_flushBatch|]. intros _. apply keeps_ret. }
  intros _. apply keeps_refreshStatus.
Qed.

(** *** The handlers that rest on a flush *)

Hypothesis K_flushBatch : forall retryOnError, keeps R (flushBatch retryOnError).

Lemma keeps_batchProcessorTick : keeps R batchProcessorTick.
Proof.
  apply keeps_try_catch; [|intros e; apply keeps_log].
  apply keeps_bind; [apply K_flushBatch|]. intros _. apply keeps_ret.
Qed.

Lemma keeps_disconnect h values : keeps R (disconnect h values).
Proof.
  unfold disconnect. apply keeps_bind; [apply keeps_log|]. intros _.
  apply keeps_bind; [apply keeps_log|]. intros _.
  apply keeps_bind.
  { destruct (Handles.client _); [|apply keeps_ret].
    apply keeps_bind; [apply K_end|]. intros _.
    apply keeps_bind; [|intros _; apply keeps_ret].
    apply keeps_modify. intros w. apply (K_subscribedTopics (fun _ => ∅)). }
  intros h3. apply keeps_bind; [apply keeps_for_of; intros; apply K_end|]. intros _.
  apply keeps_bind.
  { apply keeps_modify. intros w. apply (K_clients (fun _ => ∅)). }
  intros _. apply keeps_bind; [apply keeps_setTimeout, keeps_ret|]. intros _.
  apply keeps_bind; [apply keeps_log|]. intros _.
  apply keeps_bind; [apply K_flushBatch|]. intros _.
  apply keeps_bind; [apply keeps_log|]. intros _.
  apply keeps_bind; [apply keeps_gets|]. intros buffer.
  apply keeps_bind; [apply keeps_when, keeps_log|]. intros _. apply keeps_ret.
Qed.

(** *** The operations of the cleanup scheduler *)

Hypothesis K_clearAllDeviceData : keeps R storage.clearAllDeviceData.
Hypothesis K_updateCleanupSchedule : forall taskName updates,
  keeps R (storage.updateCleanupSchedule taskName updates).

Lemma keeps_checkAndRunCleanup : keeps R CleanupScheduler.checkAndRunCleanup.
Proof.
  unfold CleanupScheduler.checkAndRunCleanup.
  apply keeps_try_catch; [|intros e; apply keeps_log].
  apply keeps_bind; [apply keeps_getCleanupSchedule|].
  intros [schedule|]; [|apply keeps_ret].
  destruct (negb _); [apply keeps_ret|].
  destruct (CleanupSchedule.nextScheduledTime schedule) as [due|]; [|apply keeps_ret].
  apply keeps_bind; [apply keeps_Date_now|]. intros now.
  destruct (now >=? due); [|apply keeps_ret].
  apply keeps_bind; [apply keeps_log|]. intros _.
  apply keeps_bind; [apply K_clearAllDeviceData|]. intros deletedCount.
  apply keeps_bind; [apply K_updateCleanupSchedule|]. intros _. apply keeps_log.
Qed.

Lemma keeps_runCleanup : keeps R CleanupScheduler.runCleanup.
Proof.
  unfold CleanupScheduler.runCleanup. apply keeps_try_catch.
  - apply keeps_bind; [apply keeps_log|]. intros _.
    apply keeps_bind; [apply K_clearAllDeviceData|]. intros deletedCount.
    apply keeps_bind; [apply keeps_Date_now|]. intros now.
    apply keeps_bind; [apply K_updateCleanupSchedule|]. intros _.
    apply keeps_bind; [apply keeps_log|]. intros _. apply keeps_ret.
  - intros e. apply keeps_bind; [apply keeps_log|]. intros _. apply keeps_ret.
Qed.

Lemma keeps_setEnabled enabled : keeps R (CleanupScheduler.setEnabled enabled).
Proof.
  unfold CleanupScheduler.setEnabled.
  apply keeps_try_catch; [apply K_updateCleanupSchedule|].
  intros e. apply keeps_bind; [apply keeps_log|]. intros _. apply keeps_throw.
Qed.

Lemma keeps_resetSchedule zone : keeps R (resetSchedule zone).
Proof.
  unfold resetSchedule. apply keeps_try_catch.
  - apply keeps_bind; [apply keeps_getCleanupSchedule|]. intros currentSchedule.
    apply keeps_bind.
    { destruct (currentSchedule ≫= _).
      - apply keeps_bind; [apply keeps_log|]. intros _. apply keeps_ret.
      - apply keeps_bind; [apply keeps_Date_now|]. intros now.
        apply keeps_bind; [apply keeps_log|]. intros _. apply keeps_ret. }
    intros next. apply keeps_bind; [apply K_updateCleanupSchedule|].
    intros _. apply keeps_log.
  - intros e. apply keeps_bind; [apply keeps_log|]. intros _. apply keeps_throw.
Qed.

Lemma keeps_route m : keeps R m -> keeps R (route m).
Proof. intros H. apply keeps_try_catch; [exact H|]. intros e. apply keeps_ret. Qed.

Lemma keeps_perform_ingestion a :
  (forall d, allowed (Device.deviceId d)) ->
  ofScheduler a = false ->
  match a with
  | Message topic message device => keeps R (handleMessage topic message device)
  | _ => True
  end ->
  keeps R (perform a).
Proof.
  intros Ha. destruct a; cbn [perform ofScheduler]; intros Hs Hm; try discriminate Hs.
  - apply keeps_modify. intros w. now apply R_env.
  - exact Hm.
  - apply keeps_batchProcessorTick.
  - apply keeps_deviceTimeoutMonitorTick.
  - apply keeps_bind; [now apply keeps_initialize|]. intros _. apply keeps_ret.
  - now apply keeps_connectToDevice.
  - apply keeps_onDisconnect.
  - apply keeps_bind; [apply keeps_disconnect|]. intros _. apply keeps_ret.
Qed.

Lemma keeps_perform_scheduler a : ofScheduler a = true -> keeps R (perform a).
Proof.
  destruct a; cbn [perform ofScheduler]; intros Hs; try discriminate Hs.
  - apply keeps_checkAndRunCleanup.
  - apply keeps_route, keeps_bind; [apply keeps_runCleanup|]. intros _. apply keeps_ret.
  - apply keeps_route, keeps_setEnabled.
  - apply keeps_route, keeps_resetSchedule.
Qed.

Hypothesis K_handleMessage : forall topic message device,
  keeps R (handleMessage topic message device).

Lemma keeps_activities l :
  (forall d, allowed (Device.deviceId d)) -> keeps R (activities l).
Proof.
  intros Ha. apply keeps_for_of. intros a _.
  destruct (ofScheduler a) eqn:Hs; [now apply keeps_perform_scheduler|].
  apply keeps_perform_ingestion; [exact Ha | exact Hs |].
  destruct a; try exact I. apply K_handleMessage.
Qed.

End Keeping.

(** ** No handler lets an exception escape *)

Section Returning.

Lemma returns_ret {A} (a : A) : returns (ret a).
Proof. intros w. now exists a. Qed.

Lemma returns_gets {A} (f : World -> A) : returns (gets f).
Proof. intros w. now exists (f w). Qed.

Lemma returns_modify f : returns (modify f).
Proof. intros w. now exists tt. Qed.

Lemma returns_log e : returns (log e).
Proof. apply returns_modify. Qed.

Lemma returns_bind {A B} (m : M A) (k : A -> M B) :
  returns m -> (forall a, returns (k a)) -> returns (bind m k).
Proof.
  intros Hm Hk w. unfold bind. destruct (Hm w) as [a Ha].
  destruct (m w) as [c w1]. cbn in Ha. subst c. apply Hk.
Qed.

(** A [catch] whose handler returns makes the whole statement return. *)
Lemma returns_try_catch {A} (m : M A) (h : string -> M A) :
  (forall e, returns (h e)) -> returns (try_catch m h).
Proof.
  intros Hh w. unfold try_catch. destruct (m w) as [[a|e] w1]; [now exists a | apply Hh].
Qed.

Lemma returns_when b m : returns m -> returns (when b m).
Proof. intros H. destruct b; [exact H | apply returns_ret]. Qed.

Lemma returns_for_of {A} (l : list A) body :
  (forall x, returns (body x)) -> returns (for_of l body).
Proof.
  intros H. induction l as [|x l IH]; cbn [for_of]; [apply returns_ret|].
  apply returns_bind; [apply H | intros _; exact IH].
Qed.

Lemma returns_detached m : returns (detached m).
Proof. apply returns_try_catch. intros e. apply returns_log. Qed.

Lemma returns_setTimeout m ms : returns m -> returns (setTimeout m ms).
Proof.
  intros H. unfold setTimeout. apply returns_bind; [apply returns_log|]. intros _.
  apply returns_bind; [apply returns_modify | intros _; exact H].
Qed.

Lemma returns_client_end handle : returns (client_end handle).
Proof.
  unfold client_end. apply returns_bind; [apply returns_modify|]. intros _.
  apply returns_log.
Qed.

Lemma returns_onConnect device subscribeError : returns (onConnect device subscribeError).
Proof.
  unfold onConnect. apply returns_bind; [apply returns_log|]. intros _.
  destruct subscribeError; [apply returns_ret|].
  apply returns_bind; [apply returns_modify|]. intros _. apply returns_detached.
Qed.

Lemma returns_open device h version period :
  returns
    (try_catch
       (client <- mqtt_connect (Device.deviceId device) h version period ;;
        modify (with_service (fun s =>
          set_clients (<[Device.deviceId device := client]> (clients s)) s)) ;;
        ret (Some client))
       (fun _ => ret None)).
Proof. apply returns_try_catch. intros e. apply returns_ret. Qed.

Lemma returns_connectToDevice device fuel : returns (connectToDevice fuel device).
Proof.
  induction fuel as [|fuel IH]; cbn [connectToDevice]; [apply returns_ret|].
  apply returns_bind; [apply returns_open|].
  intros [client|]; [|apply returns_ret].
  apply returns_bind; [apply returns_gets|].
  intros [subscribeError|message|]; [apply returns_onConnect| |apply returns_ret].
  destruct (isTimeoutError message); [|destruct (isProtocolError message)].
  - apply returns_bind; [apply returns_client_end|]. intros _.
    apply returns_bind; [apply returns_modify|]. intros _.
    now apply returns_setTimeout.
  - apply returns_bind; [apply returns_client_end|]. intros _. apply returns_detached.
  - apply returns_try_catch. intros e. apply returns_log.
Qed.

Lemma returns_flushBatch retryOnError : returns (flushBatch retryOnError).
Proof.
  intros w. destruct (flushBatch_effects retryOnError w) as (H & _). eauto.
Qed.

Lemma returns_disconnect h values : returns (disconnect h values).
Proof.
  unfold disconnect. apply returns_bind; [apply returns_log|]. intros _.
  apply returns_bind; [apply returns_log|]. intros _.
  apply returns_bind.
  { destruct (Handles.client _); [|apply returns_ret].
    apply returns_bind; [apply returns_client_end|]. intros _.
    apply returns_bind; [apply returns_modify|]. intros _. apply returns_ret. }
  intros h3. apply returns_bind.
  { apply returns_for_of. intros x. apply returns_client_end. }
  intros _. apply returns_bind; [apply returns_modify|]. intros _.
  apply returns_bind; [apply returns_setTimeout, returns_ret|]. intros _.
  apply returns_bind; [apply returns_log|]. intros _.
  apply returns_bind; [apply returns_flushBatch|]. intros _.
  apply returns_bind; [apply returns_log|]. intros _.
  apply returns_bind; [apply returns_gets|]. intros buffer.
  apply returns_bind; [apply returns_when, returns_log|]. intros _. apply returns_ret.
Qed.

Lemma returns_perform a : returns (perform a).
Proof.
  destruct a; cbn [perform].
  - apply returns_modify.
  - intros w. exists tt. unfold handleMessage. now rewrite swallow.
  - apply returns_try_catch. intros e. apply returns_log.
  - apply returns_try_catch. intros e. apply returns_log.
  - apply returns_bind; [|intros _; apply returns_ret].
    apply returns_try_catch. intros e.
    apply returns_bind; [apply returns_log|]. intros _. apply returns_ret.
  - apply returns_connectToDevice.
  - apply returns_detached.
  - apply returns_bind; [apply returns_disconnect|]. intros _. apply returns_ret.
  - apply returns_try_catch. intros e. apply returns_log.
  - apply returns_try_catch. intros e. apply returns_ret.
  - apply returns_try_catch. intros e. apply returns_ret.
  - apply returns_try_catch. intros e. apply returns_ret.
Qed.

End Returning.

Lemma perform_returns a w : perform a w = (Return tt, (perform a w).2).
Proof.
  destruct (returns_perform a w) as [[] H].
  destruct (perform a w) as [c w']. cbn in *. now subst c.
Qed.

Lemma activities_cons a l w : activities (a :: l) w = activities l (perform a w).2.
Proof.
  unfold activities. cbn [for_of]. unfold bind. now rewrite perform_returns.
Qed.

Lemma activities_app l1 : forall l2 w,
  activities (l1 ++ l2) w = activities l2 (activities l1 w).2.
Proof.
  induction l1 as [|a l1 IH]; intros l2 w; [reflexivity|].
  cbn [app]. rewrite !activities_cons. apply IH.
Qed.

(** ** What the tables keep through any run of the two services *)

Section Tables.

(** A relation between the tables before and after. *)
Variable Rs : Storage -> Storage -> Prop.
Hypothesis Rs_refl : forall s, Rs s s.
Hypothesis Rs_trans : forall a b c, Rs a b -> Rs b c -> Rs a c.

Lemma onTables_trans a b c : onTables Rs a b -> onTables Rs b c -> onTables Rs a c.
Proof. apply Rs_trans. Qed.

Lemma onTables_same w w' : storage w' = storage w -> onTables Rs w w'.
Proof. unfold onTables. intros ->. apply Rs_refl. Qed.

Lemma onTables_query {A} c (run : Z -> Storage -> A * Storage) :
  (forall t s, Rs s (run t s).2) -> keeps (onTables Rs) (query c run).
Proof.
  intros H. apply keeps_query.
  - apply onTables_trans.
  - intros. now apply onTables_same.
  - intros. now apply onTables_same.
  - intros t w. apply H.
Qed.

Hypothesis Rs_updateDevice : forall id u s,
  Rs s (set_devices
          (map (fun d => if Device.id d =? id then Device.merge d u else d) (devices s)) s).
Hypothesis Rs_logDeviceOfflineEvent : forall deviceId t s,
  Rs s (set_offlineEvents
          (offlineEvents s
             ++ [ {| DeviceOfflineEvent.id := currentOfflineEventId s;
                     DeviceOfflineEvent.deviceId := deviceId;
                     DeviceOfflineEvent.offlineAt := t |} ])
          (currentOfflineEventId s + 1) s).
Hypothesis Rs_createDeviceData : forall insertData t s,
  Rs s (set_deviceData
          (deviceData s
             ++ [ {| DeviceData.id := currentDeviceDataId s;
                     DeviceData.deviceId := DeviceData.deviceId' insertData;
                     DeviceData.timestamp := t;
                     DeviceData.alcoholLevel := DeviceData.alcoholLevel' insertData;
                     DeviceData.alertStatus := DeviceData.alertStatus' insertData |} ])
          (currentDeviceDataId s + 1) s).

Lemma onTables_updateDevice id u : keeps (onTables Rs) (storage.updateDevice id u).
Proof. apply onTables_query. intros t s. apply Rs_updateDevice. Qed.

Lemma onTables_createDeviceData insertData :
  keeps (onTables Rs) (storage.createDeviceData insertData).
Proof. apply onTables_query. intros t s. apply Rs_createDeviceData. Qed.

Lemma onTables_flushBatch retryOnError : keeps (onTables Rs) (flushBatch retryOnError).
Proof.
  apply keeps_flushBatch.
  - intros w. now apply onTables_same.
  - apply onTables_trans.
  - intros. now apply onTables_same.
  - apply onTables_createDeviceData.
  - intros. now apply onTables_same.
Qed.

Lemma onTables_handleMessage topic message device :
  keeps (onTables Rs) (handleMessage topic message device).
Proof.
  apply keeps_handleMessage.
  - intros w. now apply onTables_same.
  - apply onTables_trans.
  - intros. now apply onTables_same.
  - apply onTables_updateDevice.
  - apply onTables_createDeviceData.
  - intros. now apply onTables_same.
  - intros. now apply onTables_same.
Qed.

(** The tasks of the ingestion service. *)
Lemma ingestion_keeps a : ofScheduler a = false -> keeps (onTables Rs) (perform a).
Proof.
  intros Hs.
  apply (keeps_perform_ingestion (onTables Rs)) with (allowed := fun _ => True).
  - intros w. now apply onTables_same.
  - apply onTables_trans.
  - intros. now apply onTables_same.
  - intros. now apply onTables_same.
  - apply onTables_updateDevice.
  - intros deviceId t. apply onTables_query. intros t0 s. apply Rs_logDeviceOfflineEvent.
  - intros. intros w. now apply onTables_same.
  - intros. intros w. now apply onTables_same.
  - intros. now apply onTables_same.
  - intros. now apply onTables_same.
  - apply onTables_flushBatch.
  - intros. exact I.
  - exact Hs.
  - destruct a; try exact I. apply onTables_handleMessage.
Qed.

Hypothesis Rs_clearAllDeviceData : forall s,
  Rs s (set_deviceData [] (currentDeviceDataId s) s).
Hypothesis Rs_updateCleanupSchedule : forall taskName updates t s,
  Rs s (set_cleanupSchedules
          (alter (fun r => CleanupSchedule.merge r updates t) taskName (cleanupSchedules s))
          s).

(** The tasks of the cleanup scheduler. *)
Lemma scheduler_keeps a : ofScheduler a = true -> keeps (onTables Rs) (perform a).
Proof.
  apply (keeps_perform_scheduler (onTables Rs)).
  - intros w. now apply onTables_same.
  - apply onTables_trans.
  - intros. now apply onTables_same.
  - intros. now apply onTables_same.
  - apply onTables_query. intros t s. apply Rs_clearAllDeviceData.
  - intros taskName updates. apply onTables_query. intros t s.
    apply Rs_updateCleanupSchedule.
Qed.

Lemma tables_kept l : keeps (onTables Rs) (activities l).
Proof.
  apply keeps_for_of.
  - intros w. now apply onTables_same.
  - apply onTables_trans.
  - intros a _. destruct (ofScheduler a) eqn:Hs;
      [now apply scheduler_keeps | now apply ingestion_keeps].
Qed.

End Tables.

(** What only the tasks of one service keep. *)
Lemma keeps_some (R : World -> World -> Prop) (P : Activity -> Prop) l :
  (forall w, R w w) ->
  (forall a b c, R a b -> R b c -> R a c) ->
  (forall a, P a -> keeps R (perform a)) ->
  Forall P l -> keeps R (activities l).
Proof.
  intros Hrefl Htrans Hk Hl. apply keeps_for_of; [exact Hrefl | exact Htrans |].
  intros a Ha. apply Hk. rewrite List.Forall_forall in Hl. now apply Hl.
Qed.

Lemma registration_merge d u : registration (Device.merge d u) = registration d.
Proof. reflexivity. Qed.

(** X1. The two services never add, remove or reorder a device row and
    never write a field of a row other than [status] and [lastSeen], and
    they never remove or rewrite an offline event: whatever the tasks they
    run, in whatever order, whatever storage and the brokers answer, the
    table of devices holds the same registrations in the same order and
    the offline events of before are a prefix of those of after. *)
Theorem services_keep_registrations_and_offline_history (l : list Activity) (w : World) :
  let w' := (activities l w).2 in
  sameRegistrations w w'
  /\ exists new, offlineEvents (storage w') = offlineEvents (storage w) ++ new.
Proof.
  pose (Rs := fun s s' : Storage =>
                map registration (devices s') = map registration (devices s)
                /\ exists new, offlineEvents s' = offlineEvents s ++ new).
  apply (tables_kept Rs); subst Rs; cbn.
  - intros s. split; [reflexivity|]. exists []. now rewrite app_nil_r.
  - intros a b c [Hab [n1 H1]] [Hbc [n2 H2]]. split; [now rewrite Hbc|].
    exists (n1 ++ n2). now rewrite H2, H1, app_assoc.
  - intros id u s. split; [|exists []; now rewrite app_nil_r].
    rewrite map_map. apply map_ext. intros d.
    destruct (Device.id d =? id); [apply registration_merge | reflexivity].
  - intros deviceId t s. split; [reflexivity|]. eexists. reflexivity.
  - intros insertData t s. split; [reflexivity|]. exists []. now rewrite app_nil_r.
  - intros s. split; [reflexivity|]. exists []. now rewrite app_nil_r.
  - intros taskName updates t s. split; [reflexivity|]. exists []. now rewrite app_nil_r.
Qed.

(** X2. The ingestion service only appends to the table of readings and
    never writes the cleanup schedule: through any run of its tasks
    (messages, the two timers, connections, start and shutdown) the
    readings of before are a prefix of those of after and the schedules
    are the same. *)
Theorem ingestion_only_appends_readings (l : list Activity) (w : World) :
  Forall (fun a => ofScheduler a = false) l ->
  let w' := (activities l w).2 in
  (exists new, deviceData (storage w') = deviceData (storage w) ++ new)
  /\ cleanupSchedules (storage w') = cleanupSchedules (storage w).
Proof.
  intros Hl.
  pose (Rs := fun s s' : Storage =>
                (exists new, deviceData s' = deviceData s ++ new)
                /\ cleanupSchedules s' = cleanupSchedules s).
  assert (Hrefl : forall s, Rs s s).
  { intros s. split; [|reflexivity]. exists []. now rewrite app_nil_r. }
  assert (Htrans : forall a b c, Rs a b -> Rs b c -> Rs a c).
  { intros a b c [[n1 H1] Hab] [[n2 H2] Hbc]. split; [|congruence].
    exists (n1 ++ n2). now rewrite H2, H1, app_assoc. }
  apply (keeps_some (onTables Rs) (fun a => ofScheduler a = false) l).
  - intros w0. apply Hrefl.
  - intros a b c. apply Htrans.
  - intros a Ha. apply ingestion_keeps; try assumption; subst Rs; cbn.
    + intros id u s. split; [|reflexivity]. exists []. now rewrite app_nil_r.
    + intros deviceId t s. split; [|reflexivity]. exists []. now rewrite app_nil_r.
    + intros insertData t s. split; [|reflexivity]. eexists. reflexivity.
  - exact Hl.
Qed.

Lemma ingestion_only_appends_readings_witness :
  let l := [Message "sensors" "1800" Sample.D1; BatchTimer; MonitorTimer] in
  let w' := (activities l Sample.world).2 in
  (exists new, deviceData (storage w') = deviceData (storage Sample.world) ++ new)
  /\ cleanupSchedules (storage w') = cleanupSchedules (storage Sample.world).
Proof.
  apply (ingestion_only_appends_readings
           [Message "sensors" "1800" Sample.D1; BatchTimer; MonitorTimer] Sample.world).
  repeat constructor.
Defined.

Lemma advances_refl s : advances s s.
Proof. unfold advances. repeat split; try lia; intros; now left. Qed.

Lemma advances_trans a b c : advances a b -> advances b c -> advances a c.
Proof.
  intros (H1 & H2 & H3 & H4) (G1 & G2 & G3 & G4). unfold advances.
  split; [lia|]. split; [lia|]. split.
  - intros r Hr. destruct (G3 r Hr) as [Hb|Hb]; [apply H3, Hb | right; lia].
  - intros e He. destruct (G4 e He) as [Hb|Hb]; [apply H4, Hb | right; lia].
Qed.

Lemma NoDup_snoc_fresh (l : list Z) (x : Z) :
  Forall (fun y => y < x) l -> NoDup l -> NoDup (l ++ [x]).
Proof.
  intros Hlt Hnd. apply NoDup_app. split; [exact Hnd|]. split; [|apply NoDup_singleton].
  intros y Hy Hx. apply list_elem_of_singleton in Hx. subst y.
  rewrite Forall_forall in Hlt. specialize (Hlt x Hy). lia.
Qed.

(** X3. Identifiers are never given twice.  On tables whose rows carry
    distinct identifiers below the next one to be given, any run of the two
    services leaves such tables, and every row present afterwards is a row
    of before or carries an identifier that had never been given: a wipe
    does not make the identifiers of the deleted readings available
    again. *)
Theorem identifiers_are_never_reused (l : list Activity) (w : World) :
  numbered (storage w) ->
  let s' := storage (activities l w).2 in
  numbered s' /\ advances (storage w) s'.
Proof.
  intros Hn.
  pose (Rs := fun s s' : Storage => (numbered s -> numbered s') /\ advances s s').
  assert (H : onTables Rs w (activities l w).2).
  { apply (tables_kept Rs); subst Rs; cbn.
    - intros s. split; [tauto | apply advances_refl].
    - intros a b c [H1 H2] [G1 G2]. split; [tauto | eapply advances_trans; eassumption].
    - intros id u s. split; [intros H; exact H|].
      unfold advances. cbn. repeat split; try lia; intros; now left.
    - intros deviceId t s. split.
      + intros (H1 & H2 & H3 & H4). unfold numbered. cbn.
        split; [exact H1|]. split; [exact H2|]. split.
        * apply Forall_app. split.
          -- eapply Forall_impl; [exact H3|]. cbn. intros; lia.
          -- constructor; [cbn; lia | constructor].
        * rewrite map_app. cbn. apply NoDup_snoc_fresh; [|exact H4].
          apply Forall_map. exact H3.
      + unfold advances. cbn. split; [lia|]. split; [lia|]. split; [intros; now left|].
        intros e He. apply in_app_or in He. destruct He as [He|[<-|[]]]; [now left|].
        right. cbn. lia.
    - intros insertData t s. split.
      + intros (H1 & H2 & H3 & H4). unfold numbered. cbn. split; [|split; [|split]].
        * apply Forall_app. split.
          -- eapply Forall_impl; [exact H1|]. cbn. intros; lia.
          -- constructor; [cbn; lia | constructor].
        * rewrite map_app. cbn. apply NoDup_snoc_fresh; [|exact H2].
          apply Forall_map. exact H1.
        * exact H3.
        * exact H4.
      + unfold advances. cbn. split; [lia|]. split; [lia|]. split; [|intros; now left].
        intros r Hr. apply in_app_or in Hr. destruct Hr as [Hr|[<-|[]]]; [now left|].
        right. cbn. lia.
    - intros s. split.
      + intros (H1 & H2 & H3 & H4). unfold numbered. cbn.
        split; [constructor|]. split; [constructor|]. split; assumption.
      + unfold advances. cbn. split; [lia|]. split; [lia|]. split; [|intros; now left].
        intros r [].
    - intros taskName updates t s. split; [intros H; exact H|].
      unfold advances. cbn. repeat split; try lia; intros; now left. }
  destruct H as [H1 H2]. split; [apply H1, Hn | exact H2].
Qed.

Lemma identifiers_are_never_reused_witness :
  let l := [Message "sensors" "1800" Sample.D1; BatchTimer; RunCleanup;
            Message "sensors" "300" Sample.D1; BatchTimer] in
  let s' := storage (activities l Sample.world).2 in
  numbered s' /\ advances (storage Sample.world) s'.
Proof.
  apply (identifiers_are_never_reused
           [Message "sensors" "1800" Sample.D1; BatchTimer; RunCleanup;
            Message "sensors" "300" Sample.D1; BatchTimer] Sample.world).
  unfold numbered. cbn.
  split; [repeat constructor|]. split; [|split; [constructor|constructor]].
  apply (bool_decide_unpack _). vm_compute. exact I.
Defined.

(** ** What the readings keep through any run *)

Section Readings.

(** A property of the readings that the process holds: in the table, in
    the buffer and in the cache. *)
Variable Inv : World -> Prop.
Hypothesis Inv_ext : forall w w',
  deviceData (storage w') = deviceData (storage w) ->
  batchBuffer (service w') = batchBuffer (service w) ->
  latestReadingsCache (service w') = latestReadingsCache (service w) ->
  Inv w -> Inv w'.
Hypothesis Inv_clear : forall w,
  Inv w -> Inv (with_storage (fun s => set_deviceData [] (currentDeviceDataId s) s) w).
Hypothesis Inv_flushBatch : forall retryOnError w, Inv w -> Inv (flushBatch retryOnError w).2.

Lemma readings_query {A} c (run : Z -> Storage -> A * Storage) :
  (forall t s, deviceData (run t s).2 = deviceData s) ->
  keeps (fun w w' => Inv w -> Inv w') (query c run).
Proof.
  intros H. apply keeps_query.
  - intros a b c0 Hab Hbc Ha. auto.
  - intros e w. now apply Inv_ext.
  - intros f w _. now apply Inv_ext.
  - intros t w. apply Inv_ext; [apply H | reflexivity | reflexivity].
Qed.

(** The same for a property that one kind of message may break. *)
Variable quiet : Activity -> Prop.
Hypothesis Inv_handleMessage : forall topic message device w,
  quiet (Message topic message device) ->
  Inv w -> Inv (handleMessage topic message device w).2.

Lemma readings_kept_by a : quiet a -> keeps (fun w w' => Inv w -> Inv w') (perform a).
Proof.
  intros Hq.
  assert (Htrans : forall a b c : World, (Inv a -> Inv b) -> (Inv b -> Inv c) -> Inv a -> Inv c)
    by auto.
  destruct (ofScheduler a) eqn:Hs.
  - apply keeps_perform_scheduler; try assumption.
    + intros w0 H. exact H.
    + intros e w0. now apply Inv_ext.
    + intros f w0 _. now apply Inv_ext.
    + apply keeps_query; try assumption.
      * intros e w0. now apply Inv_ext.
      * intros f w0 _. now apply Inv_ext.
      * intros t w0 H. apply Inv_clear in H. revert H. now apply Inv_ext.
    + intros taskName updates. apply readings_query. reflexivity.
  - apply keeps_perform_ingestion with (allowed := fun _ => True); try assumption.
    + intros w0 H. exact H.
    + intros e w0. now apply Inv_ext.
    + intros f w0 _. now apply Inv_ext.
    + intros id u. apply readings_query. reflexivity.
    + intros deviceId t. apply readings_query. reflexivity.
    + intros deviceId h version period _ w0. now apply Inv_ext.
    + intros handle w0. now apply Inv_ext.
    + intros f w0. now apply Inv_ext.
    + intros f w0. now apply Inv_ext.
    + intros d. exact Logic.I.
    + destruct a; try exact Logic.I. intros w0. now apply Inv_handleMessage.
Qed.

Lemma readings_kept l w : Forall quiet l -> Inv w -> Inv (activities l w).2.
Proof.
  intros Hl.
  apply (keeps_some (fun w w' => Inv w -> Inv w') quiet l); auto.
  intros a Ha. now apply readings_kept_by.
Qed.

End Readings.

Lemma flushBatch_cache retryOnError w :
  latestReadingsCache (service (flushBatch retryOnError w).2) =
    latestReadingsCache (service w).
Proof.
  apply (keeps_flushBatch
           (fun w w' => latestReadingsCache (service w') = latestReadingsCache (service w))).
  - reflexivity.
  - intros a b c Hab Hbc. congruence.
  - reflexivity.
  - intros insertData. apply keeps_query; try reflexivity.
    intros a b c Hab Hbc. congruence.
  - reflexivity.
Qed.

Lemma attempts_Forall (P : BatchedData.t -> Prop) faulty batch : forall n,
  Forall P batch ->
  Forall P (persistedOf (attempts faulty n batch))
  /\ Forall P (failedOf (attempts faulty n batch)).
Proof.
  induction batch as [|d l IH]; intros n Hb; cbn [attempts].
  - split; constructor.
  - inversion Hb as [|? ? Hd Hl]; subst. destruct (IH (S n) Hl) as [H1 H2].
    rewrite persistedOf_cons, failedOf_cons.
    destruct (negb _); split; try assumption; now constructor.
Qed.

Lemma insertedOf_Forall (P : BatchedData.t -> Prop) faulty late batch : forall n,
  Forall P batch -> Forall P (insertedOf faulty late n batch).
Proof.
  intros n Hb. apply List.Forall_forall. intros x Hx.
  apply insertedOf_In in Hx. revert x Hx. now apply List.Forall_forall.
Qed.

Lemma failedOf_length faulty batch : forall n,
  (length (failedOf (attempts faulty n batch)) <= length batch)%nat.
Proof.
  induction batch as [|d l IH]; intros n; cbn [attempts]; [cbn; lia|].
  rewrite failedOf_cons. specialize (IH (S n)). destruct (negb _); cbn [length]; lia.
Qed.

Lemma rowsOf_sound t saved : forall next,
  Forall (fun d => sound (BatchedData.alcoholLevel d) (BatchedData.alertStatus d)) saved ->
  Forall (fun r => sound (DeviceData.alcoholLevel r) (DeviceData.alertStatus r))
         (rowsOf t next saved).
Proof.
  induction saved as [|d l IH]; intros next H; cbn [rowsOf]; [constructor|].
  inversion H; subst. constructor; [assumption | now apply IH].
Qed.

Lemma or_zero_is_a_number level : JS.isNaN (JS.or level (JS.of_Z 0)) = false.
Proof. unfold JS.or. destruct level; cbn; try reflexivity. now destruct (negb _). Qed.

Lemma ingest_tail device w :
  forall R : World -> World -> Prop,
  (forall w, R w w) ->
  (forall a b c, R a b -> R b c -> R a c) ->
  (forall e w, R w (emit e w)) ->
  (forall id u, keeps R (storage.updateDevice id u)) ->
  (forall retryOnError, keeps R (flushBatch retryOnError)) ->
  R w ((flushIfFull ;; refreshStatus device) w).2.
Proof.
  intros R Hrefl Htrans Hemit Hu Hf.
  apply (keeps_bind R Htrans).
  - unfold flushIfFull. apply (keeps_bind R Htrans); [now apply keeps_gets|].
    intros buffer. apply keeps_when; [exact Hrefl|].
    apply keeps_try_catch; [exact Htrans | | intros e; now apply keeps_log].
    apply (keeps_bind R Htrans); [apply Hf|]. intros _. now apply keeps_ret.
  - intros _. now apply keeps_refreshStatus.
Qed.

(** X4. Every reading that the process holds is sound: if, in the table,
    in the buffer and in the cache, every level is a number and every
    status is the one computed from its level, the same holds after any
    run of the two services, whatever the payloads received and whatever
    storage and the brokers answer. *)
Theorem readings_stay_sound (l : list Activity) (w : World) :
  consistent w -> consistent (activities l w).2.
Proof.
  apply (readings_kept consistent) with (quiet := fun _ => True);
    [| | | |apply Forall_forall; intros; exact I].
  - intros w0 w1 Hd Hb Hc (H1 & H2 & H3). unfold consistent.
    rewrite Hd, Hb, Hc. tauto.
  - intros w0 (H1 & H2 & H3). unfold consistent. cbn. split; [constructor | tauto].
  - intros retryOnError w0 (H1 & H2 & H3).
    destruct (flushBatch_effects retryOnError w0) as (_ & Hb & _ & Hd).
    destruct (attempts_Forall _ (faults (env w0)) (batchBuffer (service w0))
                (calls (env w0)) H2) as [Hp Hf].
    unfold consistent. rewrite Hb, Hd, flushBatch_cache.
    split; [|split; [|exact H3]].
    + apply Forall_app. split; [exact H1|]. apply rowsOf_sound.
      now apply insertedOf_Forall.
    + destruct retryOnError; [exact Hf | constructor].
  - intros topic message device w0 _ H.
    destruct (decode message) as [level|] eqn:Hd.
    + rewrite (handleMessage_decoded _ _ _ level) by exact Hd. cbn [snd].
      assert (Hi : consistent (ingested device level w0)).
      { destruct H as (H1 & H2 & H3). unfold consistent, ingested. cbn.
        split; [exact H1|]. split.
        - apply Forall_app. split; [exact H2|]. constructor; [|constructor].
          cbn. split; [apply or_zero_is_a_number | reflexivity].
        - apply map_Forall_insert_2; [|exact H3].
          cbn. split; [apply or_zero_is_a_number | reflexivity]. }
      revert Hi.
      apply (ingest_tail device (ingested device level w0)
               (fun w w' => consistent w -> consistent w')).
      * intros w1 H1. exact H1.
      * intros a b c Hab Hbc Ha. auto.
      * intros e w1 H1. exact H1.
      * intros id u. apply keeps_query.
        -- intros a b c Hab Hbc Ha. auto.
        -- intros e w1 H1. exact H1.
        -- intros f w1 _ H1. exact H1.
        -- intros t w1 H1. exact H1.
      * intros retryOnError w1 (H1 & H2 & H3).
        destruct (flushBatch_effects retryOnError w1) as (_ & Hb & _ & Hdd).
        destruct (attempts_Forall _ (faults (env w1)) (batchBuffer (service w1))
                    (calls (env w1)) H2) as [Hp Hf].
        unfold consistent. rewrite Hb, Hdd, flushBatch_cache.
        split; [|split; [|exact H3]].
        -- apply Forall_app. split; [exact H1|]. apply rowsOf_sound.
      now apply insertedOf_Forall.
        -- destruct retryOnError; [exact Hf | constructor].
    + rewrite handleMessage_dropped by exact Hd. exact H.
Qed.

Lemma readings_stay_sound_witness :
  consistent
    (activities [Message "sensors" (Sample.json "{'level': 'high'}") Sample.D1;
                 Message "sensors" "Infinity" Sample.D2; BatchTimer; RunCleanup]
       Sample.world).2.
Proof.
  apply (readings_stay_sound
           [Message "sensors" (Sample.json "{'level': 'high'}") Sample.D1;
            Message "sensors" "Infinity" Sample.D2; BatchTimer; RunCleanup]
           Sample.world).
  unfold consistent. cbn. split; [|split].
  - repeat constructor.
  - constructor.
  - apply map_Forall_empty.
Defined.

(** X5. The buffer never holds a full batch between two tasks: when it
    holds fewer than [BATCH_SIZE] readings it still does after any run of
    the two services, whatever storage answers; a message that fills it
    has it flushed before its handler returns, and the readings that a
    shutdown puts back are never more than it took. *)
Theorem buffer_stays_below_the_batch_size (l : list Activity) (w : World) :
  Z.of_nat (length (batchBuffer (service w))) < BATCH_SIZE ->
  Z.of_nat (length (batchBuffer (service (activities l w).2))) < BATCH_SIZE.
Proof.
  apply (readings_kept
           (fun w => Z.of_nat (length (batchBuffer (service w))) < BATCH_SIZE))
    with (quiet := fun _ => True); [| | | |apply Forall_forall; intros; exact I].
  - intros w0 w1 _ Hb _. now rewrite Hb.
  - intros w0 H. exact H.
  - intros retryOnError w0 H.
    destruct (flushBatch_effects retryOnError w0) as (_ & Hb & _).
    rewrite Hb. destruct retryOnError; [|cbn; unfold BATCH_SIZE; lia].
    pose proof (failedOf_length (faults (env w0)) (batchBuffer (service w0))
                  (calls (env w0))). lia.
  - intros topic message device w0 _ H.
    destruct (decode message) as [level|] eqn:Hd.
    + destruct (handleMessage_shape topic message device level w0 Hd)
        as (rest & _ & _ & _ & Hb & _).
      rewrite Hb.
      destruct (Z.geb_spec
                  (Z.of_nat (length (batchBuffer (service w0)
                                       ++ [dataOf device level (clock (env w0))])))
                  BATCH_SIZE); [cbn; unfold BATCH_SIZE; lia | assumption].
    + rewrite handleMessage_dropped by exact Hd. exact H.
Qed.

Lemma buffer_stays_below_the_batch_size_witness :
  Z.of_nat (length (batchBuffer (service
    (activities [Message "sensors" "1800" Sample.D1; MonitorTimer;
                 Disconnect {| Handles.client := None; Handles.batchFlushInterval := true;
                               Handles.deviceTimeoutMonitorInterval := true |} []]
       (Sample.make (fun _ _ => true) Sample.silent
          (repeat (Sample.reading "D1" 300 1) 98))).2))) < BATCH_SIZE.
Proof.
  apply (buffer_stays_below_the_batch_size
           [Message "sensors" "1800" Sample.D1; MonitorTimer;
            Disconnect {| Handles.client := None; Handles.batchFlushInterval := true;
                          Handles.deviceTimeoutMonitorInterval := true |} []]
           (Sample.make (fun _ _ => true) Sample.silent
              (repeat (Sample.reading "D1" 300 1) 98))).
  vm_compute. reflexivity.
Defined.

(** X6. The cache answers with the last decoded reading of a device until
    the next message of that device: after a decodable message of the
    device, whatever else the two services do (messages of other devices,
    flushes, sweeps, wipes of the table, the shutdown), [getLatestReading]
    returns the reading built from that message, with the instant at which
    it was handled. *)
Theorem latest_reading_outlives_all_but_the_next_message
    (topic message : string) (device : Device.t) (level : JS.number)
    (l : list Activity) (w : World) :
  decode message = Some level ->
  Forall (notFrom (Device.deviceId device)) l ->
  (getLatestReading (Device.deviceId device)
     (activities (Message topic message device :: l) w).2).1
    = Return (Some (readingOf level (clock (env w)))).
Proof.
  intros Hd Hl. rewrite activities_cons. cbn [perform].
  unfold getLatestReading, gets. cbn [fst]. f_equal.
  apply (readings_kept
           (fun w0 => latestReadingsCache (service w0) !! Device.deviceId device
                      = Some (readingOf level (clock (env w)))))
    with (quiet := notFrom (Device.deviceId device)); [| | | |exact Hl|].
  - intros w0 w1 _ _ Hc. now rewrite Hc.
  - intros w0 H. exact H.
  - intros retryOnError w0. now rewrite flushBatch_cache.
  - intros topic' message' device' w0 Hq H.
    destruct (decode message') as [level'|] eqn:Hd'.
    + destruct Hq as [Hq|Hq]; [|congruence].
      destruct (handleMessage_shape topic' message' device' level' w0 Hd')
        as (rest & _ & _ & _ & _ & Hc).
      rewrite Hc, lookup_insert_ne; [exact H | exact Hq].
    + rewrite handleMessage_dropped by exact Hd'. exact H.
  - destruct (handleMessage_shape topic message device level w Hd)
      as (rest & _ & _ & _ & _ & Hc).
    rewrite Hc. apply lookup_insert_eq.
Qed.

Lemma latest_reading_outlives_all_but_the_next_message_witness :
  (getLatestReading "D1"
     (activities [Message "sensors" (Sample.json "{'Index': 1800}") Sample.D1;
                  Message "sensors" "nonsense" Sample.D1;
                  Message "sensors" "300" Sample.D2; BatchTimer; RunCleanup]
        Sample.world).2).1
    = Return (Some (readingOf (JS.of_Z 1800) 100000)).
Proof.
  apply (latest_reading_outlives_all_but_the_next_message
           "sensors" (Sample.json "{'Index': 1800}") Sample.D1 (JS.of_Z 1800)
           [Message "sensors" "nonsense" Sample.D1;
            Message "sensors" "300" Sample.D2; BatchTimer; RunCleanup]
           Sample.world).
  - vm_compute. reflexivity.
  - constructor; [right; vm_compute; reflexivity|].
    constructor; [left; discriminate|].
    constructor; [exact I|]. constructor; [exact I|]. constructor.
Defined.

(** X7. The cleanup scheduler touches nothing but the readings and its
    own schedule: through any run of its tasks (the timer, the manual
    trigger, enabling, disabling and resetting) the devices, the offline
    events, the buffer, the cache and the connections are as before, and
    the table of readings is either as before or empty. *)
Theorem cleanup_retains_all_but_the_readings (l : list Activity) (w : World) :
  Forall (fun a => ofScheduler a = true) l ->
  let w' := (activities l w).2 in
  devices (storage w') = devices (storage w)
  /\ offlineEvents (storage w') = offlineEvents (storage w)
  /\ service w' = service w
  /\ connections (env w') = connections (env w)
  /\ (deviceData (storage w') = deviceData (storage w) \/ deviceData (storage w') = []).
Proof.
  intros Hl.
  pose (R := fun w w' : World =>
               devices (storage w') = devices (storage w)
               /\ offlineEvents (storage w') = offlineEvents (storage w)
               /\ service w' = service w
               /\ connections (env w') = connections (env w)
               /\ (deviceData (storage w') = deviceData (storage w)
                   \/ deviceData (storage w') = [])).
  assert (Hrefl : forall w0, R w0 w0) by (intros w0; unfold R; tauto).
  assert (Htrans : forall a b c, R a b -> R b c -> R a c).
  { intros a b c (H1 & H2 & H3 & H4 & H5) (G1 & G2 & G3 & G4 & G5). unfold R.
    repeat split; try congruence.
    destruct G5 as [G5|G5]; [|now right]. rewrite G5. exact H5. }
  assert (Hemit : forall e w0, R w0 (emit e w0)) by (intros e w0; unfold R; cbn; tauto).
  assert (Henv : forall f w0,
             (forall e, connections (f e) = connections e) -> R w0 (with_env f w0)).
  { intros f w0 Hf. unfold R. cbn. rewrite Hf. tauto. }
  apply (keeps_some R (fun a => ofScheduler a = true) l Hrefl Htrans); [|exact Hl].
  intros a Ha. apply keeps_perform_scheduler; try assumption.
  - apply keeps_query; try assumption. intros t w0. unfold R. cbn. tauto.
  - intros taskName updates. apply keeps_query; try assumption.
    intros t w0. unfold R. cbn. tauto.
Qed.

Lemma cleanup_retains_all_but_the_readings_witness :
  let w := Sample.make Sample.never Sample.silent [Sample.reading "D1" 1800 1] in
  let w' := (activities [SetEnabled false; CleanupTimer; RunCleanup;
                         ResetSchedule {| offsetAtUTC := fun _ => 0;
                                          offsetAtLocal := fun _ => 0 |}] w).2 in
  devices (storage w') = devices (storage w)
  /\ offlineEvents (storage w') = offlineEvents (storage w)
  /\ service w' = service w
  /\ connections (env w') = connections (env w)
  /\ (deviceData (storage w') = deviceData (storage w) \/ deviceData (storage w') = []).
Proof.
  apply (cleanup_retains_all_but_the_readings
           [SetEnabled false; CleanupTimer; RunCleanup;
            ResetSchedule {| offsetAtUTC := fun _ => 0; offsetAtLocal := fun _ => 0 |}]
           (Sample.make Sample.never Sample.silent [Sample.reading "D1" 1800 1])).
  repeat constructor.
Defined.

(** X8. No task lets an exception escape.  Whatever storage and the
    brokers answer, the handler of a message, the two timers of the
    ingestion service, its start and its shutdown, the handlers of a
    connection and the timer of the scheduler return normally, and so do
    the manual trigger and the routes that enable, disable and reset the
    schedule; a run of tasks therefore goes through all of them. *)
Theorem no_task_throws (l : list Activity) (w : World) :
  (activities l w).1 = Return tt
  /\ (forall topic message device,
        (handleMessage topic message device w).1 = Return tt)
  /\ (batchProcessorTick w).1 = Return tt
  /\ (deviceTimeoutMonitorTick w).1 = Return tt
  /\ (forall fuel h, exists h', (initialize fuel h w).1 = Return h')
  /\ (forall fuel device, (addDeviceConnection fuel device w).1 = Return tt)
  /\ (forall device, (onDisconnect device w).1 = Return tt)
  /\ (forall h values, exists h', (disconnect h values w).1 = Return h')
  /\ (CleanupScheduler.checkAndRunCleanup w).1 = Return tt
  /\ (exists n, (CleanupScheduler.runCleanup w).1 = Return n).
Proof.
  assert (Hp : forall a, (perform a w).1 = Return tt).
  { intros a. now rewrite perform_returns. }
  split.
  { revert w Hp. induction l as [|a l IH]; intros w _; [reflexivity|].
    rewrite activities_cons. apply IH. intros b. now rewrite perform_returns. }
  split; [intros topic message device; apply (Hp (Message topic message device))|].
  split; [apply (Hp BatchTimer)|].
  split; [apply (Hp MonitorTimer)|].
  split.
  { intros fuel h. apply returns_try_catch. intros e.
    apply returns_bind; [apply returns_log|]. intros _. apply returns_ret. }
  split; [intros fuel device; apply (Hp (AddDeviceConnection fuel device))|].
  split; [intros device; apply (Hp (Disconnected device))|].
  split; [intros h values; apply returns_disconnect|].
  split; [apply (Hp CleanupTimer)|].
  apply manual_returns.
Qed.

(** ** Further properties of the connections *)

Lemma world_ext a b :
  storage a = storage b -> service a = service b -> env a = env b -> trace a = trace b ->
  a = b.
Proof. destruct a, b. cbn. now intros -> -> -> ->. Qed.

Section MoreConnections.

Variable device : Device.t.

(** The error handler of [connectToDevice] on an error of the timeout
    class: the whole attempt is made again 5 seconds later. *)
Lemma connect_timed_out fuel w message :
  broker (env w) (length (connections (env w))) = ReplyError message ->
  isTimeoutError message = true ->
  connectToDevice (S fuel) device w = connectToDevice fuel device (timedOutOnce device w).
Proof.
  intros Hb Ht. cbn [connectToDevice].
  unfold bind at 1. unfold try_catch at 1. unfold bind at 1, mqtt_connect.
  unfold bind at 1, modify, ret. unfold bind at 1, gets.
  cbn [env with_service with_env emit set_connections broker].
  rewrite Hb, Ht. unfold bind, client_end, setTimeout, bind, log, modify. f_equal.
  apply world_ext.
  - reflexivity.
  - reflexivity.
  - cbn. rewrite alter_last. reflexivity.
  - cbn. rewrite <- !app_assoc. reflexivity.
Qed.

Lemma timedOutOnce_effects w :
  let w' := timedOutOnce device w in
  storage w' = storage w
  /\ clients (service w') = delete (Device.deviceId device) (clients (service w))
  /\ connections (env w') =
       connections (env w) ++ [closed device Primary (firstVersion device) 5000]
  /\ clock (env w') = clock (env w) + 5000
  /\ broker (env w') = broker (env w)
  /\ calls (env w') = calls (env w)
  /\ batchBuffer (service w') = batchBuffer (service w)
  /\ subscribedTopics (service w') = subscribedTopics (service w).
Proof.
  cbn. repeat split; try reflexivity. apply delete_insert_eq.
Qed.

End MoreConnections.

Section Outcomes.

Variable device : Device.t.

(** [updateDevice] followed by the broadcast of its result. *)
Lemma update_and_broadcast updates w :
  (updatedDevice <- storage.updateDevice (Device.id device) updates ;;
   broadcastDevice updatedDevice) w =
    if fails w 0 (UpdateDevice (Device.id device) updates)
    then (Throw "storage", refused device updates w)
    else (Return tt, updated device updates w).
Proof.
  rewrite fails_0.
  unfold bind, storage.updateDevice, query, broadcastDevice, gets, log, modify, ret.
  destruct (faults (env w) (calls (env w)) _); cbn.
  { unfold refused. rewrite wrote_0. destruct (written _ _ _); reflexivity. }
  unfold updated.
  destruct (webSocketBroadcaster (service w)); [destruct (find _ _)|]; cbn;
    f_equal; apply world_ext; cbn; rewrite <- ?app_assoc, ?app_nil_r; reflexivity.
Qed.

Lemma onConnect_effects subscribeError w :
  onConnect device subscribeError w =
    (Return tt,
     if subscribeError then emit (ESubscribe (Device.mqttTopic device) false) w
     else
       let w1 := subscribed device w in
       if fails w 0 (UpdateDevice (Device.id device) (onlineAt (clock (env w))))
       then emit (EUnhandledRejection "storage")
              (refused device (onlineAt (clock (env w))) w1)
       else updated device (onlineAt (clock (env w))) w1).
Proof.
  unfold onConnect. unfold bind at 1, log, modify.
  destruct subscribeError; [reflexivity|].
  unfold bind at 1. unfold detached, try_catch. unfold bind at 1, Date_now, gets.
  cbn [negb env emit with_service clock].
  fold (onlineAt (clock (env w))).
  change (with_service _ (emit (ESubscribe (Device.mqttTopic device) true) w))
    with (subscribed device w).
  rewrite update_and_broadcast.
  change (fails (subscribed device w) 0) with (fails w 0).
  destruct (fails w 0 _); reflexivity.
Qed.

Lemma onDisconnect_effects w :
  onDisconnect device w =
    (Return tt,
     if fails w 0 (UpdateDevice (Device.id device) (waitingAt (clock (env w))))
     then emit (EUnhandledRejection "storage")
            (refused device (waitingAt (clock (env w))) w)
     else updated device (waitingAt (clock (env w))) w).
Proof.
  unfold onDisconnect, detached, try_catch. unfold bind at 1, Date_now, gets.
  fold (waitingAt (clock (env w))). rewrite update_and_broadcast.
  destruct (fails w 0 _); reflexivity.
Qed.

(** The connection is opened and the answer of the broker is read. *)
Lemma connect_answered fuel w :
  connectToDevice (S fuel) device w =
    let w1 := connectedTo device Primary (firstVersion device) 5000 w in
    let client := length (connections (env w)) in
    match broker (env w) client with
    | ReplyConnect subscribeError => onConnect device subscribeError w1
    | ReplyError message =>
        if isTimeoutError message then
          (client_end client ;;
           modify (with_service (fun s =>
             set_clients (delete (Device.deviceId device) (clients s)) s)) ;;
           setTimeout (connectToDevice fuel device) 5000) w1
        else if isProtocolError message then
          (client_end client ;; detached (retryWithDifferentProtocol device 4)) w1
        else
          try_catch (markOffline device)
            (fun _ => log (ELog "Failed to update device status on MQTT error")) w1
    | ReplyNothing => (Return tt, w1)
    end.
Proof.
  cbn [connectToDevice].
  unfold bind at 1. unfold try_catch at 1. unfold bind at 1, mqtt_connect.
  unfold bind at 1, modify, ret. unfold bind at 1, gets.
  cbn [env with_service with_env emit set_connections broker]. cbv zeta.
  destruct (broker (env w) (length (connections (env w)))) as [subscribeError|message|];
    [reflexivity| |reflexivity].
  destruct (isTimeoutError message); [reflexivity|].
  destruct (isProtocolError message); reflexivity.
Qed.

(** A rung of the ladder: the connection is opened and the answer of the
    broker is read. *)
Lemma retry_answered v w :
  v <= 5 ->
  retryWithDifferentProtocol device v w =
    let w1 := connectedTo device (Retry v) v 0 w in
    let client := length (connections (env w)) in
    match broker (env w) client with
    | ReplyConnect subscribeError => onConnect device subscribeError w1
    | ReplyError message =>
        (client_end client ;;
         if isProtocolError message then
           setTimeout (detached (retryWithDifferentProtocol device (v + 1))) 2000
         else
           try_catch (markOffline device)
             (fun _ => log (ELog "Failed to update device status during retry"))) w1
    | ReplyNothing => (Return tt, w1)
    end.
Proof.
  intros Hv. rewrite retry_unfold. destruct (Z_gt_dec v 5); [lia|].
  unfold bind at 1. unfold try_catch at 1. unfold bind at 1, mqtt_connect.
  unfold bind at 1, modify, ret. unfold bind at 1, gets.
  cbn [env with_service with_env emit set_connections broker]. cbv zeta.
  destruct (broker (env w) (length (connections (env w)))) as [subscribeError|message|];
    reflexivity.
Qed.

Lemma connection_ended h version period (m : M unit) w :
  (client_end (length (connections (env w))) ;; m) (connectedTo device h version period w) =
    m (rejected device h version period w).
Proof.
  unfold bind, client_end, bind, log, modify. f_equal.
  apply world_ext; cbn; [reflexivity | reflexivity | | now rewrite <- app_assoc].
  rewrite alter_last. reflexivity.
Qed.

(** The three statements that mark a device offline, when the update
    throws. *)
Lemma markOffline_refused w :
  fails w 0 (UpdateDevice (Device.id device) (offlineAt (clock (env w)))) = true ->
  markOffline device w = (Throw "storage", refused device (offlineAt (clock (env w))) w).
Proof.
  rewrite fails_0. intros F.
  unfold markOffline, bind, Date_now, gets, storage.updateDevice, query. cbn.
  fold (offlineAt (clock (env w))). rewrite F.
  unfold refused. rewrite wrote_0. destruct (written _ _ _); reflexivity.
Qed.

End Outcomes.

(** X9. A broker that times out is tried again every 5 seconds, for ever,
    and the device is never marked offline for it.  Against a broker that
    answers every connection with an error of the timeout class, a
    connection that is followed through [fuel] attempts opens [fuel]
    connections with the options of the first attempt, ends each of them,
    lets 5 seconds pass after each, leaves no entry for the device among
    the clients, and makes no call on [storage]: the tables are as they
    were. *)
Theorem a_timeout_is_retried_for_ever (fuel : nat) (device : Device.t) (w : World) :
  alwaysTimesOut w ->
  let w' := (connectToDevice fuel device w).2 in
  (connectToDevice fuel device w).1 = Return tt
  /\ storage w' = storage w
  /\ calls (env w') = calls (env w)
  /\ connections (env w') =
       connections (env w) ++ repeat (closed device Primary (firstVersion device) 5000) fuel
  /\ clock (env w') = clock (env w) + 5000 * Z.of_nat fuel
  /\ (fuel <> 0%nat ->
      clients (service w') = delete (Device.deviceId device) (clients (service w))).
Proof.
  revert w. induction fuel as [|fuel IH]; intros w Hb.
  - cbn. rewrite app_nil_r. repeat split; try reflexivity; [lia | congruence].
  - destruct (Hb (length (connections (env w)))) as (message & B & T).
    cbv zeta. rewrite (connect_timed_out device fuel w message B T).
    destruct (timedOutOnce_effects device w) as (H1 & H2 & H3 & H4 & H5 & H6 & _).
    assert (Hb' : alwaysTimesOut (timedOutOnce device w)).
    { intros h. unfold alwaysTimesOut in Hb. rewrite H5. apply Hb. }
    destruct (IH (timedOutOnce device w) Hb') as (G1 & G2 & G3 & G4 & G5 & G6).
    split; [exact G1|]. split; [now rewrite G2|]. split; [now rewrite G3|].
    split; [|split].
    + rewrite G4, H3, <- app_assoc. reflexivity.
    + rewrite G5, H4. lia.
    + intros _. destruct fuel as [|fuel'].
      * exact H2.
      * rewrite G6 by discriminate. rewrite H2. apply delete_delete_eq.
Qed.

Lemma a_timeout_is_retried_for_ever_witness :
  let w := Sample.make Sample.never (fun _ => ReplyError "connack timeout") [] in
  let w' := (connectToDevice 3 Sample.D2 w).2 in
  (connectToDevice 3 Sample.D2 w).1 = Return tt
  /\ storage w' = storage w
  /\ calls (env w') = calls (env w)
  /\ connections (env w') =
       connections (env w) ++ repeat (closed Sample.D2 Primary (firstVersion Sample.D2) 5000) 3
  /\ clock (env w') = clock (env w) + 5000 * Z.of_nat 3
  /\ (3%nat <> 0%nat ->
      clients (service w') = delete (Device.deviceId Sample.D2) (clients (service w))).
Proof.
  apply (a_timeout_is_retried_for_ever 3 Sample.D2
           (Sample.make Sample.never (fun _ => ReplyError "connack timeout") [])).
  intros h. exists "connack timeout". split; reflexivity.
Defined.

(** X10. An error that is neither a timeout nor a protocol error marks the
    device offline at once and leaves the connection open: the client is
    not ended and stays registered for the device.  On a storage that
    answers, the row of the device gets the status offline and the instant
    of the error as [lastSeen], one offline event is logged and the row is
    broadcast.  When the update of the row throws, the error is swallowed,
    no offline event is logged and nothing is broadcast; the tables are as
    they were when the UPDATE failed, and the row is offline already when
    it is the SELECT after the UPDATE that failed. *)
Theorem a_plain_error_marks_the_device_offline
    (fuel : nat) (device : Device.t) (message : string) (w : World) :
  broker (env w) (length (connections (env w))) = ReplyError message ->
  isTimeoutError message = false ->
  isProtocolError message = false ->
  let w1 := connectedTo device Primary (firstVersion device) 5000 w in
  let w' := (connectToDevice (S fuel) device w).2 in
  let update := UpdateDevice (Device.id device) (offlineAt (clock (env w))) in
  (reliable w ->
   connectToDevice (S fuel) device w = (Return tt, markedOffline device w1))
  /\ (fails w 0 update = true ->
      connectToDevice (S fuel) device w =
        (Return tt,
         emit (ELog "Failed to update device status on MQTT error")
           (refused device (offlineAt (clock (env w))) w1))
      /\ offlineEvents (storage w') = offlineEvents (storage w)
      /\ trace w' =
           trace w1 ++ [ EStorage update false;
                         ELog "Failed to update device status on MQTT error" ]
      /\ (wrote w 0 update = false -> storage w' = storage w)
      /\ (wrote w 0 update = true ->
          devices (storage w') =
            map (fun d => if Device.id d =? Device.id device
                          then Device.merge d (offlineAt (clock (env w))) else d)
                (devices (storage w))))
  /\ connections (env w1) =
       connections (env w) ++ [opened device Primary (firstVersion device) 5000]
  /\ clients (service w1) !! Device.deviceId device = Some (length (connections (env w))).
Proof.
  intros B T P w1 w' update. subst w'. rewrite connect_answered. cbv zeta.
  rewrite B, T, P. fold w1.
  split; [|split; [|split]].
  - intros Hr. unfold try_catch. rewrite markOffline_reliable; [reflexivity|].
    intros n c. apply Hr.
  - intros F. unfold try_catch. rewrite markOffline_refused by exact F.
    split; [reflexivity|].
    cbn [snd log modify emit storage refused trace].
    change (clock (env w1)) with (clock (env w)). fold update.
    change (wrote w1 0 update) with (wrote w 0 update).
    split; [now destruct (wrote w 0 update)|].
    split; [now rewrite <- app_assoc|].
    destruct (wrote w 0 update); split; intros E;
      solve [discriminate E | reflexivity].
  - reflexivity.
  - cbn. apply lookup_insert_eq.
Qed.

Lemma a_plain_error_marks_the_device_offline_witness :
  let w := Sample.make Sample.never (fun _ => ReplyError "ECONNREFUSED") [] in
  let w1 := connectedTo Sample.D2 Primary (firstVersion Sample.D2) 5000 w in
  let late := Sample.makeLate (fun _ _ => true) (fun _ => ReplyError "ECONNREFUSED") [] in
  connectToDevice 1 Sample.D2 w = (Return tt, markedOffline Sample.D2 w1)
  /\ In (Device.merge Sample.D2 (offlineAt 100000))
        (devices (storage (connectToDevice 1 Sample.D2 w).2))
  /\ map ended (connections (env (connectToDevice 1 Sample.D2 w).2)) = [false]
  /\ In (Device.merge Sample.D2 (offlineAt 100000))
        (devices (storage (connectToDevice 1 Sample.D2 late).2))
  /\ offlineEvents (storage (connectToDevice 1 Sample.D2 late).2) = [].
Proof.
  intros w w1 late.
  destruct (a_plain_error_marks_the_device_offline 0 Sample.D2 "ECONNREFUSED" w
              eq_refl eq_refl eq_refl) as (H & _).
  destruct (a_plain_error_marks_the_device_offline 0 Sample.D2 "ECONNREFUSED" late
              eq_refl eq_refl eq_refl) as (_ & H' & _).
  destruct (H' eq_refl) as (_ & He & _ & _ & Hl).
  assert (Hr : reliable w) by (intros n c; reflexivity).
  rewrite (H Hr), He, (Hl eq_refl). split; [reflexivity|]. split; [cbn; tauto|].
  split; [reflexivity|]. split; [cbn; tauto | reflexivity].
Defined.

(** X11. When the broker accepts the connection, the topic of the device
    is subscribed to and, once the subscription is granted, the row of the
    device is set online with the instant of the connection as
    [lastSeen] and broadcast.  A subscription that is refused leaves the
    tables and the set of subscribed topics as they were.  When the update
    of the row throws, the topic is already recorded as subscribed, the
    rejection is handled by nobody and nothing is broadcast; the tables
    are as they were when the UPDATE failed, and the row is online already
    when it is the SELECT after the UPDATE that failed. *)
Theorem an_accepted_connection_sets_the_device_online
    (fuel : nat) (device : Device.t) (subscribeError : bool) (w : World) :
  broker (env w) (length (connections (env w))) = ReplyConnect subscribeError ->
  let w1 := connectedTo device Primary (firstVersion device) 5000 w in
  let w' := (connectToDevice (S fuel) device w).2 in
  let t := clock (env w) in
  let update := UpdateDevice (Device.id device) (onlineAt t) in
  connectToDevice (S fuel) device w =
    (Return tt,
     if subscribeError then emit (ESubscribe (Device.mqttTopic device) false) w1
     else if fails w 0 update
          then emit (EUnhandledRejection "storage")
                 (refused device (onlineAt t) (subscribed device w1))
          else updated device (onlineAt t) (subscribed device w1))
  /\ (subscribeError = false -> fails w 0 update = true ->
      trace w' =
        trace w1 ++ [ ESubscribe (Device.mqttTopic device) true;
                      EStorage update false;
                      EUnhandledRejection "storage" ]
      /\ (wrote w 0 update = false -> storage w' = storage w)
      /\ (wrote w 0 update = true ->
          devices (storage w') =
            map (fun d => if Device.id d =? Device.id device
                          then Device.merge d (onlineAt t) else d)
                (devices (storage w)))).
Proof.
  intros B w1 w' t update. subst w'. rewrite connect_answered. cbv zeta.
  rewrite B. fold w1. rewrite onConnect_effects.
  change (clock (env w1)) with t. change (fails w1 0) with (fails w 0). fold update.
  split; [reflexivity|].
  intros -> F. rewrite F.
  cbn [snd emit storage refused trace subscribed with_service]. fold update.
  change (wrote _ 0 update) with (wrote w 0 update).
  split; [now rewrite <- !app_assoc|].
  destruct (wrote w 0 update); split; intros E;
    solve [discriminate E | reflexivity].
Qed.

Lemma an_accepted_connection_sets_the_device_online_witness :
  let w := Sample.make Sample.never (fun _ => ReplyConnect false) [] in
  let w' := (connectToDevice 1 Sample.D2 w).2 in
  let late := Sample.makeLate (fun _ _ => true) (fun _ => ReplyConnect false) [] in
  In (Device.merge Sample.D2 (onlineAt 100000)) (devices (storage w'))
  /\ subscribedTopics (service w') = {[ "sensors" ]} ∪ ∅
  /\ offlineEvents (storage w') = []
  /\ In (Device.merge Sample.D2 (onlineAt 100000))
        (devices (storage (connectToDevice 1 Sample.D2 late).2))
  /\ In (EUnhandledRejection "storage") (trace (connectToDevice 1 Sample.D2 late).2).
Proof.
  intros w w' late. subst w'.
  destruct (an_accepted_connection_sets_the_device_online 0 Sample.D2 false w eq_refl)
    as [H _].
  destruct (an_accepted_connection_sets_the_device_online 0 Sample.D2 false late eq_refl)
    as [_ H'].
  destruct (H' eq_refl eq_refl) as (Ht & _ & Hl).
  rewrite H, Ht, (Hl eq_refl).
  cbn. split; [tauto|]. split; [reflexivity|]. split; [reflexivity|]. split; tauto.
Defined.

(** X12. The ladder stops at the first answer that is not a protocol
    error.  After the first connection was refused for its protocol, a
    broker that accepts version 4 has the device set online on the second
    connection, which is opened at once, without reconnection period; and
    any other error on a rung of the ladder, a timeout included, ends that
    connection and marks the device offline without trying a further
    version or waiting. *)
Theorem the_ladder_stops_at_the_first_other_answer
    (fuel : nat) (device : Device.t) (message : string) (w : World) :
  broker (env w) (length (connections (env w))) = ReplyError message ->
  isTimeoutError message = false ->
  isProtocolError message = true ->
  let w1 := rejected device Primary (firstVersion device) 5000 w in
  let second := broker (env w) (S (length (connections (env w)))) in
  (forall subscribeError,
     second = ReplyConnect subscribeError ->
     connectToDevice (S fuel) device w =
       (Return tt, (onConnect device subscribeError (connectedTo device (Retry 4) 4 0 w1)).2))
  /\ (forall message',
        second = ReplyError message' ->
        isProtocolError message' = false ->
        reliable w ->
        connectToDevice (S fuel) device w =
          (Return tt, markedOffline device (rejected device (Retry 4) 4 0 w1))).
Proof.
  intros B T P w1 second.
  assert (Hstart : connectToDevice (S fuel) device w =
                     detached (retryWithDifferentProtocol device 4) w1).
  { apply connect_rejected with (message := message); assumption. }
  assert (Hlen : length (connections (env w1)) = S (length (connections (env w)))).
  { subst w1. cbn. rewrite length_app. cbn. lia. }
  assert (Hbroker : broker (env w1) = broker (env w)) by reflexivity.
  split.
  - intros subscribeError B2. rewrite Hstart.
    unfold detached, try_catch. rewrite retry_answered by lia. cbv zeta.
    rewrite Hbroker, Hlen. fold second. rewrite B2.
    rewrite onConnect_effects. reflexivity.
  - intros message' B2 P2 Hr. rewrite Hstart.
    unfold detached, try_catch. rewrite retry_answered by lia. cbv zeta.
    rewrite Hbroker, Hlen. fold second. rewrite B2.
    rewrite <- Hlen. rewrite connection_ended. rewrite P2.
    unfold try_catch. rewrite markOffline_reliable; [reflexivity|].
    intros n c. apply Hr.
Qed.

Lemma the_ladder_stops_at_the_first_other_answer_witness :
  let reply h := match h with
                 | O => ReplyError "Invalid header flag bits"
                 | _ => ReplyError "connack timeout"
                 end in
  let w := Sample.make Sample.never reply [] in
  let w1 := rejected Sample.D2 Primary (firstVersion Sample.D2) 5000 w in
  connectToDevice 1 Sample.D2 w =
    (Return tt, markedOffline Sample.D2 (rejected Sample.D2 (Retry 4) 4 0 w1))
  /\ length (connections (env (connectToDevice 1 Sample.D2 w).2)) = 2%nat.
Proof.
  intros reply w w1.
  destruct (the_ladder_stops_at_the_first_other_answer 0 Sample.D2
              "Invalid header flag bits" w eq_refl eq_refl eq_refl) as (_ & H).
  assert (Hr : reliable w) by (intros n c; reflexivity).
  rewrite (H "connack timeout" eq_refl eq_refl Hr). split; reflexivity.
Defined.

(** ** Which connections are opened *)

Section Owners.

Variable P : string -> Prop.

Lemma opensOnlyFor_same w w' :
  connections (env w') = connections (env w) -> opensOnlyFor P w w'.
Proof. intros H. exists []. unfold ownersAdded. rewrite H, app_nil_r. now split. Qed.

Lemma opensOnlyFor_refl w : opensOnlyFor P w w.
Proof. now apply opensOnlyFor_same. Qed.

Lemma opensOnlyFor_trans a b c :
  opensOnlyFor P a b -> opensOnlyFor P b c -> opensOnlyFor P a c.
Proof.
  intros (o1 & H1 & F1) (o2 & H2 & F2). exists (o1 ++ o2). unfold ownersAdded in *.
  split; [now rewrite H2, H1, app_assoc | now apply Forall_app].
Qed.

Lemma opensOnlyFor_query {A} c (run : Z -> Storage -> A * Storage) :
  keeps (opensOnlyFor P) (query c run).
Proof.
  apply keeps_query.
  - apply opensOnlyFor_trans.
  - intros. now apply opensOnlyFor_same.
  - intros f w Hf. apply opensOnlyFor_same. cbn. apply Hf.
  - intros. now apply opensOnlyFor_same.
Qed.

Lemma map_owner_end handle (l : list Client) :
  map owner
    (alter (fun c => {| owner := owner c; handlers := handlers c;
                        protocolVersion := protocolVersion c;
                        reconnectPeriod := reconnectPeriod c; ended := true |})
           handle l) = map owner l.
Proof.
  revert handle. induction l as [|c l IH]; intros [|handle]; cbn; try reflexivity.
  f_equal. apply IH.
Qed.

Lemma opensOnlyFor_end handle : keeps (opensOnlyFor P) (client_end handle).
Proof.
  intros w. exists []. split; [|constructor].
  unfold ownersAdded, client_end, bind, modify, log. cbn.
  rewrite map_owner_end, app_nil_r. reflexivity.
Qed.

Lemma opensOnlyFor_connect deviceId h version period :
  P deviceId -> keeps (opensOnlyFor P) (mqtt_connect deviceId h version period).
Proof.
  intros HP w. exists [deviceId]. split; [|now constructor].
  unfold ownersAdded, mqtt_connect. cbn. now rewrite map_app.
Qed.

Lemma opensOnlyFor_connectToDevice device fuel :
  P (Device.deviceId device) -> keeps (opensOnlyFor P) (connectToDevice fuel device).
Proof.
  intros HP.
  apply (keeps_connectToDevice (opensOnlyFor P)) with (allowed := P); try assumption.
  - apply opensOnlyFor_refl.
  - apply opensOnlyFor_trans.
  - intros. now apply opensOnlyFor_same.
  - intros f w Hf. apply opensOnlyFor_same. cbn. apply Hf.
  - intros id u. apply opensOnlyFor_query.
  - intros deviceId t. apply opensOnlyFor_query.
  - intros deviceId h version period Hd. now apply opensOnlyFor_connect.
  - apply opensOnlyFor_end.
  - intros. now apply opensOnlyFor_same.
  - intros. now apply opensOnlyFor_same.
Qed.

End Owners.

Lemma connectToDeviceBrokers_run fuel w :
  let asked ok :=
    emit (EStorage GetDevices ok) (with_env (fun e => set_calls (S (calls e)) e) w) in
  connectToDeviceBrokers fuel w =
    if fails w 0 GetDevices
    then (Return tt, emit (ELog "Failed to connect to device brokers") (asked false))
    else (Return tt,
          (for_of (List.filter (fun d => Device.isActive d) (devices (storage w)))
             (connectToDevice fuel) (asked true)).2).
Proof.
  cbv zeta. rewrite fails_0.
  unfold connectToDeviceBrokers, try_catch, bind, storage.getDevices, query.
  destruct (faults (env w) (calls (env w)) GetDevices) eqn:F; [reflexivity|].
  cbv beta iota zeta. cbn [storage devices emit with_env with_storage negb fst snd].
  match goal with
  | |- context [for_of ?l ?f ?x] =>
      replace x with (emit (EStorage GetDevices true)
                        (with_env (fun e => set_calls (S (calls e)) e) w))
        by (apply world_ext; reflexivity)
  end.
  destruct (returns_for_of
              (List.filter (fun d => Device.isActive d) (devices (storage w)))
              (connectToDevice fuel) (fun d => returns_connectToDevice d fuel)
              (emit (EStorage GetDevices true)
                 (with_env (fun e => set_calls (S (calls e)) e) w))) as [[] Hr].
  destruct (for_of _ _ _) as [c w2]. cbn in Hr. subst c. reflexivity.
Qed.

(** X13. At start only the active devices of the table are connected, and
    a table that cannot be read connects nobody.  Whatever the brokers and
    storage answer, every connection that [connectToDeviceBrokers] opens,
    the retries of the ladder and those after a timeout included, belongs
    to a device of the table that is active; when [getDevices] throws no
    connection is opened; the call returns in every case, so that
    [initialize] always arms the two timers. *)
Theorem only_active_devices_are_connected (fuel : nat) (w : World) :
  let w' := (connectToDeviceBrokers fuel w).2 in
  (connectToDeviceBrokers fuel w).1 = Return tt
  /\ opensOnlyFor (activeDevice w) w w'
  /\ (fails w 0 GetDevices = true -> connections (env w') = connections (env w))
  /\ (forall h, initialize fuel h w =
                  (Return (startDeviceTimeoutMonitor (startBatchProcessor h)), w')).
Proof.
  assert (Hinit : forall h,
            initialize fuel h w =
              (Return (startDeviceTimeoutMonitor (startBatchProcessor h)),
               (connectToDeviceBrokers fuel w).2)).
  { intros h. unfold initialize, try_catch, bind.
    rewrite connectToDeviceBrokers_run. cbv zeta.
    destruct (fails w 0 GetDevices); reflexivity. }
  cbv zeta. split; [|split; [|split; [|exact Hinit]]]; clear Hinit;
    rewrite connectToDeviceBrokers_run; cbv zeta;
    destruct (fails w 0 GetDevices) eqn:F; cbn [fst snd];
    try reflexivity; try discriminate.
  - now apply opensOnlyFor_same.
  - eapply opensOnlyFor_trans;
      [|apply (keeps_for_of (opensOnlyFor (activeDevice w)))].
    + now apply opensOnlyFor_same.
    + apply opensOnlyFor_refl.
    + apply opensOnlyFor_trans.
    + intros d Hd. apply filter_In in Hd. destruct Hd as [Hin Hact].
      apply opensOnlyFor_connectToDevice. exists d. auto.
Qed.

Example connections_of_the_sample_at_start :
  let w := Sample.make Sample.never Sample.rejecting [] in
  map owner (connections (env (connectToDeviceBrokers 1 w).2)) =
    concat (map (fun d => repeat d 3) ["D1"; "D2"; "D4"; "D5"; "D6"]).
Proof. vm_compute. reflexivity. Qed.

(** ** How many connections are opened *)

Section Counting.

Variable deviceId : string.

Lemma opens_weaken {A} (m : M A) b b' :
  (b <= b')%nat -> opensAtMost b deviceId m -> opensAtMost b' deviceId m.
Proof. intros Hle H w. destruct (H w) as (k & Hk & Ho). exists k. split; [lia | exact Ho]. Qed.

(** A computation that opens no connection. *)
Lemma opens_none {A} (m : M A) :
  keeps opensNothing m -> opensAtMost 0 deviceId m.
Proof.
  intros H w. destruct (H w) as (owners & Ho & Hf). exists 0%nat. split; [lia|].
  destruct owners as [|o l]; [exact Ho|]. inversion Hf as [|? ? []].
Qed.

Lemma opens_bind {A B} (m : M A) (k : A -> M B) b1 b2 :
  opensAtMost b1 deviceId m -> (forall a, opensAtMost b2 deviceId (k a)) ->
  opensAtMost (b1 + b2) deviceId (bind m k).
Proof.
  intros Hm Hk w. unfold bind. destruct (Hm w) as (k1 & Hk1 & Ho1).
  destruct (m w) as [[a|e] w1]; cbn in *.
  - destruct (Hk a w1) as (k2 & Hk2 & Ho2). exists (k1 + k2)%nat. split; [lia|].
    unfold ownersAdded in *. now rewrite Ho2, Ho1, <- app_assoc, repeat_app.
  - exists k1. split; [lia | exact Ho1].
Qed.

Lemma opens_try_catch {A} (m : M A) (h : string -> M A) b1 b2 :
  opensAtMost b1 deviceId m -> (forall e, opensAtMost b2 deviceId (h e)) ->
  opensAtMost (b1 + b2) deviceId (try_catch m h).
Proof.
  intros Hm Hh w. unfold try_catch. destruct (Hm w) as (k1 & Hk1 & Ho1).
  destruct (m w) as [[a|e] w1]; cbn in *.
  - exists k1. split; [lia | exact Ho1].
  - destruct (Hh e w1) as (k2 & Hk2 & Ho2). exists (k1 + k2)%nat. split; [lia|].
    unfold ownersAdded in *. now rewrite Ho2, Ho1, <- app_assoc, repeat_app.
Qed.

Lemma opens_one h version period :
  opensAtMost 1 deviceId (mqtt_connect deviceId h version period).
Proof.
  intros w. exists 1%nat. split; [lia|]. unfold ownersAdded, mqtt_connect. cbn.
  now rewrite map_app.
Qed.

End Counting.

Section CountingFor.

Variable device : Device.t.



Lemma silent_modify f :
  (forall w, connections (env (f w)) = connections (env w)) -> keeps opensNothing (modify f).
Proof. intros H w. apply opensOnlyFor_same. apply H. Qed.

Lemma silent_log e : keeps opensNothing (log e).
Proof. now apply silent_modify. Qed.

Lemma silent_markOffline : keeps opensNothing (markOffline device).
Proof.
  apply keeps_markOffline.
  - apply opensOnlyFor_refl.
  - apply opensOnlyFor_trans.
  - intros. now apply opensOnlyFor_same.
  - intros id u. apply opensOnlyFor_query.
  - intros deviceId t. apply opensOnlyFor_query.
Qed.

Lemma silent_onConnect subscribeError : keeps opensNothing (onConnect device subscribeError).
Proof.
  apply keeps_onConnect.
  - apply opensOnlyFor_refl.
  - apply opensOnlyFor_trans.
  - intros. now apply opensOnlyFor_same.
  - intros id u. apply opensOnlyFor_query.
  - intros. now apply opensOnlyFor_same.
Qed.

Lemma opens_open h version period :
  opensAtMost 1 (Device.deviceId device)
    (try_catch
       (client <- mqtt_connect (Device.deviceId device) h version period ;;
        modify (with_service (fun s =>
          set_clients (<[Device.deviceId device := client]> (clients s)) s)) ;;
        ret (Some client))
       (fun _ => ret None)).
Proof.
  apply (opens_try_catch _ _ _ 1 0).
  - apply (opens_bind _ _ _ 1 0); [apply opens_one|]. intros client.
    apply (opens_bind _ _ _ 0 0).
    + apply opens_none. now apply silent_modify.
    + intros _. apply opens_none. apply keeps_ret, opensOnlyFor_refl.
  - intros e. apply opens_none. apply keeps_ret, opensOnlyFor_refl.
Qed.

Lemma opens_retryWithDifferentProtocol n : forall v,
  Z.to_nat (6 - v) = n ->
  opensAtMost n (Device.deviceId device) (retryWithDifferentProtocol device v).
Proof.
  induction n as [n IH] using lt_wf_ind. intros v Hn.
  rewrite retry_unfold. destruct (Z_gt_dec v 5).
  - apply (opens_weaken _ _ 0); [lia|]. apply opens_none, silent_markOffline.
  - destruct n as [|n]; [lia|].
    apply (opens_bind _ _ _ 1 n); [apply opens_open|].
    intros [client|]; [|apply (opens_weaken _ _ 0); [lia|];
                         apply opens_none, keeps_ret, opensOnlyFor_refl].
    apply (opens_bind _ _ _ 0 n).
    { apply opens_none, keeps_gets, opensOnlyFor_refl. }
    intros [subscribeError|message|].
    + apply (opens_weaken _ _ 0); [lia|]. apply opens_none, silent_onConnect.
    + apply (opens_bind _ _ _ 0 n); [apply opens_none, opensOnlyFor_end|]. intros _.
      destruct (isProtocolError message).
      * unfold setTimeout.
        apply (opens_bind _ _ _ 0 n); [apply opens_none, silent_log|]. intros _.
        apply (opens_bind _ _ _ 0 n); [apply opens_none; now apply silent_modify|].
        intros _. replace n with (n + 0)%nat by lia.
        apply opens_try_catch; [|intros e; apply opens_none, silent_log].
        apply (IH n); lia.
      * apply (opens_weaken _ _ (0 + 0)); [lia|].
        apply opens_try_catch; [apply opens_none, silent_markOffline|].
        intros e. apply opens_none, silent_log.
    + apply (opens_weaken _ _ 0); [lia|].
      apply opens_none, keeps_ret, opensOnlyFor_refl.
Qed.

Lemma opens_connectToDevice fuel :
  opensAtMost (fuel + 2) (Device.deviceId device) (connectToDevice fuel device).
Proof.
  induction fuel as [|fuel IH]; cbn [connectToDevice].
  - apply (opens_weaken _ _ 0); [lia|]. apply opens_none, keeps_ret, opensOnlyFor_refl.
  - apply (opens_bind _ _ _ 1 (fuel + 2)); [apply opens_open|].
    intros [client|]; [|apply (opens_weaken _ _ 0); [lia|];
                         apply opens_none, keeps_ret, opensOnlyFor_refl].
    apply (opens_bind _ _ _ 0 (fuel + 2)).
    { apply opens_none, keeps_gets, opensOnlyFor_refl. }
    intros [subscribeError|message|].
    + apply (opens_weaken _ _ 0); [lia|]. apply opens_none, silent_onConnect.
    + destruct (isTimeoutError message); [|destruct (isProtocolError message)].
      * apply (opens_bind _ _ _ 0 (fuel + 2)); [apply opens_none, opensOnlyFor_end|].
        intros _.
        apply (opens_bind _ _ _ 0 (fuel + 2)); [apply opens_none; now apply silent_modify|].
        intros _. unfold setTimeout.
        apply (opens_bind _ _ _ 0 (fuel + 2)); [apply opens_none, silent_log|]. intros _.
        apply (opens_bind _ _ _ 0 (fuel + 2)); [apply opens_none; now apply silent_modify|].
        intros _. exact IH.
      * apply (opens_bind _ _ _ 0 (fuel + 2)); [apply opens_none, opensOnlyFor_end|].
        intros _. apply (opens_weaken _ _ (2 + 0)); [lia|].
        apply opens_try_catch; [|intros e; apply opens_none, silent_log].
        now apply (opens_retryWithDifferentProtocol 2 4).
      * apply (opens_weaken _ _ (0 + 0)); [lia|].
        apply opens_try_catch; [apply opens_none, silent_markOffline|].
        intros e. apply opens_none, silent_log.
    + apply (opens_weaken _ _ 0); [lia|].
      apply opens_none, keeps_ret, opensOnlyFor_refl.
Qed.

End CountingFor.

(** X14. A device is never tried more than three times in a row.
    Whatever the broker and storage answer, a connection to a device that
    is followed through [fuel] attempts of the first kind (one, and one
    more after each timeout) opens at most [fuel + 2] connections, all of
    them for that device; the ladder started at protocol version [v] opens
    at most [6 - v] of them, so two from version 4; and a connection
    whose timeouts are not followed opens at most three. *)
Theorem a_connection_opens_at_most_three_clients (device : Device.t) :
  (forall fuel,
     opensAtMost (fuel + 2) (Device.deviceId device) (connectToDevice fuel device))
  /\ (forall v,
        opensAtMost (Z.to_nat (6 - v)) (Device.deviceId device)
          (retryWithDifferentProtocol device v))
  /\ opensAtMost 3 (Device.deviceId device) (addDeviceConnection 1 device).
Proof.
  split; [|split].
  - intros fuel. apply opens_connectToDevice.
  - intros v. now apply opens_retryWithDifferentProtocol.
  - apply (opens_connectToDevice device 1).
Qed.

(** ** Further properties of the cleanup scheduler *)

Section MoreScheduler.
Import CleanupScheduler.

Ltac run_cleanup :=
  unfold checkAndRunCleanup, runCleanup, setEnabled, try_catch, bind,
    storage.getCleanupSchedule, storage.clearAllDeviceData, storage.updateCleanupSchedule,
    try_catch, query, Date_now, gets, log, modify, ret, throw; cbn.

Lemma wipes_app w l : 
  length (List.filter isWipe (trace w ++ l)) = (wipes w + length (List.filter isWipe l))%nat.
Proof. unfold wipes. now rewrite List.filter_app, length_app. Qed.

(** One firing of the timer: 60 seconds pass and the check runs. *)
Lemma run_S k w :
  run (S k) w = run k (checkAndRunCleanup (later CHECK_INTERVAL_MS w)).2.
Proof.
  cbn [run]. unfold bind at 1, setTimeout, bind at 1 2, log, modify.
  fold (later CHECK_INTERVAL_MS w).
  pose proof (tick_returns (later CHECK_INTERVAL_MS w)) as Hr.
  destruct (checkAndRunCleanup _) as [c w2]. cbn in Hr. subst c. reflexivity.
Qed.

(** A check that finds nothing due makes no other call than the reading
    of the schedule. *)
Lemma tick_idle w :
  dueAt (clock (env w)) w = false ->
  let w' := (checkAndRunCleanup w).2 in
  storage w' = storage w /\ wipes w' = wipes w
  /\ clock (env w') = clock (env w) /\ faults (env w') = faults (env w).
Proof.
  unfold dueAt, schedule_of. intros Hd. run_cleanup.
  destruct (faults (env w) (calls (env w)) (GetCleanupSchedule CLEANUP_TASK_NAME)); cbn.
  { rewrite !wipes_app. cbn. repeat split; try reflexivity. lia. }
  destruct (cleanupSchedules (storage w) !! CLEANUP_TASK_NAME) as [s|]; cbn.
  2: { rewrite !wipes_app. cbn. repeat split; try reflexivity. lia. }
  destruct (CleanupSchedule.isEnabled s); cbn in *.
  2: { rewrite !wipes_app. cbn. repeat split; try reflexivity. lia. }
  destruct (CleanupSchedule.nextScheduledTime s) as [due|]; cbn.
  2: { rewrite !wipes_app. cbn. repeat split; try reflexivity. lia. }
  rewrite Hd. cbn. rewrite !wipes_app. cbn. repeat split; try reflexivity. lia.
Qed.

(** A check that finds the schedule due, on a storage that answers. *)
Lemma tick_wipes w s due :
  schedule_of w = Some s ->
  CleanupSchedule.isEnabled s = true ->
  CleanupSchedule.nextScheduledTime s = Some due ->
  due <= clock (env w) ->
  fails w 0 (GetCleanupSchedule CLEANUP_TASK_NAME) = false ->
  fails w 1 ClearAllDeviceData = false ->
  fails w 2 (UpdateCleanupSchedule CLEANUP_TASK_NAME (rescheduled (clock (env w)))) = false ->
  let w' := (checkAndRunCleanup w).2 in
  schedule_of w' = Some (CleanupSchedule.merge s (rescheduled (clock (env w))) (clock (env w)))
  /\ deviceData (storage w') = [] /\ wipes w' = S (wipes w)
  /\ clock (env w') = clock (env w) /\ faults (env w') = faults (env w).
Proof.
  rewrite fails_0, fails_1, fails_2. unfold schedule_of, rescheduled.
  intros Hs He Hn Hd F0 F1 F2.
  run_cleanup. rewrite F0. cbn. rewrite Hs, He. cbn. rewrite Hn. cbn.
  destruct (Z.geb_spec (clock (env w)) due) as [_|]; [|lia].
  cbn. rewrite F1. cbn. rewrite F2. cbn.
  rewrite lookup_alter_eq, Hs. unfold wipes. cbn.
  rewrite <- !app_assoc, List.filter_app, length_app. cbn.
  repeat split; try reflexivity. lia.
Qed.

(** A check that finds the schedule due and cannot write it back. *)
Lemma tick_not_rescheduled w s due :
  schedule_of w = Some s ->
  CleanupSchedule.isEnabled s = true ->
  CleanupSchedule.nextScheduledTime s = Some due ->
  due <= clock (env w) ->
  fails w 0 (GetCleanupSchedule CLEANUP_TASK_NAME) = false ->
  fails w 1 ClearAllDeviceData = false ->
  fails w 2 (UpdateCleanupSchedule CLEANUP_TASK_NAME (rescheduled (clock (env w)))) = true ->
  let w' := (checkAndRunCleanup w).2 in
  cleanupSchedules (storage w') = cleanupSchedules (storage w)
  /\ deviceData (storage w') = [] /\ wipes w' = S (wipes w)
  /\ clock (env w') = clock (env w) /\ faults (env w') = faults (env w).
Proof.
  rewrite fails_0, fails_1, fails_2. unfold schedule_of, rescheduled.
  intros Hs He Hn Hd F0 F1 F2.
  run_cleanup. rewrite F0. cbn. rewrite Hs, He. cbn. rewrite Hn. cbn.
  destruct (Z.geb_spec (clock (env w)) due) as [_|]; [|lia].
  cbn. rewrite F1. cbn. rewrite F2. cbn.
  unfold wipes. cbn.
  rewrite <- !app_assoc, List.filter_app, length_app. cbn.
  repeat split; try reflexivity. lia.
Qed.

Lemma dueAt_earlier t t' w : t <= t' -> dueAt t' w = false -> dueAt t w = false.
Proof.
  unfold dueAt. intros Hle. destruct (schedule_of w) as [s|]; [|reflexivity].
  destruct (CleanupSchedule.isEnabled s); [|reflexivity]. cbn.
  destruct (CleanupSchedule.nextScheduledTime s) as [due|]; [|reflexivity].
  intros H. destruct (Z.geb_spec t' due); [discriminate|].
  destruct (Z.geb_spec t due); [lia | reflexivity].
Qed.

Lemma idle_run k : forall w,
  dueAt (clock (env w) + Z.of_nat k * CHECK_INTERVAL_MS) w = false ->
  storage (run k w).2 = storage w /\ wipes (run k w).2 = wipes w.
Proof.
  induction k as [|k IH]; intros w Hd; [split; reflexivity|].
  rewrite run_S. set (w1 := later CHECK_INTERVAL_MS w).
  assert (H1 : dueAt (clock (env w1)) w1 = false).
  { apply (dueAt_earlier _ (clock (env w) + Z.of_nat (S k) * CHECK_INTERVAL_MS));
      [subst w1; cbn; unfold CHECK_INTERVAL_MS; lia | exact Hd]. }
  destruct (tick_idle w1 H1) as (Hst & Hw & Hc & _).
  set (w2 := (checkAndRunCleanup w1).2) in *.
  destruct (IH w2) as [Hst' Hw'].
  { unfold dueAt, schedule_of in *. rewrite Hst, Hc. subst w1. cbn.
    cbn in Hd. replace (clock (env w) + CHECK_INTERVAL_MS + Z.of_nat k * CHECK_INTERVAL_MS)
      with (clock (env w) + Z.of_nat (S k) * CHECK_INTERVAL_MS) by lia. exact Hd. }
  split; [now rewrite Hst', Hst|]. rewrite Hw', Hw. subst w1. unfold wipes. cbn.
  rewrite List.filter_app. cbn. now rewrite app_nil_r.
Qed.

End MoreScheduler.

(** X15. The timer wipes nothing before the schedule asks for it.  While
    the persisted schedule is missing, disabled, without a next scheduled
    time, or set to a time that the checks have not reached yet, any
    number of checks, 60 seconds apart, leaves all the tables as they were
    and does not even call [clearAllDeviceData], whatever storage
    answers. *)
Theorem the_timer_waits_for_the_schedule (k : nat) (w : World) :
  dueAt (clock (env w) + Z.of_nat k * CleanupScheduler.CHECK_INTERVAL_MS) w = false ->
  storage (CleanupScheduler.run k w).2 = storage w
  /\ wipes (CleanupScheduler.run k w).2 = wipes w.
Proof. intros Hd. destruct (idle_run k w Hd) as [H1 H2]. split; assumption. Qed.

Lemma the_timer_waits_for_the_schedule_witness :
  let w := (CleanupScheduler.setEnabled false Sample.world).2 in
  storage (CleanupScheduler.run 5 w).2 = storage w
  /\ wipes (CleanupScheduler.run 5 w).2 = wipes w.
Proof.
  apply (the_timer_waits_for_the_schedule 5
           (CleanupScheduler.setEnabled false Sample.world).2).
  vm_compute. reflexivity.
Defined.

Section Periods.
Import CleanupScheduler.

Lemma div_step k : (2880 <= k)%nat -> (k / 2880 = S ((k - 2880) / 2880))%nat.
Proof.
  intros H. replace k with ((k - 2880) + 1 * 2880)%nat at 1 by lia.
  rewrite Nat.div_add by lia. lia.
Qed.

(** The checks on a storage that answers, when the schedule falls due at
    the [j]-th of them. *)
Lemma punctual_run k : forall j w s due,
  reliable w ->
  schedule_of w = Some s ->
  CleanupSchedule.isEnabled s = true ->
  CleanupSchedule.nextScheduledTime s = Some due ->
  (1 <= j)%nat ->
  clock (env w) + (Z.of_nat j - 1) * CHECK_INTERVAL_MS < due ->
  due <= clock (env w) + Z.of_nat j * CHECK_INTERVAL_MS ->
  wipes (run k w).2 = (wipes w + if (k <? j)%nat then 0 else S ((k - j) / 2880))%nat.
Proof.
  induction k as [|k IH]; intros j w s due Hr Hs He Hn Hj Hlo Hhi.
  - cbn [run]. destruct (Nat.ltb_spec 0%nat j); [cbn; lia | lia].
  - rewrite run_S. set (w1 := later CHECK_INTERVAL_MS w).
    assert (Hc1 : clock (env w1) = clock (env w) + CHECK_INTERVAL_MS) by reflexivity.
    assert (Hw1 : wipes w1 = wipes w).
    { subst w1. unfold wipes. cbn. rewrite List.filter_app. cbn. now rewrite app_nil_r. }
    assert (Hr1 : reliable w1) by (intros n c; apply Hr).
    destruct (Nat.eq_dec j 1%nat) as [->|Hj1].
    + destruct (tick_wipes w1 s due) as (Hs2 & _ & Hw2 & Hc2 & Hf2); try assumption;
        try (unfold fails; apply Hr1).
      set (w2 := (checkAndRunCleanup w1).2) in *.
      rewrite (IH 2880%nat w2
                 (CleanupSchedule.merge s (rescheduled (clock (env w1))) (clock (env w1)))
                 (clock (env w1) + 172800 * 1000)); try assumption.
      * rewrite Hw2, Hw1. change (S k <? 1)%nat with false.
        replace (S k - 1)%nat with k by lia.
        destruct (Nat.ltb_spec k 2880%nat).
        -- rewrite Nat.div_small by lia. lia.
        -- rewrite (div_step k) by lia. lia.
      * intros n c. rewrite Hf2. apply Hr1.
      * reflexivity.
      * lia.
      * rewrite Hc2. unfold CHECK_INTERVAL_MS. lia.
      * rewrite Hc2. unfold CHECK_INTERVAL_MS. lia.
    + assert (Hd1 : dueAt (clock (env w1)) w1 = false).
      { unfold dueAt. change (schedule_of w1) with (schedule_of w). rewrite Hs, He, Hn. cbn.
        destruct (Z.geb_spec (clock (env w) + CHECK_INTERVAL_MS) due); [|reflexivity].
        unfold CHECK_INTERVAL_MS in *. lia. }
      destruct (tick_idle w1 Hd1) as (Hst & Hw2 & Hc2 & Hf2).
      set (w2 := (checkAndRunCleanup w1).2) in *.
      rewrite (IH (j - 1)%nat w2 s due); try assumption.
      * rewrite Hw2, Hw1.
        destruct (Nat.ltb_spec k (j - 1)); destruct (Nat.ltb_spec (S k) j); try lia.
        replace (k - (j - 1))%nat with (S k - j)%nat by lia. reflexivity.
      * intros n c. rewrite Hf2. apply Hr1.
      * unfold schedule_of. rewrite Hst. exact Hs.
      * lia.
      * rewrite Hc2, Hc1. unfold CHECK_INTERVAL_MS in *. lia.
      * rewrite Hc2, Hc1. unfold CHECK_INTERVAL_MS in *. lia.
Qed.

(** The checks when the wipe succeeds and the schedule cannot be written
    back. *)
Lemma stuck_run k : forall w s due,
  schedule_of w = Some s ->
  CleanupSchedule.isEnabled s = true ->
  CleanupSchedule.nextScheduledTime s = Some due ->
  due <= clock (env w) + CHECK_INTERVAL_MS ->
  (forall n, faults (env w) n (GetCleanupSchedule CLEANUP_TASK_NAME) = false) ->
  (forall n, faults (env w) n ClearAllDeviceData = false) ->
  (forall n u, faults (env w) n (UpdateCleanupSchedule CLEANUP_TASK_NAME u) = true) ->
  schedule_of (run k w).2 = Some s
  /\ wipes (run k w).2 = (wipes w + k)%nat
  /\ (k <> 0%nat -> deviceData (storage (run k w).2) = []).
Proof.
  induction k as [|k IH]; intros w s due Hs He Hn Hd FG FC FU.
  - cbn [run]. split; [exact Hs|]. split; [cbn; lia | congruence].
  - rewrite run_S. set (w1 := later CHECK_INTERVAL_MS w).
    assert (Hc1 : clock (env w1) = clock (env w) + CHECK_INTERVAL_MS) by reflexivity.
    assert (Hw1 : wipes w1 = wipes w).
    { subst w1. unfold wipes. cbn. rewrite List.filter_app. cbn. now rewrite app_nil_r. }
    destruct (tick_not_rescheduled w1 s due) as (Hs2 & Hd2 & Hw2 & Hc2 & Hf2);
      try assumption; try (unfold fails; first [apply FG | apply FC | apply FU]).
    set (w2 := (checkAndRunCleanup w1).2) in *.
    destruct (IH w2 s due) as (Hs3 & Hw3 & Hd3); try assumption.
    + unfold schedule_of. rewrite Hs2. exact Hs.
    + rewrite Hc2, Hc1. unfold CHECK_INTERVAL_MS in *. lia.
    + intros n. rewrite Hf2. apply FG.
    + intros n. rewrite Hf2. apply FC.
    + intros n u. rewrite Hf2. apply FU.
    + split; [exact Hs3|]. split; [rewrite Hw3, Hw2, Hw1; lia|].
      intros _. destruct k as [|k']; [exact Hd2|]. now apply Hd3.
Qed.

End Periods.

(** X16. With punctual checks on a storage that answers, the wipes recur
    every 2880 checks, that is every two days, without drift.  When the
    schedule is enabled and falls due at the first check, the table has
    been wiped once after checks 1 to 2880, twice after checks 2881 to
    5760, and so on: [k] checks make [(k + 2879) / 2880] wipes. *)
Theorem wipes_recur_every_2880_checks
    (k : nat) (w : World) (s : CleanupSchedule.t) (due : Z) :
  reliable w ->
  schedule_of w = Some s ->
  CleanupSchedule.isEnabled s = true ->
  CleanupSchedule.nextScheduledTime s = Some due ->
  clock (env w) < due <= clock (env w) + CleanupScheduler.CHECK_INTERVAL_MS ->
  wipes (CleanupScheduler.run k w).2 = (wipes w + (k + 2879) / 2880)%nat.
Proof.
  intros Hr Hs He Hn [Hlo Hhi].
  rewrite (punctual_run k 1%nat w s due); try assumption; try lia.
  f_equal. destruct (Nat.ltb_spec k 1%nat) as [Hk|Hk].
  - replace k with 0%nat by lia. reflexivity.
  - replace (k + 2879)%nat with ((k - 1) + 1 * 2880)%nat by lia.
    rewrite Nat.div_add by lia. lia.
Qed.

Lemma wipes_recur_every_2880_checks_witness :
  let w := with_env (set_clock 49000) Sample.world in
  wipes (CleanupScheduler.run 2881 w).2 = (wipes w + (2881 + 2879) / 2880)%nat.
Proof.
  intros w.
  apply (wipes_recur_every_2880_checks 2881 w Sample.schedule 50000).
  - intros n c. reflexivity.
  - reflexivity.
  - reflexivity.
  - reflexivity.
  - cbn. unfold CleanupScheduler.CHECK_INTERVAL_MS. lia.
Defined.

(** X17. A wipe whose rescheduling fails is repeated at every check.  When
    the schedule is due, the reading of the schedule and the wipe succeed
    and the update of the schedule throws, the readings are deleted and the
    schedule keeps the time that had fallen due; as long as the update
    keeps throwing, every check, 60 seconds apart, wipes the table again:
    [k] checks make [k] wipes. *)
Theorem a_wipe_that_cannot_be_rescheduled_is_repeated
    (k : nat) (w : World) (s : CleanupSchedule.t) (due : Z) :
  schedule_of w = Some s ->
  CleanupSchedule.isEnabled s = true ->
  CleanupSchedule.nextScheduledTime s = Some due ->
  due <= clock (env w) + CleanupScheduler.CHECK_INTERVAL_MS ->
  (forall n, faults (env w) n (GetCleanupSchedule CleanupScheduler.CLEANUP_TASK_NAME) = false) ->
  (forall n, faults (env w) n ClearAllDeviceData = false) ->
  (forall n u,
     faults (env w) n (UpdateCleanupSchedule CleanupScheduler.CLEANUP_TASK_NAME u) = true) ->
  schedule_of (CleanupScheduler.run k w).2 = Some s
  /\ wipes (CleanupScheduler.run k w).2 = (wipes w + k)%nat
  /\ (k <> 0%nat -> deviceData (storage (CleanupScheduler.run k w).2) = []).
Proof.
  intros Hs He Hn Hd FG FC FU.
  destruct (stuck_run k w s due Hs He Hn Hd FG FC FU) as (H1 & H2 & H3).
  split; [exact H1|]. split; [exact H2 | exact H3].
Qed.

Lemma a_wipe_that_cannot_be_rescheduled_is_repeated_witness :
  let w := Sample.make Sample.updateThrows Sample.silent [] in
  schedule_of (CleanupScheduler.run 3 w).2 = Some Sample.schedule
  /\ wipes (CleanupScheduler.run 3 w).2 = (wipes w + 3)%nat
  /\ (3%nat <> 0%nat -> deviceData (storage (CleanupScheduler.run 3 w).2) = []).
Proof.
  intros w.
  apply (a_wipe_that_cannot_be_rescheduled_is_repeated 3 w Sample.schedule 50000);
    try reflexivity.
  cbn. unfold CleanupScheduler.CHECK_INTERVAL_MS. lia.
Defined.

Section Switches.
Import CleanupScheduler.

Ltac run_switch :=
  unfold runCleanup, setEnabled, resetSchedule, try_catch, bind,
    storage.getCleanupSchedule, storage.clearAllDeviceData, storage.updateCleanupSchedule,
    try_catch, query, Date_now, gets, log, modify, ret, throw; cbn.

Lemma setEnabled_effects enabled w :
  let w' := (setEnabled enabled w).2 in
  if fails w 0 (UpdateCleanupSchedule CLEANUP_TASK_NAME (switched enabled))
  then (setEnabled enabled w).1 = Throw "storage" /\ storage w' = storage w
  else (setEnabled enabled w).1 = Return tt
       /\ storage w' =
            set_cleanupSchedules
              (alter (fun r => CleanupSchedule.merge r (switched enabled) (clock (env w)))
                     CLEANUP_TASK_NAME (cleanupSchedules (storage w)))
              (storage w).
Proof.
  rewrite fails_0. unfold switched. run_switch.
  destruct (faults (env w) (calls (env w)) _); cbn; split; reflexivity.
Qed.

Lemma runCleanup_effects w :
  fails w 0 ClearAllDeviceData = false ->
  fails w 1 (UpdateCleanupSchedule CLEANUP_TASK_NAME (rescheduled (clock (env w)))) = false ->
  (runCleanup w).1 = Return (Z.of_nat (length (deviceData (storage w))))
  /\ storage (runCleanup w).2 =
       set_cleanupSchedules
         (alter (fun r => CleanupSchedule.merge r (rescheduled (clock (env w))) (clock (env w)))
                CLEANUP_TASK_NAME (cleanupSchedules (storage w)))
         (set_deviceData [] (currentDeviceDataId (storage w)) (storage w)).
Proof.
  rewrite fails_0, fails_1. unfold rescheduled. intros F0 F1.
  run_switch. rewrite F0. cbn. rewrite F1. cbn. split; reflexivity.
Qed.

End Switches.

(** X18. Enabling or disabling the schedule writes nothing but the flag.
    When the update succeeds, the record of the task keeps its last
    execution time and its next scheduled time, and a missing record stays
    missing: the call returns normally without creating one.  When the
    update throws, the error is thrown again to the caller and the tables
    are as they were.  Once disabled, the schedule is left alone by any
    number of checks, however late. *)
Theorem setEnabled_only_switches_the_flag (enabled : bool) (w : World) :
  let w' := (CleanupScheduler.setEnabled enabled w).2 in
  let call := UpdateCleanupSchedule CleanupScheduler.CLEANUP_TASK_NAME (switched enabled) in
  (fails w 0 call = true ->
     (CleanupScheduler.setEnabled enabled w).1 = Throw "storage" /\ storage w' = storage w)
  /\ (fails w 0 call = false ->
        (CleanupScheduler.setEnabled enabled w).1 = Return tt
        /\ match schedule_of w with
           | Some s =>
               exists s', schedule_of w' = Some s'
                 /\ CleanupSchedule.isEnabled s' = enabled
                 /\ CleanupSchedule.lastExecutionTime s' = CleanupSchedule.lastExecutionTime s
                 /\ CleanupSchedule.nextScheduledTime s' = CleanupSchedule.nextScheduledTime s
           | None => schedule_of w' = None
           end
        /\ deviceData (storage w') = deviceData (storage w)
        /\ (enabled = false ->
            forall k, storage (CleanupScheduler.run k w').2 = storage w'
                      /\ wipes (CleanupScheduler.run k w').2 = wipes w')).
Proof.
  intros w' call. pose proof (setEnabled_effects enabled w) as H. cbv zeta in H.
  fold call in H. fold w' in H. split; intros F; rewrite F in H.
  - exact H.
  - destruct H as [Hr Hst]. split; [exact Hr|].
    assert (Hsched : schedule_of w' =
                       option_map (fun r => CleanupSchedule.merge r (switched enabled)
                                              (clock (env w))) (schedule_of w)).
    { unfold schedule_of. rewrite Hst. cbn. rewrite lookup_alter_eq.
      now destruct (cleanupSchedules (storage w) !! _). }
    split; [|split].
    + destruct (schedule_of w) as [s|]; [|exact Hsched].
      eexists. split; [exact Hsched|]. cbn. repeat split.
    + rewrite Hst. reflexivity.
    + intros -> k. apply idle_run. unfold dueAt. rewrite Hsched.
      destruct (schedule_of w); reflexivity.
Qed.

Lemma setEnabled_only_switches_the_flag_witness :
  let w' := (CleanupScheduler.setEnabled false Sample.world).2 in
  (CleanupScheduler.setEnabled false Sample.world).1 = Return tt
  /\ (exists s', schedule_of w' = Some s'
        /\ CleanupSchedule.isEnabled s' = false
        /\ CleanupSchedule.lastExecutionTime s' = None
        /\ CleanupSchedule.nextScheduledTime s' = Some 50000)
  /\ storage (CleanupScheduler.run 10 w').2 = storage w'.
Proof.
  intros w'.
  destruct (setEnabled_only_switches_the_flag false Sample.world) as [_ H].
  destruct (H eq_refl) as (Hr & Hs & _ & Hk).
  split; [exact Hr|]. split; [exact Hs|]. apply (Hk eq_refl 10%nat).
Defined.

(** X19. A manual cleanup that succeeds deletes every reading whatever the
    schedule says: it does not look at whether the schedule is enabled or
    due.  It returns the number of readings that the table held, leaves
    the table empty and the devices and offline events untouched, leaves a
    disabled schedule disabled, and writes no record when the task has
    none. *)
Theorem a_manual_cleanup_ignores_the_schedule (w : World) :
  fails w 0 ClearAllDeviceData = false ->
  fails w 1 (UpdateCleanupSchedule CleanupScheduler.CLEANUP_TASK_NAME
               (rescheduled (clock (env w)))) = false ->
  let w' := (CleanupScheduler.runCleanup w).2 in
  (CleanupScheduler.runCleanup w).1 = Return (Z.of_nat (length (deviceData (storage w))))
  /\ deviceData (storage w') = []
  /\ devices (storage w') = devices (storage w)
  /\ offlineEvents (storage w') = offlineEvents (storage w)
  /\ match schedule_of w with
     | Some s =>
         exists s', schedule_of w' = Some s'
           /\ CleanupSchedule.isEnabled s' = CleanupSchedule.isEnabled s
           /\ CleanupSchedule.lastExecutionTime s' = Some (clock (env w))
     | None => schedule_of w' = None
     end.
Proof.
  intros F0 F1 w'. destruct (runCleanup_effects w F0 F1) as [Hr Hst]. fold w' in Hst.
  split; [exact Hr|]. rewrite Hst. cbn. repeat split.
  unfold schedule_of. rewrite Hst. cbn. rewrite lookup_alter_eq.
  destruct (cleanupSchedules (storage w) !! _) as [s|]; [|reflexivity].
  eexists. split; [reflexivity|]. split; reflexivity.
Qed.

Lemma a_manual_cleanup_ignores_the_schedule_witness :
  let w := (CleanupScheduler.setEnabled false
              (with_env (set_clock 10) Sample.world)).2 in
  let w' := (CleanupScheduler.runCleanup w).2 in
  dueAt (clock (env w)) w = false
  /\ (CleanupScheduler.runCleanup w).1 = Return 2
  /\ deviceData (storage w') = []
  /\ devices (storage w') = devices (storage w).
Proof.
  intros w w'.
  destruct (a_manual_cleanup_ignores_the_schedule w eq_refl eq_refl)
    as (H1 & H2 & H3 & _).
  split; [reflexivity|]. split; [exact H1|]. split; [exact H2 | exact H3].
Defined.

Section Resets.
Import CleanupScheduler.

Ltac run_reset :=
  unfold resetSchedule, try_catch, bind,
    storage.getCleanupSchedule, storage.updateCleanupSchedule,
    try_catch, query, Date_now, gets, log, modify, ret, throw; cbn.

Lemma resetSchedule_effects zone w :
  let read := if fails w 0 (GetCleanupSchedule CLEANUP_TASK_NAME) then None
              else schedule_of w in
  let next := match read ≫= CleanupSchedule.lastExecutionTime with
              | Some last => calculateNextScheduledTimeFromLast last
              | None => calculateNextScheduledTime zone (clock (env w))
              end in
  let w' := (resetSchedule zone w).2 in
  if fails w 1 (UpdateCleanupSchedule CLEANUP_TASK_NAME (resetTo next))
  then (resetSchedule zone w).1 = Throw "storage" /\ storage w' = storage w
  else (resetSchedule zone w).1 = Return tt
       /\ storage w' =
            set_cleanupSchedules
              (alter (fun r => CleanupSchedule.merge r (resetTo next) (clock (env w)))
                     CLEANUP_TASK_NAME (cleanupSchedules (storage w)))
              (storage w).
Proof.
  cbv zeta. rewrite fails_0, fails_1. unfold schedule_of, resetTo. run_reset.
  destruct (faults (env w) (calls (env w)) (GetCleanupSchedule CLEANUP_TASK_NAME)); cbn.
  - destruct (faults (env w) (S (calls (env w))) _); cbn; split; reflexivity.
  - destruct (cleanupSchedules (storage w) !! CLEANUP_TASK_NAME) as [s|]; cbn.
    + destruct (CleanupSchedule.lastExecutionTime s) as [last|]; cbn;
        destruct (faults (env w) (S (calls (env w))) _); cbn; split; reflexivity.
    + destruct (faults (env w) (S (calls (env w))) _); cbn; split; reflexivity.
Qed.

End Resets.

(** X20. A reset puts the next scheduled time two days after the last
    execution that the record carries, however long ago that was, and
    enables the schedule; it keeps the last execution time.  Without a
    record that can be read, or without a last execution in it, the time
    is computed from the current instant instead.  A missing record stays
    missing although the call returns normally, and an update that throws
    is thrown again with the tables as they were. *)
Theorem a_reset_counts_from_the_last_execution (zone : TimeZone) (w : World) :
  let read := if fails w 0 (GetCleanupSchedule CleanupScheduler.CLEANUP_TASK_NAME)
              then None else schedule_of w in
  let next := match read ≫= CleanupSchedule.lastExecutionTime with
              | Some last => last + 172800 * 1000
              | None => calculateNextScheduledTime zone (clock (env w))
              end in
  let call := UpdateCleanupSchedule CleanupScheduler.CLEANUP_TASK_NAME (resetTo next) in
  let w' := (resetSchedule zone w).2 in
  (fails w 1 call = true ->
     (resetSchedule zone w).1 = Throw "storage" /\ storage w' = storage w)
  /\ (fails w 1 call = false ->
        (resetSchedule zone w).1 = Return tt
        /\ deviceData (storage w') = deviceData (storage w)
        /\ match schedule_of w with
           | Some s =>
               exists s', schedule_of w' = Some s'
                 /\ CleanupSchedule.isEnabled s' = true
                 /\ CleanupSchedule.nextScheduledTime s' = Some next
                 /\ CleanupSchedule.lastExecutionTime s' = CleanupSchedule.lastExecutionTime s
           | None => schedule_of w' = None
           end).
Proof.
  intros read next call w'.
  pose proof (resetSchedule_effects zone w) as H. cbv zeta in H. fold read in H.
  assert (Hnext : match read ≫= CleanupSchedule.lastExecutionTime with
                  | Some last => CleanupScheduler.calculateNextScheduledTimeFromLast last
                  | None => calculateNextScheduledTime zone (clock (env w))
                  end = next).
  { subst next. destruct (read ≫= _); [apply interval_is_172800_seconds | reflexivity]. }
  rewrite Hnext in H. fold call in H. fold w' in H.
  split; intros F; rewrite F in H; [exact H|].
  destruct H as [Hr Hst]. split; [exact Hr|]. rewrite Hst. split; [reflexivity|].
  unfold schedule_of. rewrite Hst. cbn. rewrite lookup_alter_eq.
  destruct (cleanupSchedules (storage w) !! _) as [s|]; [|reflexivity].
  eexists. split; [reflexivity|]. cbn. repeat split.
Qed.

Lemma a_reset_counts_from_the_last_execution_witness :
  let w := (CleanupScheduler.setEnabled false
              (CleanupScheduler.runCleanup (with_env (set_clock 7000) Sample.world)).2).2 in
  let w' := (resetSchedule (fixedOffset 0) (with_env (set_clock 900000000) w)).2 in
  exists s', schedule_of w' = Some s'
    /\ CleanupSchedule.isEnabled s' = true
    /\ CleanupSchedule.nextScheduledTime s' = Some (7000 + 172800 * 1000)
    /\ CleanupSchedule.lastExecutionTime s' = Some 7000.
Proof.
  intros w w'.
  destruct (a_reset_counts_from_the_last_execution (fixedOffset 0)
              (with_env (set_clock 900000000) w)) as [_ H].
  destruct (H eq_refl) as (_ & _ & Hs). exact Hs.
Defined.

(** X21. The time computed for a schedule without a prior execution lies
    more than one day and at most two days ahead.  On a host whose local
    time is a fixed offset from UTC, [calculateNextScheduledTime] rounds
    the current instant, moved by 5 hours 30 and by the offset of the
    host, down to a whole day and adds two days: the result is later than
    the current instant by more than 24 hours and at most 48 hours, and it
    falls on midnight of Indian time exactly when the offset of the host
    is a whole number of days, as it is on a host that runs on UTC. *)
Theorem the_first_wipe_is_one_to_two_days_ahead (offset now : Z) :
  let next := calculateNextScheduledTime (fixedOffset offset) now in
  now + msPerDay < next <= now + 2 * msPerDay
  /\ (next + IST_OFFSET_MS) mod msPerDay = (- offset) mod msPerDay
  /\ (calculateNextScheduledTime (fixedOffset 0) now + IST_OFFSET_MS) mod msPerDay = 0.
Proof.
  assert (Hform : forall c,
            calculateNextScheduledTime (fixedOffset c) now =
              (now + IST_OFFSET_MS + c) / msPerDay * msPerDay + 2 * msPerDay
                - c - IST_OFFSET_MS).
  { intros c. unfold calculateNextScheduledTime, setDatePlus, setHoursToMidnight,
      UTC, LocalTime, fixedOffset, CleanupScheduler.CLEANUP_INTERVAL_DAYS. cbn. lia. }
  cbv zeta. rewrite !Hform. unfold msPerDay, IST_OFFSET_MS.
  change (11 * 60 * 60 * 1000 / 2) with 19800000.
  split; [|split].
  - pose proof (Z.div_mod (now + 19800000 + offset) 86400000 ltac:(lia)) as Hd.
    pose proof (Z.mod_pos_bound (now + 19800000 + offset) 86400000 ltac:(lia)) as Hm.
    lia.
  - replace ((now + 19800000 + offset) / 86400000 * 86400000 + 2 * 86400000
               - offset - 19800000 + 19800000)
      with (- offset + ((now + 19800000 + offset) / 86400000 + 2) * 86400000) by lia.
    apply Z.mod_add. lia.
  - replace ((now + 19800000 + 0) / 86400000 * 86400000 + 2 * 86400000
               - 0 - 19800000 + 19800000)
      with (0 + ((now + 19800000 + 0) / 86400000 + 2) * 86400000) by lia.
    rewrite Z.mod_add by lia. reflexivity.
Qed.

(** ** From a message to its row *)

Section Ingestion.

Lemma refreshStatus_run device w :
  refreshStatus device w =
    (Return tt,
     if fails w 0 (UpdateDevice (Device.id device) (onlineAt (clock (env w))))
     then refused device (onlineAt (clock (env w))) w
     else updated device (onlineAt (clock (env w))) w).
Proof.
  unfold refreshStatus. rewrite swallow. unfold bind at 1, Date_now, gets.
  fold (onlineAt (clock (env w))). rewrite update_and_broadcast.
  destruct (fails w 0 _); reflexivity.
Qed.

(** A decoded message that does not fill the buffer. *)
Lemma handleMessage_below topic message device level w :
  decode message = Some level ->
  Z.of_nat (length (batchBuffer (service w))) + 1 < BATCH_SIZE ->
  handleMessage topic message device w =
    (Return tt, (refreshStatus device (ingested device level w)).2).
Proof.
  intros Hd Hlen. rewrite (handleMessage_decoded _ _ _ level) by exact Hd.
  cbn [snd]. unfold bind. rewrite flushIfFull_below; [reflexivity|].
  cbn. rewrite length_app. cbn. lia.
Qed.

Lemma attempts_reliable faulty batch : forall n,
  (forall k c, faulty k c = false) ->
  persistedOf (attempts faulty n batch) = batch /\ failedOf (attempts faulty n batch) = [].
Proof.
  induction batch as [|d l IH]; intros n Hf; cbn [attempts]; [split; reflexivity|].
  rewrite persistedOf_cons, failedOf_cons, Hf. cbn [negb].
  destruct (IH (S n) Hf) as [H1 H2]. now rewrite H1, H2.
Qed.

Lemma insertedOf_reliable faulty late batch : forall n,
  (forall k c, faulty k c = false) -> insertedOf faulty late n batch = batch.
Proof.
  induction batch as [|d l IH]; intros n Hf; cbn [insertedOf]; [reflexivity|].
  rewrite Hf. cbn [negb orb]. now rewrite IH.
Qed.

Lemma batchProcessorTick_run w :
  batchProcessorTick w = (Return tt, (flushBatch false w).2).
Proof.
  unfold batchProcessorTick, try_catch, bind, ret.
  destruct (flushBatch_effects false w) as (Hr & _).
  destruct (flushBatch false w) as [c w']. cbn in Hr. subst c. reflexivity.
Qed.

(** The messages of a list, each with the device of its connection and
    the level that it decodes to, handled at one instant without filling
    the buffer. *)
Lemma messages_buffered (l : list (Device.t * string * JS.number)) : forall w,
  Forall (fun x => decode x.1.2 = Some x.2) l ->
  Z.of_nat (length (batchBuffer (service w))) + Z.of_nat (length l) < BATCH_SIZE ->
  let w' := (activities (map (fun x => Message (Device.mqttTopic x.1.1) x.1.2 x.1.1) l) w).2 in
  batchBuffer (service w') =
    batchBuffer (service w) ++ map (fun x => dataOf x.1.1 x.2 (clock (env w))) l
  /\ deviceData (storage w') = deviceData (storage w)
  /\ currentDeviceDataId (storage w') = currentDeviceDataId (storage w)
  /\ clock (env w') = clock (env w)
  /\ faults (env w') = faults (env w).
Proof.
  induction l as [|[[device message] level] l IH]; intros w Hd Hlen.
  - cbn. rewrite app_nil_r. repeat split; reflexivity.
  - inversion Hd as [|? ? Hd1 Hdl]; subst. cbn in Hd1.
    cbn [map fst snd]. cbv zeta. rewrite activities_cons. cbn [perform].
    rewrite (handleMessage_below _ _ _ level) by (cbn [length] in Hlen; assumption || lia).
    cbn [snd]. rewrite refreshStatus_run. cbn [snd].
    set (w1 := if fails _ _ _ then _ else _).
    assert (H1 : batchBuffer (service w1) =
                   batchBuffer (service w) ++ [dataOf device level (clock (env w))]
                 /\ deviceData (storage w1) = deviceData (storage w)
                 /\ currentDeviceDataId (storage w1) = currentDeviceDataId (storage w)
                 /\ clock (env w1) = clock (env w)
                 /\ faults (env w1) = faults (env w)).
    { subst w1. destruct (fails _ _ _); [unfold refused; destruct (wrote _ _ _)|];
        cbn; repeat split; reflexivity. }
    destruct H1 as (Hb & Hdd & Hid & Hc & Hf).
    destruct (IH w1 Hdl) as (Gb & Gd & Gid & Gc & Gf).
    { rewrite Hb, length_app. cbn [length] in *. lia. }
    rewrite Gb, Gd, Gid, Gc, Gf, Hb, Hdd, Hid, Hc, Hf, <- app_assoc.
    repeat split; reflexivity.
Qed.

End Ingestion.

(** X22. Readings that do not fill the buffer are written by the next
    firing of the batch timer, in the order of their arrival.  On a
    storage that answers, fewer than [BATCH_SIZE] decodable messages
    handled on an empty buffer write nothing to the table of readings by
    themselves; the timer then appends one row for each of them, in
    order, with the device, the level and the status of the message, and
    leaves the buffer empty. *)
Theorem a_small_batch_is_written_by_the_timer
    (l : list (Device.t * string * JS.number)) (w : World) :
  reliable w ->
  batchBuffer (service w) = [] ->
  Z.of_nat (length l) < BATCH_SIZE ->
  Forall (fun x => decode x.1.2 = Some x.2) l ->
  let messages := map (fun x => Message (Device.mqttTopic x.1.1) x.1.2 x.1.1) l in
  let readings := map (fun x => dataOf x.1.1 x.2 (clock (env w))) l in
  deviceData (storage (activities messages w).2) = deviceData (storage w)
  /\ deviceData (storage (activities (messages ++ [BatchTimer]) w).2) =
       deviceData (storage w)
         ++ rowsOf (clock (env w)) (currentDeviceDataId (storage w)) readings
  /\ batchBuffer (service (activities (messages ++ [BatchTimer]) w).2) = [].
Proof.
  intros Hr Hb Hlen Hd messages readings.
  destruct (messages_buffered l w Hd) as (Gb & Gd & Gid & Gc & Gf).
  { rewrite Hb. cbn. lia. }
  fold messages in Gb, Gd, Gid, Gc, Gf. split; [exact Gd|].
  rewrite activities_app. set (w1 := (activities messages w).2) in *.
  rewrite activities_cons. cbn [perform activities for_of ret snd].
  rewrite batchProcessorTick_run. cbn [snd].
  destruct (flushBatch_effects false w1) as (_ & Fb & _ & Fd).
  rewrite Fd, Fb, insertedOf_reliable by (intros k c; rewrite Gf; apply Hr).
  rewrite Gd, Gid, Gc, Gb, Hb. split; reflexivity.
Qed.

Lemma a_small_batch_is_written_by_the_timer_witness :
  let l := [(Sample.D1, Sample.json "{'alcohol_level': 1800}", JS.of_Z 1800);
            (Sample.D2, Sample.json "{'Index': '2600'}", JS.of_Z 2600)] in
  let messages := map (fun x => Message (Device.mqttTopic x.1.1) x.1.2 x.1.1) l in
  map (fun r => (DeviceData.id r, DeviceData.deviceId r, DeviceData.alertStatus r))
      (deviceData (storage (activities (messages ++ [BatchTimer]) Sample.world).2)) =
    [(1, "D1", "Moderate Drunk"); (2, "D1", "Normal");
     (3, "D1", "Moderate Drunk"); (4, "D2", "Completely Drunk")].
Proof.
  intros l messages.
  assert (Hr : reliable Sample.world) by (intros n c; reflexivity).
  assert (Hd : Forall (fun x => decode x.1.2 = Some x.2) l).
  { repeat constructor; vm_compute; reflexivity. }
  destruct (a_small_batch_is_written_by_the_timer l Sample.world Hr eq_refl
              ltac:(cbn; unfold BATCH_SIZE; lia) Hd) as (_ & H & _).
  fold messages in H. rewrite H. reflexivity.
Defined.

(** ** Further properties of liveness *)

Section MoreLiveness.

Lemma checkDeviceTimeout_skip now d w :
  timedOut now d = false -> checkDeviceTimeout now d w = (Return tt, w).
Proof.
  unfold timedOut, checkDeviceTimeout.
  change (match Device.lastSeen d with Some t => t | None => 0 end)
    with (default 0 (Device.lastSeen d)).
  destruct (Device.isActive d); cbn [negb andb]; [|reflexivity].
  intros ->. reflexivity.
Qed.

Lemma for_of_skip now l : forall w,
  Forall (fun x => timedOut now x = false) l ->
  for_of l (checkDeviceTimeout now) w = (Return tt, w).
Proof.
  induction l as [|d l IH]; intros w Hl; [reflexivity|].
  inversion Hl; subst. cbn [for_of]. unfold bind.
  rewrite checkDeviceTimeout_skip by assumption. now apply IH.
Qed.

Lemma for_of_app {A} (l1 l2 : list A) body w :
  for_of (l1 ++ l2) body w =
    match for_of l1 body w with
    | (Return _, w1) => for_of l2 body w1
    | (Throw e, w1) => (Throw e, w1)
    end.
Proof.
  revert w. induction l1 as [|x l1 IH]; intros w; [reflexivity|].
  cbn [app for_of]. unfold bind.
  destruct (body x w) as [[[]|e] w1]; [apply IH | reflexivity].
Qed.

(** The state in which the loop of the sweep starts. *)
Lemma sweep_run w :
  checkDeviceTimeouts w =
    if fails w 0 GetDevices
    then (Return tt,
          emit (ELog "Error checking device timeouts")
            (emit (EStorage GetDevices false)
               (with_env (fun e => set_calls (S (calls e)) e) w)))
    else try_catch
           (for_of (devices (storage w)) (checkDeviceTimeout (clock (env w))))
           (fun _ => log (ELog "Error checking device timeouts"))
           (emit (EStorage GetDevices true)
              (with_env (fun e => set_calls (S (calls e)) e) w)).
Proof.
  rewrite fails_0.
  unfold checkDeviceTimeouts, try_catch, bind at 1, storage.getDevices, query.
  destruct (faults (env w) (calls (env w)) GetDevices); [reflexivity|].
  cbn [negb]. cbv beta iota zeta. cbn [with_storage storage devices emit with_env].
  unfold bind at 1, Date_now, gets. cbn [env clock].
  match goal with
  | |- context [for_of ?l ?f ?x] =>
      replace x with (emit (EStorage GetDevices true)
                        (with_env (fun e => set_calls (S (calls e)) e) w))
        by (apply world_ext; reflexivity)
  end.
  reflexivity.
Qed.

Lemma sweep_loop_env now l : forall w,
  reliable w ->
  faults (env (for_of l (checkDeviceTimeout now) w).2) = faults (env w)
  /\ clock (env (for_of l (checkDeviceTimeout now) w).2) = clock (env w).
Proof.
  induction l as [|d l IH]; intros w Hr; [split; reflexivity|].
  destruct (checkDeviceTimeout_reliable now d w Hr) as (w1 & Hrun & _ & _ & _ & Hf & Hc).
  cbn [for_of]. unfold bind. rewrite Hrun.
  destruct (IH w1) as [Gf Gc]; [intros n c; rewrite Hf; apply Hr|].
  rewrite Gf, Gc, Hf, Hc. split; reflexivity.
Qed.

(** A sweep on a storage that answers. *)
Lemma sweep_reliable w :
  reliable w ->
  NoDup (map Device.id (devices (storage w))) ->
  let w' := (checkDeviceTimeouts w).2 in
  let now := clock (env w) in
  devices (storage w') = map (swept now) (devices (storage w))
  /\ offlineEvents (storage w') =
       offlineEvents (storage w)
         ++ eventsFor now (currentOfflineEventId (storage w))
              (filter (fun x => timedOut now x = true) (devices (storage w)))
  /\ faults (env w') = faults (env w)
  /\ clock (env w') = clock (env w).
Proof.
  intros Hr Hid. cbv zeta. rewrite sweep_run.
  replace (fails w 0 GetDevices) with false by (symmetry; apply Hr).
  set (w0 := emit (EStorage GetDevices true)
               (with_env (fun e => set_calls (S (calls e)) e) w)).
  assert (Hr0 : reliable w0) by (intros n c; apply Hr).
  destruct (sweep_loop (clock (env w)) (devices (storage w)) w0 Hr0) as (w1 & Hrun & Hd & He).
  destruct (sweep_loop_env (clock (env w)) (devices (storage w)) w0 Hr0) as [Hf Hc].
  unfold try_catch. rewrite Hrun in *. cbn [snd] in *.
  split; [|split; [exact He|split; [exact Hf | exact Hc]]].
  rewrite Hd. apply map_ext_in. intros r Hin. unfold swept.
  now rewrite (hit_self (clock (env w)) _ r Hid Hin).
Qed.

Lemma swept_idempotent now d : swept now (swept now d) = swept now d.
Proof.
  unfold swept. destruct (timedOut now d) eqn:Hq; [|now rewrite Hq].
  assert (Hd : timedOut now (demoted d) = false).
  { unfold timedOut. cbn. now rewrite andb_false_r. }
  now rewrite Hd.
Qed.

Lemma swept_id now d : Device.id (swept now d) = Device.id d.
Proof. unfold swept. now destruct (timedOut now d). Qed.

Lemma monitor_run w : deviceTimeoutMonitorTick w = (Return tt, (checkDeviceTimeouts w).2).
Proof.
  unfold deviceTimeoutMonitorTick, try_catch.
  assert (Hr : (checkDeviceTimeouts w).1 = Return tt).
  { unfold checkDeviceTimeouts, try_catch.
    destruct (bind _ _ w) as [[[]|e] w1]; reflexivity. }
  destruct (checkDeviceTimeouts w) as [c w1]. cbn in Hr. subst c. reflexivity.
Qed.

End MoreLiveness.

(** X23. A sweep made again at the same instant changes nothing.  On a
    storage that answers, with distinct row identifiers, a second sweep
    leaves the rows of the devices as the first one left them and logs no
    further offline event: a device is demoted once. *)
Theorem a_second_sweep_changes_nothing (w : World) :
  reliable w ->
  NoDup (map Device.id (devices (storage w))) ->
  let once := (activities [MonitorTimer] w).2 in
  let twice := (activities [MonitorTimer; MonitorTimer] w).2 in
  devices (storage twice) = devices (storage once)
  /\ offlineEvents (storage twice) = offlineEvents (storage once)
  /\ devices (storage once) = map (swept (clock (env w))) (devices (storage w)).
Proof.
  intros Hr Hid once twice.
  assert (Honce : once = (checkDeviceTimeouts w).2).
  { subst once. rewrite activities_cons. cbn [perform]. now rewrite monitor_run. }
  assert (Htwice : twice = (checkDeviceTimeouts once).2).
  { subst twice. rewrite activities_cons. cbn [perform]. rewrite monitor_run. cbn [snd].
    rewrite <- Honce. rewrite activities_cons. cbn [perform]. now rewrite monitor_run. }
  destruct (sweep_reliable w Hr Hid) as (Hd & He & Hf & Hc). cbv zeta in Hd, He, Hf, Hc.
  rewrite <- Honce in Hd, He, Hf, Hc.
  assert (Hr1 : reliable once) by (intros n c; rewrite Hf; apply Hr).
  assert (Hid1 : NoDup (map Device.id (devices (storage once)))).
  { rewrite Hd, map_map. erewrite map_ext; [exact Hid|]. intros d. apply swept_id. }
  destruct (sweep_reliable once Hr1 Hid1) as (Hd2 & He2 & _). cbv zeta in Hd2, He2.
  rewrite <- Htwice in Hd2, He2. rewrite Hc in Hd2, He2.
  split; [|split; [|exact Hd]].
  - rewrite Hd2, Hd, map_map. apply map_ext. intros d. apply swept_idempotent.
  - rewrite He2. replace (filter _ (devices (storage once))) with (@nil Device.t).
    + cbn. apply app_nil_r.
    + symmetry. rewrite Hd. clear. induction (devices (storage w)) as [|d l IH]; [reflexivity|].
      cbn [map]. rewrite filter_cons_False; [exact IH|].
      unfold swept. destruct (timedOut (clock (env w)) d) eqn:Hq.
      * unfold timedOut. cbn. rewrite andb_false_r. discriminate.
      * rewrite Hq. discriminate.
Qed.

Lemma a_second_sweep_changes_nothing_witness :
  let once := (activities [MonitorTimer] Sample.world).2 in
  let twice := (activities [MonitorTimer; MonitorTimer] Sample.world).2 in
  devices (storage twice) = devices (storage once)
  /\ offlineEvents (storage twice) = offlineEvents (storage once)
  /\ devices (storage once) = map (swept 100000) (devices (storage Sample.world)).
Proof.
  apply (a_second_sweep_changes_nothing Sample.world).
  - intros n c. reflexivity.
  - apply (bool_decide_unpack _). vm_compute. exact I.
Defined.

Section SignsOfLife.

(** A flush writes readings only. *)
Lemma flushBatch_frame retryOnError w :
  let w' := (flushBatch retryOnError w).2 in
  devices (storage w') = devices (storage w)
  /\ offlineEvents (storage w') = offlineEvents (storage w)
  /\ faults (env w') = faults (env w)
  /\ clock (env w') = clock (env w)
  /\ webSocketBroadcaster (service w') = webSocketBroadcaster (service w).
Proof.
  cbv zeta. destruct (batchBuffer (service w)) as [|d l] eqn:Hb.
  - rewrite flushBatch_empty by exact Hb. repeat split; reflexivity.
  - rewrite flushBatch_spec by (rewrite Hb; discriminate). cbn [snd].
    unfold requeue, when, bind, log, modify, ret.
    destruct (_ && _); cbn; repeat split; reflexivity.
Qed.

(** What a decoded message does to the rows of the devices, on a storage
    that answers. *)
Lemma handleMessage_refreshes topic message device level w :
  reliable w ->
  decode message = Some level ->
  let w' := (handleMessage topic message device w).2 in
  devices (storage w') =
    map (fun d => if Device.id d =? Device.id device
                  then Device.merge d (onlineAt (clock (env w))) else d)
        (devices (storage w))
  /\ offlineEvents (storage w') = offlineEvents (storage w)
  /\ faults (env w') = faults (env w)
  /\ clock (env w') = clock (env w).
Proof.
  intros Hr Hd. cbv zeta. rewrite (handleMessage_decoded _ _ _ level) by exact Hd.
  cbn [snd]. unfold bind.
  set (w1 := ingested device level w).
  assert (H1 : exists w2, flushIfFull w1 = (Return tt, w2)
                 /\ devices (storage w2) = devices (storage w)
                 /\ offlineEvents (storage w2) = offlineEvents (storage w)
                 /\ faults (env w2) = faults (env w)
                 /\ clock (env w2) = clock (env w)).
  { destruct (Z_lt_dec (Z.of_nat (length (batchBuffer (service w1)))) BATCH_SIZE) as [Hlt|Hge].
    - exists w1. rewrite flushIfFull_below by exact Hlt. repeat split; reflexivity.
    - exists (flushBatch false w1).2. rewrite flushIfFull_full by lia.
      destruct (flushBatch_frame false w1) as (G1 & G2 & G3 & G4 & _).
      repeat split; assumption. }
  destruct H1 as (w2 & Hrun & G1 & G2 & G3 & G4). rewrite Hrun.
  rewrite refreshStatus_run. cbn [snd].
  replace (fails w2 0 _) with false by (symmetry; unfold fails; rewrite G3; apply Hr).
  cbn. rewrite G1, G2, G3, G4. repeat split; reflexivity.
Qed.

End SignsOfLife.

(** X24. A decoded message keeps its device online for 10 seconds, and an
    undecodable one is no sign of life.  On a storage that answers, with
    distinct row identifiers, the row of the device of a decoded message
    is set online with the instant of the message as [lastSeen],
    whatever its status was; a sweep made [ms] milliseconds later leaves
    it so when [ms] is at most 10000 and sets it offline otherwise, when
    the device is active.  After a message that cannot be decoded the
    sweep treats the row as if no message had come. *)
Theorem a_message_keeps_its_device_online_for_10_seconds
    (topic message : string) (device row : Device.t) (ms : Z) (w : World) :
  reliable w ->
  NoDup (map Device.id (devices (storage w))) ->
  In row (devices (storage w)) ->
  Device.id row = Device.id device ->
  let w' := (activities [Message topic message device; Elapse ms; MonitorTimer] w).2 in
  let seen := Device.merge row (onlineAt (clock (env w))) in
  match decode message with
  | Some _ =>
      In (if Device.isActive row && (ms >? DEVICE_OFFLINE_THRESHOLD_MS)
          then demoted seen else seen)
         (devices (storage w'))
  | None => In (swept (clock (env w) + ms) row) (devices (storage w'))
  end.
Proof.
  intros Hr Hid Hin Hrow w' seen.
  assert (Hw' : w' = (checkDeviceTimeouts
                        (with_env (fun e => set_clock (clock e + ms) e)
                           (handleMessage topic message device w).2)).2).
  { subst w'. rewrite !activities_cons. cbn [perform activities for_of ret snd].
    unfold modify. cbn [snd]. now rewrite monitor_run. }
  rewrite Hw'. clear Hw' w'.
  destruct (decode message) as [level|] eqn:Hd.
  - destruct (handleMessage_refreshes topic message device level w Hr Hd)
      as (G1 & G2 & G3 & G4). cbv zeta in G1, G2, G3, G4.
    set (w1 := (handleMessage topic message device w).2) in *.
    set (w2 := with_env (fun e => set_clock (clock e + ms) e) w1).
    assert (Hr2 : reliable w2) by (intros n c; cbn; rewrite G3; apply Hr).
    assert (Hid2 : NoDup (map Device.id (devices (storage w2)))).
    { cbn. rewrite G1, map_map. erewrite map_ext; [exact Hid|].
      intros d. now destruct (Device.id d =? Device.id device). }
    destruct (sweep_reliable w2 Hr2 Hid2) as (Hsw & _). cbv zeta in Hsw. rewrite Hsw.
    assert (Hseen : In seen (devices (storage w2))).
    { cbn. rewrite G1. apply in_map_iff. exists row. split; [|exact Hin].
      rewrite Hrow, Z.eqb_refl. reflexivity. }
    apply (in_map (swept (clock (env w2)))) in Hseen.
    assert (Heq : swept (clock (env w2)) seen =
                    if Device.isActive row && (ms >? DEVICE_OFFLINE_THRESHOLD_MS)
                    then demoted seen else seen).
    { unfold swept, timedOut. subst seen. cbn. rewrite G4.
      replace (clock (env w) + ms - clock (env w)) with ms by lia.
      now rewrite andb_true_r. }
    rewrite <- Heq. exact Hseen.
  - rewrite handleMessage_dropped by exact Hd. cbn [snd].
    set (w2 := with_env (fun e => set_clock (clock e + ms) e) w).
    assert (Hr2 : reliable w2) by (intros n c; apply Hr).
    destruct (sweep_reliable w2 Hr2 Hid) as (Hsw & _). cbv zeta in Hsw. rewrite Hsw.
    apply (in_map (swept (clock (env w2)))) in Hin. exact Hin.
Qed.

Lemma a_message_keeps_its_device_online_for_10_seconds_witness :
  let run ms message :=
    map Device.status
      (devices (storage (activities [Message "sensors" message Sample.D6;
                                     Elapse ms; MonitorTimer] Sample.world).2)) in
  In (Device.merge Sample.D6 (onlineAt 100000))
     (devices (storage (activities [Message "sensors" (Sample.json "{'level': 5}") Sample.D6;
                                    Elapse 10000; MonitorTimer] Sample.world).2))
  /\ nth 5 (run 10000 (Sample.json "{'level': 5}")) EmptyString = "online"
  /\ nth 5 (run 10001 (Sample.json "{'level': 5}")) EmptyString = "offline"
  /\ nth 5 (run 0 "nonsense") EmptyString = "offline".
Proof.
  intros run.
  assert (Hr : reliable Sample.world) by (intros n c; reflexivity).
  assert (Hid : NoDup (map Device.id (devices (storage Sample.world)))).
  { apply (bool_decide_unpack _). vm_compute. exact I. }
  assert (Hin : In Sample.D6 (devices (storage Sample.world))) by (cbn; tauto).
  pose proof (a_message_keeps_its_device_online_for_10_seconds
                "sensors" (Sample.json "{'level': 5}") Sample.D6 Sample.D6 10000
                Sample.world Hr Hid Hin eq_refl) as H.
  split; [exact H|]. vm_compute. repeat split; reflexivity.
Defined.

Section BrokenSweeps.

Lemma checkDeviceTimeout_timed_out now d w :
  timedOut now d = true ->
  checkDeviceTimeout now d w =
    (updatedDevice <- storage.updateDevice (Device.id d) wentOffline ;;
     t <- Date_now ;;
     storage.logDeviceOfflineEvent (Device.deviceId d) t ;;
     broadcastDevice updatedDevice) w.
Proof.
  intros Hd. unfold timedOut in Hd. apply andb_true_iff in Hd as [Hd1 Hd3].
  apply andb_true_iff in Hd1 as [Hd1 Hd2].
  unfold checkDeviceTimeout.
  change (match Device.lastSeen d with Some t => t | None => 0 end)
    with (default 0 (Device.lastSeen d)).
  rewrite Hd1, Hd2, Hd3. reflexivity.
Qed.

Lemma demotion_refused d w :
  fails w 0 (UpdateDevice (Device.id d) wentOffline) = true ->
  (updatedDevice <- storage.updateDevice (Device.id d) wentOffline ;;
   t <- Date_now ;;
   storage.logDeviceOfflineEvent (Device.deviceId d) t ;;
   broadcastDevice updatedDevice) w =
    (Throw "storage", refused d wentOffline w).
Proof.
  rewrite fails_0. intros F.
  unfold bind, storage.updateDevice, query. rewrite F.
  unfold refused. rewrite wrote_0. cbn [writesThenReads andb].
  destruct (written _ _ _); reflexivity.
Qed.

Lemma demotion_not_logged d w :
  fails w 0 (UpdateDevice (Device.id d) wentOffline) = false ->
  fails w 1 (LogDeviceOfflineEvent (Device.deviceId d) (clock (env w))) = true ->
  exists w1,
    (updatedDevice <- storage.updateDevice (Device.id d) wentOffline ;;
     t <- Date_now ;;
     storage.logDeviceOfflineEvent (Device.deviceId d) t ;;
     broadcastDevice updatedDevice) w = (Throw "storage", w1)
    /\ devices (storage w1) =
         map (fun r => if Device.id r =? Device.id d then demoted r else r)
             (devices (storage w))
    /\ offlineEvents (storage w1) = offlineEvents (storage w).
Proof.
  rewrite fails_0, fails_1. intros F0 F1.
  unfold bind, storage.updateDevice, storage.logDeviceOfflineEvent, query, Date_now, gets.
  rewrite F0. cbn. rewrite F1. cbn. eexists. split; [reflexivity|]. split; reflexivity.
Qed.

End BrokenSweeps.

(** X25. A sweep stops at the first call on [storage] that throws.  When
    [getDevices] throws nothing is changed.  When the update of the first
    timed-out device throws, no offline event is logged and the devices
    that come after it in the table are not looked at, timed out or not;
    the row of the device is as it was when the UPDATE failed, and is
    offline already, without an offline event, when it is the SELECT after
    the UPDATE that failed.  When the update succeeds and the logging of
    the offline event throws, that device is offline without an offline
    event, and the later devices are skipped as well.  The sweep returns
    normally in every case. *)
Theorem a_sweep_stops_at_the_first_failure
    (pre post : list Device.t) (d : Device.t) (w : World) :
  devices (storage w) = pre ++ d :: post ->
  Forall (fun x => timedOut (clock (env w)) x = false) pre ->
  timedOut (clock (env w)) d = true ->
  let w' := (checkDeviceTimeouts w).2 in
  let update := UpdateDevice (Device.id d) wentOffline in
  let demotedOnly :=
    map (fun r => if Device.id r =? Device.id d then demoted r else r) (devices (storage w)) in
  (checkDeviceTimeouts w).1 = Return tt
  /\ (fails w 0 GetDevices = true -> storage w' = storage w)
  /\ (fails w 0 GetDevices = false -> fails w 1 update = true ->
      offlineEvents (storage w') = offlineEvents (storage w)
      /\ (wrote w 1 update = false -> storage w' = storage w)
      /\ (wrote w 1 update = true -> devices (storage w') = demotedOnly))
  /\ (fails w 0 GetDevices = false -> fails w 1 update = false ->
      fails w 2 (LogDeviceOfflineEvent (Device.deviceId d) (clock (env w))) = true ->
      devices (storage w') = demotedOnly
      /\ offlineEvents (storage w') = offlineEvents (storage w)).
Proof.
  intros Hdev Hpre Hd w' update demotedOnly. subst w'.
  split.
  { unfold checkDeviceTimeouts, try_catch. destruct (bind _ _ w) as [[[]|e] w1]; reflexivity. }
  rewrite sweep_run.
  destruct (fails w 0 GetDevices) eqn:F0.
  { split; [reflexivity|]. split; [discriminate|discriminate]. }
  split; [discriminate|].
  set (w0 := emit (EStorage GetDevices true)
               (with_env (fun e => set_calls (S (calls e)) e) w)).
  assert (Hloop : for_of (devices (storage w)) (checkDeviceTimeout (clock (env w))) w0 =
                    match checkDeviceTimeout (clock (env w)) d w0 with
                    | (Return _, w1) => for_of post (checkDeviceTimeout (clock (env w))) w1
                    | (Throw e, w1) => (Throw e, w1)
                    end).
  { rewrite Hdev, for_of_app, for_of_skip by exact Hpre. cbn [for_of]. unfold bind.
    destruct (checkDeviceTimeout _ d w0) as [[[]|e] w1]; reflexivity. }
  unfold try_catch. rewrite Hloop. clear Hloop.
  rewrite checkDeviceTimeout_timed_out by exact Hd.
  assert (Hf : forall k c, fails w0 k c = fails w (S k) c).
  { intros k c. unfold fails. cbn. f_equal. lia. }
  assert (Hw : wrote w0 0 update = wrote w 1 update).
  { unfold wrote. cbn. f_equal. lia. }
  split.
  - intros _ F1. rewrite demotion_refused by (rewrite Hf; exact F1).
    cbn [snd log modify emit storage refused]. fold update. rewrite Hw.
    destruct (wrote w 1 update); (split; [reflexivity|]);
      split; intros E; solve [discriminate E | reflexivity].
  - intros _ F1 F2.
    destruct (demotion_not_logged d w0) as (w1 & Hrun & H1 & H2).
    { rewrite Hf. exact F1. }
    { rewrite Hf. exact F2. }
    rewrite Hrun. cbn. rewrite H1, H2. split; reflexivity.
Qed.

Lemma a_sweep_stops_at_the_first_failure_witness :
  let second n (c : StorageCall) := Nat.eqb n 1 in
  let before := Sample.make second Sample.silent [] in
  let after := Sample.makeLate second Sample.silent [] in
  storage (checkDeviceTimeouts before).2 = storage before
  /\ map Device.status (devices (storage (checkDeviceTimeouts after).2))
     = ["offline"; "waiting"; "online"; "online"; "online"; "offline"]
  /\ offlineEvents (storage (checkDeviceTimeouts after).2) = [].
Proof.
  intros second before after.
  assert (Hd : timedOut 100000 Sample.D1 = true) by reflexivity.
  destruct (a_sweep_stops_at_the_first_failure [] [Sample.D2; Sample.D3; Sample.D4;
                                                    Sample.D5; Sample.D6]
              Sample.D1 before eq_refl (List.Forall_nil _) Hd) as (_ & _ & H & _).
  destruct (H eq_refl eq_refl) as (_ & Hb & _).
  destruct (a_sweep_stops_at_the_first_failure [] [Sample.D2; Sample.D3; Sample.D4;
                                                    Sample.D5; Sample.D6]
              Sample.D1 after eq_refl (List.Forall_nil _) Hd) as (_ & _ & H' & _).
  destruct (H' eq_refl eq_refl) as (He & _ & Ha).
  split; [exact (Hb eq_refl)|]. split; [rewrite (Ha eq_refl); reflexivity | exact He].
Defined.

(** ** The shutdown *)

Section Shutdown.

Lemma client_end_run handle w :
  client_end handle w = (Return tt, (client_end handle w).2).
Proof. reflexivity. Qed.

Lemma client_end_frame handle w :
  let w' := (client_end handle w).2 in
  storage w' = storage w /\ service w' = service w
  /\ faults (env w') = faults (env w) /\ written (env w') = written (env w)
  /\ calls (env w') = calls (env w)
  /\ clock (env w') = clock (env w)
  /\ endedAt w' handle
  /\ (forall h, endedAt w h -> endedAt w' h).
Proof.
  cbn. repeat split; try reflexivity.
  - intros c. unfold endedAt. cbn. rewrite list_lookup_alter_eq.
    destruct (connections (env w) !! handle); cbn; [|discriminate].
    now intros [= <-].
  - intros h Hh c. unfold endedAt in *. cbn.
    destruct (decide (handle = h)) as [->|Hne].
    + rewrite list_lookup_alter_eq.
      destruct (connections (env w) !! h); cbn; [|discriminate]. now intros [= <-].
    + rewrite list_lookup_alter_ne by exact Hne. apply Hh.
Qed.

(** The loop that ends the clients. *)
Lemma end_all values : forall w,
  exists w',
    for_of values client_end w = (Return tt, w')
    /\ storage w' = storage w /\ service w' = service w
    /\ faults (env w') = faults (env w) /\ written (env w') = written (env w)
    /\ calls (env w') = calls (env w)
    /\ clock (env w') = clock (env w)
    /\ (forall h, In h values -> endedAt w' h)
    /\ (forall h, endedAt w h -> endedAt w' h).
Proof.
  induction values as [|v values IH]; intros w.
  - exists w. cbn. repeat split; try reflexivity; [intros h [] | auto].
  - destruct (client_end_frame v w) as (H1 & H2 & H3 & H3' & H4 & H5 & H6 & H7).
    cbv zeta in *.
    destruct (IH (client_end v w).2) as (w' & Hrun & G1 & G2 & G3 & G3' & G4 & G5 & G6 & G7).
    exists w'. cbn [for_of]. unfold bind. rewrite client_end_run, Hrun.
    split; [reflexivity|]. split; [congruence|]. split; [congruence|].
    split; [congruence|]. split; [congruence|]. split; [congruence|].
    split; [congruence|]. split.
    + intros h [<-|Hin]; [apply G7, H6 | now apply G6].
    + intros h Hh. apply G7, H7, Hh.
Qed.

Lemma flushBatch_env retryOnError w :
  connections (env (flushBatch retryOnError w).2) = connections (env w)
  /\ clients (service (flushBatch retryOnError w).2) = clients (service w).
Proof.
  destruct (batchBuffer (service w)) as [|d l] eqn:Hb.
  - rewrite flushBatch_empty by exact Hb. split; reflexivity.
  - rewrite flushBatch_spec by (rewrite Hb; discriminate). cbn [snd].
    unfold requeue, when, bind, log, modify, ret.
    destruct (_ && _); cbn; split; reflexivity.
Qed.

Lemma bind_run {A B} (m : M A) (k : A -> M B) w a w' :
  m w = (Return a, w') -> bind m k w = k a w'.
Proof. intros H. unfold bind. now rewrite H. Qed.

(** The legacy client is ended, if there is one, and the handles are
    cleared. *)
Lemma legacy_end h w :
  let h1 := if Handles.batchFlushInterval h
            then {| Handles.client := Handles.client h;
                    Handles.batchFlushInterval := false;
                    Handles.deviceTimeoutMonitorInterval :=
                      Handles.deviceTimeoutMonitorInterval h |}
            else h in
  let h2 := if Handles.deviceTimeoutMonitorInterval h1
            then {| Handles.client := Handles.client h1;
                    Handles.batchFlushInterval := Handles.batchFlushInterval h1;
                    Handles.deviceTimeoutMonitorInterval := false |}
            else h1 in
  exists w2,
    match Handles.client h2 with
    | Some client =>
        client_end client ;;
        modify (with_service (set_subscribedTopics ∅)) ;;
        ret {| Handles.client := None;
               Handles.batchFlushInterval := Handles.batchFlushInterval h2;
               Handles.deviceTimeoutMonitorInterval :=
                 Handles.deviceTimeoutMonitorInterval h2 |}
    | None => ret h2
    end w = (Return cleared, w2)
    /\ storage w2 = storage w
    /\ batchBuffer (service w2) = batchBuffer (service w)
    /\ faults (env w2) = faults (env w) /\ written (env w2) = written (env w)
    /\ calls (env w2) = calls (env w)
    /\ clock (env w2) = clock (env w)
    /\ (forall handle, Handles.client h = Some handle -> endedAt w2 handle).
Proof.
  destruct h as [[client|] [|] [|]]; cbn [Handles.client Handles.batchFlushInterval
                                          Handles.deviceTimeoutMonitorInterval].
  1-4: eexists; (split; [reflexivity|]); cbn [snd];
       (split; [reflexivity|]); (split; [reflexivity|]); (split; [reflexivity|]);
       (split; [reflexivity|]); (split; [reflexivity|]); (split; [reflexivity|]);
       intros handle [= <-];
       destruct (client_end_frame client w) as (_ & _ & _ & _ & _ & _ & He & _); exact He.
  all: exists w; (split; [reflexivity|]);
       (split; [reflexivity|]); (split; [reflexivity|]); (split; [reflexivity|]);
       (split; [reflexivity|]); (split; [reflexivity|]); (split; [reflexivity|]);
       intros handle [=].
Qed.

End Shutdown.

(** X26. The shutdown ends the clients, then writes what the buffer
    holds, and touches no device.  [disconnect] clears both timers and the
    legacy client, ends every client that it is given and empties the
    registry, lets 100 milliseconds pass, and flushes the buffer with
    retry: the readings whose INSERT is executed become rows, those whose
    call throws are left in the buffer, and every reading is one or the
    other, so that none is dropped.  A reading whose call throws after its
    INSERT is both; when no call does, the rows are those of the readings
    whose call returned.  The rows of the devices and the offline events
    are as before: no device is marked offline by the shutdown.  It
    returns normally whatever storage answers. *)
Theorem the_shutdown_flushes_the_buffer (h : Handles.t) (values : list nat) (w : World) :
  let w' := (disconnect h values w).2 in
  let buffer := batchBuffer (service w) in
  let tried := attempts (faults (env w)) (calls (env w)) buffer in
  let inserted := insertedOf (faults (env w)) (written (env w)) (calls (env w)) buffer in
  (disconnect h values w).1 = Return cleared
  /\ clients (service w') = ∅
  /\ (forall handle, In handle values -> endedAt w' handle)
  /\ (forall handle, Handles.client h = Some handle -> endedAt w' handle)
  /\ deviceData (storage w') =
       deviceData (storage w)
         ++ rowsOf (clock (env w) + 100) (currentDeviceDataId (storage w)) inserted
  /\ batchBuffer (service w') = failedOf tried
  /\ (forall data, In data buffer -> In data inserted \/ In data (batchBuffer (service w')))
  /\ ((forall n c, faults (env w) n c = true -> written (env w) n c = false) ->
      inserted = persistedOf tried)
  /\ devices (storage w') = devices (storage w)
  /\ offlineEvents (storage w') = offlineEvents (storage w).
Proof.
  cbv zeta.
  set (w1 := emit (ELog "Closing MQTT connections to stop new data...")
               (emit (ELog "Starting MQTT client shutdown...") w)).
  destruct (legacy_end h w1) as (w2 & Hrun2 & L1 & L2 & L3 & L3' & L4 & L5 & L6).
  destruct (end_all values w2) as (w3 & Hrun3 & E1 & E2 & E3 & E3' & E4 & E5 & E6 & E7).
  set (w4 := emit (ELog "Flushing remaining items...")
               (later 100 (with_service (set_clients ∅) w3))).
  assert (Hw4 : storage w4 = storage w
                /\ batchBuffer (service w4) = batchBuffer (service w)
                /\ faults (env w4) = faults (env w) /\ calls (env w4) = calls (env w)
                /\ clock (env w4) = clock (env w) + 100
                /\ clients (service w4) = ∅
                /\ connections (env w4) = connections (env w3)
                /\ written (env w4) = written (env w)).
  { subst w4. cbn. rewrite E1, E2, E3, E3', E4, E5, L1, L2, L3, L3', L4, L5. repeat split. }
  destruct Hw4 as (F1 & F2 & F3 & F4 & F5 & F6 & F7 & F8).
  destruct (flushBatch_effects true w4) as (Hr & Hb & _ & Hd).
  destruct (flushBatch_frame true w4) as (G1 & G2 & _).
  destruct (flushBatch_env true w4) as (G3 & G4).
  cbv zeta in *. rewrite F1, F2, F3, F4, F5, F8 in *.
  assert (Hrun : exists w6,
            disconnect h values w = (Return cleared, w6)
            /\ storage w6 = storage (flushBatch true w4).2
            /\ service w6 = service (flushBatch true w4).2
            /\ connections (env w6) = connections (env (flushBatch true w4).2)).
  { unfold disconnect. cbv zeta.
    erewrite bind_run by reflexivity. erewrite bind_run by reflexivity. fold w1.
    erewrite bind_run by exact Hrun2.
    erewrite bind_run by exact Hrun3.
    erewrite bind_run by reflexivity.
    erewrite bind_run by reflexivity. erewrite bind_run by reflexivity.
    change (emit (ELog "Flushing remaining items...") _) with w4.
    assert (Hfl : flushBatch true w4 =
                    (Return (Z.of_nat (length (persistedOf
                       (attempts (faults (env w)) (calls (env w))
                          (batchBuffer (service w)))))),
                     (flushBatch true w4).2)).
    { destruct (flushBatch true w4) as [c w5]. cbn [fst snd] in *. now subst c. }
    erewrite bind_run by exact Hfl.
    erewrite bind_run by reflexivity. erewrite bind_run by reflexivity.
    unfold when. destruct (_ >? 0).
    - erewrite bind_run by reflexivity. eexists. split; [reflexivity|].
      repeat split; reflexivity.
    - erewrite bind_run by reflexivity. eexists. split; [reflexivity|].
      repeat split; reflexivity. }
  destruct Hrun as (w6 & Hrun & S1 & S2 & S3). rewrite Hrun. cbn [fst snd].
  assert (Hended : forall handle, endedAt w3 handle -> endedAt w6 handle).
  { intros handle He c. unfold endedAt in He. rewrite S3, G3, F7. apply He. }
  rewrite S1, S2.
  split; [reflexivity|]. split; [rewrite G4; exact F6|].
  split; [intros handle Hin; apply Hended, E6, Hin|].
  split; [intros handle Hc; apply Hended, E7, L6, Hc|].
  split; [exact Hd|]. split; [exact Hb|].
  split; [rewrite Hb; intros data; apply inserted_or_failed|].
  split; [apply insertedOf_atomic|]. split; assumption.
Qed.

Lemma the_shutdown_flushes_the_buffer_witness :
  let second n (c : StorageCall) := Nat.eqb n 1 in
  let buffer := [Sample.reading "D1" 1800 1; Sample.reading "D2" 300 2;
                 Sample.reading "D4" 2600 3] in
  let h := {| Handles.client := None; Handles.batchFlushInterval := true;
              Handles.deviceTimeoutMonitorInterval := true |} in
  let w := (connectToDeviceBrokers 1 (Sample.make second Sample.silent buffer)).2 in
  let w' := (disconnect h [0; 1; 2; 3; 4]%nat w).2 in
  let late := (connectToDeviceBrokers 1 (Sample.makeLate second Sample.silent buffer)).2 in
  let late' := (disconnect h [0; 1; 2; 3; 4]%nat late).2 in
  map ended (connections (env w')) = [true; true; true; true; true]
  /\ length (deviceData (storage w')) = 4%nat
  /\ batchBuffer (service w') = [Sample.reading "D1" 1800 1]
  /\ devices (storage w') = devices (storage w)
  /\ map DeviceData.deviceId (deviceData (storage late')) = ["D1"; "D1"; "D1"; "D2"; "D4"]
  /\ batchBuffer (service late') = [Sample.reading "D1" 1800 1].
Proof.
  intros second buffer h w w' late late'.
  destruct (the_shutdown_flushes_the_buffer h [0; 1; 2; 3; 4]%nat w)
    as (_ & _ & _ & _ & Hd & Hb & _ & _ & Hdev & _).
  destruct (the_shutdown_flushes_the_buffer h [0; 1; 2; 3; 4]%nat late)
    as (_ & _ & _ & _ & Hd' & Hb' & _).
  fold w' in Hd, Hb, Hdev. fold late' in Hd', Hb'. rewrite Hd, Hb, Hdev, Hd', Hb'.
  vm_compute. repeat split; reflexivity.
Defined.

(** X27. A device whose client disconnected is waiting, and the sweep
    never marks it offline.  On a storage that answers, with distinct row
    identifiers, the ['disconnect'] handler sets the row of the device to
    the status waiting with the instant of the event as [lastSeen];
    a sweep made any time later leaves the row so, since it only demotes
    devices that are online.  When the update of the row throws, the
    rejection is handled by nobody and nothing is broadcast; the tables
    are as they were when the UPDATE failed, and the row is waiting
    already when it is the SELECT after the UPDATE that failed. *)
Theorem a_disconnected_device_stays_waiting
    (device row : Device.t) (ms : Z) (w : World) :
  let w' := (activities [Disconnected device; Elapse ms; MonitorTimer] w).2 in
  let t := clock (env w) in
  let update := UpdateDevice (Device.id device) (waitingAt t) in
  (reliable w ->
   NoDup (map Device.id (devices (storage w))) ->
   In row (devices (storage w)) ->
   Device.id row = Device.id device ->
   In (Device.merge row (waitingAt t)) (devices (storage w'))
   /\ offlineEvents (storage w') =
        offlineEvents (storage w)
          ++ eventsFor (t + ms) (currentOfflineEventId (storage w))
               (filter (fun x => timedOut (t + ms) x = true)
                  (devices (storage (onDisconnect device w).2))))
  /\ (fails w 0 update = true ->
      onDisconnect device w =
        (Return tt, emit (EUnhandledRejection "storage") (refused device (waitingAt t) w))
      /\ trace (onDisconnect device w).2 =
           trace w ++ [EStorage update false; EUnhandledRejection "storage"]
      /\ (wrote w 0 update = false -> storage (onDisconnect device w).2 = storage w)
      /\ (wrote w 0 update = true ->
          devices (storage (onDisconnect device w).2) =
            map (fun d => if Device.id d =? Device.id device
                          then Device.merge d (waitingAt t) else d)
                (devices (storage w)))).
Proof.
  cbv zeta. split.
  - intros Hr Hid Hin Hrow.
    assert (Hw' : (activities [Disconnected device; Elapse ms; MonitorTimer] w).2 =
                    (checkDeviceTimeouts
                       (with_env (fun e => set_clock (clock e + ms) e)
                          (onDisconnect device w).2)).2).
    { rewrite !activities_cons. cbn [perform activities for_of ret snd].
      unfold modify. cbn [snd]. now rewrite monitor_run. }
    rewrite Hw'. clear Hw'.
    rewrite onDisconnect_effects. cbn [snd].
    replace (fails w 0 _) with false by (symmetry; apply Hr).
    set (w1 := updated device (waitingAt (clock (env w))) w).
    set (w2 := with_env (fun e => set_clock (clock e + ms) e) w1).
    assert (Hr2 : reliable w2) by (intros n c; apply Hr).
    assert (Hid2 : NoDup (map Device.id (devices (storage w2)))).
    { cbn. rewrite map_map. erewrite map_ext; [exact Hid|].
      intros d. now destruct (Device.id d =? Device.id device). }
    destruct (sweep_reliable w2 Hr2 Hid2) as (Hsw & Hev & _). cbv zeta in Hsw, Hev.
    rewrite Hsw, Hev. split; [|reflexivity].
    assert (Hseen : In (Device.merge row (waitingAt (clock (env w)))) (devices (storage w2))).
    { cbn. apply in_map_iff. exists row. split; [|exact Hin].
      rewrite Hrow, Z.eqb_refl. reflexivity. }
    apply (in_map (swept (clock (env w2)))) in Hseen.
    assert (Heq : swept (clock (env w2)) (Device.merge row (waitingAt (clock (env w)))) =
                    Device.merge row (waitingAt (clock (env w)))).
    { unfold swept, timedOut. cbn. now rewrite andb_false_r. }
    rewrite <- Heq. exact Hseen.
  - intros F. rewrite onDisconnect_effects, F. split; [reflexivity|].
    cbn [snd emit storage refused trace].
    split; [now rewrite <- app_assoc|].
    destruct (wrote w 0 _); split; intros E;
      solve [discriminate E | reflexivity].
Qed.

Lemma a_disconnected_device_stays_waiting_witness :
  let w' := (activities [Disconnected Sample.D4; Elapse 3600000; MonitorTimer]
               Sample.world).2 in
  let late := Sample.makeLate (fun n _ => Nat.eqb n 0) Sample.silent [] in
  In (Device.merge Sample.D4 (waitingAt 100000)) (devices (storage w'))
  /\ map Device.status (devices (storage w'))
     = ["offline"; "waiting"; "online"; "waiting"; "offline"; "offline"]
  /\ In (Device.merge Sample.D4 (waitingAt 100000))
        (devices (storage (onDisconnect Sample.D4 late).2))
  /\ In (EUnhandledRejection "storage") (trace (onDisconnect Sample.D4 late).2).
Proof.
  intros w' late.
  destruct (a_disconnected_device_stays_waiting Sample.D4 Sample.D4 3600000 Sample.world)
    as [H _].
  destruct (a_disconnected_device_stays_waiting Sample.D4 Sample.D4 0 late) as [_ H'].
  destruct (H' eq_refl) as (_ & Ht & _ & Hl).
  assert (Hr : reliable Sample.world) by (intros n c; reflexivity).
  assert (Hid : NoDup (map Device.id (devices (storage Sample.world)))).
  { apply (bool_decide_unpack _). vm_compute. exact I. }
  destruct (H Hr Hid) as [H1 _]; [cbn; tauto | reflexivity |].
  split; [exact H1|]. split; [vm_compute; reflexivity|].
  rewrite Ht, (Hl eq_refl). split; cbn; tauto.
Defined.
